(** * Operational scripts of the Cloudflare management API repository

    A shallow embedding of the three scripts under [scripts/]:
    - [manage-secrets.py]      (module [Secrets]),
    - [test-cloudflare-token.py] (module [Tester]),
    - [extract-pr-comments.py] (module [Extractor]),
    preceded by the fragment of Python's built-in behaviour they rely on
    (module [Py]): text as sequences of code points, [str.strip],
    [str.split], insertion-ordered dictionaries, decoded JSON values and
    exceptions.  External collaborators (the wrangler and gh command lines,
    the HTTP API, the file system) are oracles; every call made to them is
    recorded in a trace. *)

From Stdlib Require Import Strings.String Strings.Ascii Strings.Byte.
From Stdlib Require Import Bool Arith ZArith NArith Lia.
From Stdlib Require Import List Permutation Sorted.
Import ListNotations.
Local Open Scope list_scope.

Set Implicit Arguments.
Set Warnings "-register-all".

(* ================================================================== *)
(** * Python built-ins *)
(* ================================================================== *)

Module Py.

(** A Python [str] is a sequence of Unicode code points. *)
Definition char := N.
Definition str := list char.

(** ASCII literals of the source. *)
Definition lit (s : string) : str :=
  map N_of_ascii (list_ascii_of_string s).

(** A Python [bytes] object. *)
Definition bytes := list byte.
Definition blit (s : string) : bytes := list_byte_of_string s.
Arguments lit s%_string.
Arguments blit s%_string.

Fixpoint list_eqb {A} (eqb : A -> A -> bool) (a b : list A) : bool :=
  match a, b with
  | [], [] => true
  | x :: a', y :: b' => eqb x y && list_eqb eqb a' b'
  | _, _ => false
  end.

Definition str_eqb : str -> str -> bool := list_eqb N.eqb.

(** Truthiness of a sequence: non-empty. *)
Definition nonempty {A} (l : list A) : bool :=
  match l with [] => false | _ :: _ => true end.

(** [str.isspace] on one code point (the set used by [str.strip()]). *)
Definition is_space (c : char) : bool :=
  (((9 <=? c) && (c <=? 13)) || ((28 <=? c) && (c <=? 32))
   || (c =? 133) || (c =? 160) || (c =? 5760)
   || ((8192 <=? c) && (c <=? 8202))
   || (c =? 8232) || (c =? 8233) || (c =? 8239) || (c =? 8287)
   || (c =? 12288))%N.

Fixpoint lstrip_by (p : char -> bool) (s : str) : str :=
  match s with
  | [] => []
  | c :: t => if p c then lstrip_by p t else s
  end.

Definition rstrip_by (p : char -> bool) (s : str) : str :=
  rev (lstrip_by p (rev s)).

Definition strip_by (p : char -> bool) (s : str) : str :=
  rstrip_by p (lstrip_by p s).

(** [s.strip()] *)
Definition strip : str -> str := strip_by is_space.

(** [s.strip(chars)]: every leading and trailing code point that occurs in
    [chars] is removed. *)
Definition strip_chars (chars : str) : str -> str :=
  strip_by (fun c => existsb (N.eqb c) chars).

(** [s.startswith(p)] *)
Fixpoint startswith {A} (eqb : A -> A -> bool) (p s : list A) : bool :=
  match p, s with
  | [], _ => true
  | x :: p', y :: s' => eqb x y && startswith eqb p' s'
  | _ :: _, [] => false
  end.

(** [s.endswith(p)] *)
Definition endswith {A} (eqb : A -> A -> bool) (p s : list A) : bool :=
  startswith eqb (rev p) (rev s).

(** [needle in hay] on [str] and [bytes]: a contiguous occurrence. *)
Fixpoint is_infix {A} (eqb : A -> A -> bool) (needle hay : list A) : bool :=
  startswith eqb needle hay
  || match hay with
     | [] => false
     | _ :: hay' => is_infix eqb needle hay'
     end.

Definition str_in : str -> str -> bool := is_infix N.eqb.
Definition bytes_in : bytes -> bytes -> bool := is_infix Byte.eqb.

(** [s.split(sep, 1)] when the one-character [sep] occurs in [s]: the text
    before the first occurrence and the text after it; [None] when [sep]
    does not occur ([sep in s] is false). *)
Fixpoint split_once (sep : char) (s : str) : option (str * str) :=
  match s with
  | [] => None
  | c :: t =>
      if c =? sep then Some ([], t)
      else match split_once sep t with
           | Some (a, b) => Some (c :: a, b)
           | None => None
           end
  end%N.

(** [s.split(sep)] for a non-empty separator [sep]: the scan keeps the
    segment being read in [cur] (reversed) and, after a match, skips the
    remaining [skip] code points of the separator. *)
Fixpoint split_scan (sep : str) (s : str) (skip : nat) (cur : str)
  : list str :=
  match s with
  | [] => [rev cur]
  | c :: t =>
      match skip with
      | S k => split_scan sep t k cur
      | O =>
          if startswith N.eqb sep s
          then rev cur :: split_scan sep t (length sep - 1) []
          else split_scan sep t 0 (c :: cur)
      end
  end.

Definition split (sep : str) (s : str) : list str := split_scan sep s 0 [].

(** [s.replace(old, "")] for a non-empty [old]. *)
Definition remove_all (old : str) (s : str) : str := concat (split old s).

(** [sep.join(parts)] *)
Fixpoint join (sep : str) (parts : list str) : str :=
  match parts with
  | [] => []
  | [p] => p
  | p :: rest => p ++ sep ++ join sep rest
  end.

(** Iterating a text file yields its lines, each with its terminator.  The
    content is the text as read in text mode, line ends already turned
    into LF. *)
Fixpoint lines_from (s : str) (cur : str) : list str :=
  match s with
  | [] => match cur with [] => [] | _ => [rev cur] end
  | c :: t =>
      if (c =? 10)%N then rev (c :: cur) :: lines_from t []
      else lines_from t (c :: cur)
  end.

Definition file_lines (contents : str) : list str := lines_from contents [].

(** ** Ordering of [str] (code point by code point), and [sorted] *)

Fixpoint str_leb (a b : str) : bool :=
  match a, b with
  | [], _ => true
  | _ :: _, [] => false
  | x :: a', y :: b' =>
      match N.compare x y with
      | Lt => true
      | Gt => false
      | Eq => str_leb a' b'
      end
  end.

Fixpoint insert_sorted (x : str) (l : list str) : list str :=
  match l with
  | [] => [x]
  | y :: t => if str_leb x y then x :: l else y :: insert_sorted x t
  end.

(** [sorted(l)] on strings. *)
Fixpoint sorted (l : list str) : list str :=
  match l with
  | [] => []
  | x :: t => insert_sorted x (sorted t)
  end.

(** ** Dictionaries

    A [dict] keeps its keys in insertion order; assigning to a key that is
    present replaces the value in place. *)
Definition dict (V : Type) := list (str * V).

Fixpoint dict_get {V} (k : str) (d : dict V) : option V :=
  match d with
  | [] => None
  | (k', v) :: t => if str_eqb k k' then Some v else dict_get k t
  end.

Fixpoint dict_set {V} (k : str) (v : V) (d : dict V) : dict V :=
  match d with
  | [] => [(k, v)]
  | (k', v') :: t =>
      if str_eqb k k' then (k', v) :: t else (k', v') :: dict_set k v t
  end.

Definition dict_keys {V} (d : dict V) : list str := map fst d.

Definition dict_mem {V} (k : str) (d : dict V) : bool :=
  match dict_get k d with Some _ => true | None => false end.

(** ** Decoded JSON values

    What [json.loads] and [response.json()] return.  A float is kept only
    up to the one thing the scripts observe of it, whether it is zero. *)
Inductive json :=
| JNull
| JBool (b : bool)
| JInt (z : Z)
| JFloat (is_zero : bool)
| JStr (s : str)
| JList (l : list json)
| JDict (d : list (str * json)).

(** Truthiness, as tested by [if v] and [a and b]. *)
Definition truthy (v : json) : bool :=
  match v with
  | JNull => false
  | JBool b => b
  | JInt z => negb (z =? 0)%Z
  | JFloat is_zero => negb is_zero
  | JStr s => nonempty s
  | JList l => nonempty l
  | JDict d => nonempty d
  end.

(** Formatted text: an f-string is kept as its literal pieces and the
    values interpolated into it ([str(v)] is not expanded). *)
Inductive piece :=
| Lit (s : str)
| Fmt (v : json).

Definition text := list piece.

(** ** Exceptions *)
Inductive exn :=
| AttributeError
| TypeError
| KeyError
| IndexError
| ValueError
| ZeroDivisionError
| SystemExit (code : Z).

Inductive result (A : Type) :=
| Ok (a : A)
| Raise (e : exn).
Arguments Ok {A} a.
Arguments Raise {A} e.

Definition rbind {A B} (r : result A) (k : A -> result B) : result B :=
  match r with
  | Ok a => k a
  | Raise e => Raise e
  end.

(** [v.get(key, default)] *)
Definition py_get (v : json) (key : str) (default : json) : result json :=
  match v with
  | JDict d =>
      match dict_get key d with
      | Some x => Ok x
      | None => Ok default
      end
  | _ => Raise AttributeError
  end.

(** [v[key]] for a string key. *)
Definition py_item (v : json) (key : str) : result json :=
  match v with
  | JDict d =>
      match dict_get key d with
      | Some x => Ok x
      | None => Raise KeyError
      end
  | _ => Raise TypeError
  end.

(** [v[0]] *)
Definition py_first (v : json) : result json :=
  match v with
  | JList (x :: _) => Ok x
  | JList [] => Raise IndexError
  | JStr (c :: _) => Ok (JStr [c])
  | JStr [] => Raise IndexError
  | JDict _ => Raise KeyError
  | _ => Raise TypeError
  end.

(** [len(v)] *)
Definition py_len (v : json) : result nat :=
  match v with
  | JList l => Ok (length l)
  | JStr s => Ok (length s)
  | JDict d => Ok (length d)
  | _ => Raise TypeError
  end.

(** [v[:n]], as the sequence of its elements. *)
Definition py_take (n : nat) (v : json) : result (list json) :=
  match v with
  | JList l => Ok (firstn n l)
  | JStr s => Ok (map (fun c => JStr [c]) (firstn n s))
  | _ => Raise TypeError
  end.

(** [key in v] for a string key. *)
Definition py_contains (key : str) (v : json) : result bool :=
  match v with
  | JDict d => Ok (dict_mem key d)
  | JList l =>
      Ok (existsb (fun x => match x with
                            | JStr s => str_eqb s key
                            | _ => false
                            end) l)
  | JStr s => Ok (str_in key s)
  | _ => Raise TypeError
  end.

(** [sep.join(vs)]: every element must be a [str]. *)
Fixpoint all_strs (vs : list json) : result (list str) :=
  match vs with
  | [] => Ok []
  | JStr s :: t => rbind (all_strs t) (fun r => Ok (s :: r))
  | _ :: _ => Raise TypeError
  end.

Definition py_join (sep : str) (vs : list json) : result str :=
  rbind (all_strs vs) (fun ss => Ok (join sep ss)).

(** [[f(x) for x in xs]] where [f] may raise. *)
Fixpoint map_result {A B} (f : A -> result B) (xs : list A)
  : result (list B) :=
  match xs with
  | [] => Ok []
  | x :: t =>
      rbind (f x) (fun y => rbind (map_result f t) (fun r => Ok (y :: r)))
  end.

End Py.

(* ================================================================== *)
(** * manage-secrets.py *)
(* ================================================================== *)

Module Secrets.
Import Py.

Definition ESC : char := 27%N.
Definition BLUE : str := ESC :: lit "[94m".
Definition RESET : str := ESC :: lit "[0m".

Definition HASH : str := lit "#".
Definition EQUALS : char := 61%N.
Definition DQUOTE : str := [34%N].
Definition SQUOTE : str := [39%N].

(** The body of the loop of [load_secrets] on one line of the file: the
    entry the line contributes, if any.  [split_once] answers both
    ['=' in line] and [line.split('=', 1)]. *)
Definition parse_line (line : str) : option (str * str) :=
  let line := strip line in
  if negb (nonempty line) || startswith N.eqb HASH line then None
  else
    match split_once EQUALS line with
    | Some (key, value) =>
        let key := strip key in
        let value := strip_chars SQUOTE (strip_chars DQUOTE (strip value)) in
        if nonempty key && nonempty value then Some (key, value) else None
    | None => None
    end.

Definition load_line (secrets : dict str) (line : str) : dict str :=
  match parse_line line with
  | Some (key, value) => dict_set key value secrets
  | None => secrets
  end.

(** [self.secrets] after the loop over the lines of the file. *)
Definition load_lines (lines : list str) : dict str :=
  fold_left load_line lines [].

(** [load_secrets]: [dev_vars] is the content of [.dev.vars], [None] when
    the file does not exist.  Returns the method's result and
    [self.secrets]. *)
Definition load_secrets (dev_vars : option str) : bool * dict str :=
  match dev_vars with
  | None => (false, [])
  | Some contents =>
      let secrets := load_lines (file_lines contents) in
      (nonempty secrets, secrets)
  end.

(** The masked form of a value shown by [list_secrets]. *)
Definition STAR : char := 42%N.

Definition mask (value : str) : str :=
  if 20 <? length value
  then firstn 10 value ++ lit "..." ++ skipn (length value - 10) value
  else repeat STAR (length value).

(** The rows of [list_secrets], in the order they are printed: the key and
    the masked value. *)
Definition list_rows (secrets : dict str) : list (str * str) :=
  flat_map (fun key =>
              match dict_get key secrets with
              | Some value => [(key, mask value)]
              | None => []
              end)
           (sorted (dict_keys secrets)).

Definition render_row (row : str * str) : str :=
  lit "  " ++ BLUE ++ fst row ++ RESET ++ lit " = " ++ snd row.

(** One run of the wrangler command line. *)
Record invocation := {
  inv_cmd : list str;
  inv_stdin : str;
  inv_timeout : nat
}.

Inductive proc_outcome :=
| Completed (returncode : Z) (stdout stderr : bytes)
| TimeoutExpired
| OtherException.

(** What is recorded of a run of the script.  Of its console output, the
    listing rows, the warnings and the reported counters are kept; banners
    and progress marks are not. *)
Inductive event :=
| Run (i : invocation)
| Printed (line : str)
| Warning (msg : str)
| EnvSummary (success fail : nat)
| FinalSummary (success fail : nat).

Definition trace := list event.

(** The command line is an oracle: its outcome may depend on everything
    that happened before. *)
Definition runner := trace -> invocation -> proc_outcome.

Definition list_secrets (secrets : dict str) (tr : trace) : trace :=
  tr ++ map (fun row => Printed (render_row row)) (list_rows secrets).

Definition SUCCESS_MARKER : bytes := blit "Success".

(** Lines 120-132: how the outcome of the command is classified. *)
Definition upload_ok (o : proc_outcome) : bool :=
  match o with
  | Completed returncode stdout _ =>
      (returncode =? 0)%Z && bytes_in SUCCESS_MARKER stdout
  | TimeoutExpired => false
  | OtherException => false
  end.

Definition upload_command (key environment : str) : list str :=
  let env_flag :=
    if nonempty environment && negb (str_eqb environment (lit "default"))
    then lit "--env=" ++ environment
    else [] in
  [lit "npx"; lit "wrangler"; lit "secret"; lit "put"; key]
  ++ (if nonempty env_flag then [env_flag] else []).

(** [upload_secret]: one run of the command line, the value given on its
    standard input.  Whatever is raised inside the [try] block (the
    time-out, a failure to start the command, a failure to decode the
    error output) is answered with [False]. *)
Definition upload_secret (run : runner) (key value environment : str)
  (tr : trace) : bool * trace :=
  let i := {| inv_cmd := upload_command key environment;
              inv_stdin := value;
              inv_timeout := 30 |} in
  (upload_ok (run tr i), tr ++ [Run i]).

Definition skip_warning (key : str) : str :=
  lit "Secret '" ++ key ++ lit "' not found in .dev.vars, skipping".

(** The body of the loop of [sync_to_environment]; the state is
    [(success_count, fail_count)] and the trace. *)
Definition sync_key (run : runner) (secrets : dict str) (environment : str)
  (acc : nat * nat * trace) (key : str) : nat * nat * trace :=
  let '(success_count, fail_count, tr) := acc in
  match dict_get key secrets with
  | None => (success_count, fail_count, tr ++ [Warning (skip_warning key)])
  | Some value =>
      let '(ok, tr') := upload_secret run key value environment tr in
      if ok then (S success_count, fail_count, tr')
      else (success_count, S fail_count, tr')
  end.

(** [keys if keys else list(self.secrets.keys())] *)
Definition keys_to_sync (secrets : dict str) (keys : option (list str))
  : list str :=
  match keys with
  | Some (k :: ks) => k :: ks
  | _ => dict_keys secrets
  end.

Definition sync_to_environment (run : runner) (secrets : dict str)
  (environment : str) (keys : option (list str)) (tr : trace)
  : nat * nat * trace :=
  let '(success_count, fail_count, tr') :=
    fold_left (sync_key run secrets environment)
              (keys_to_sync secrets keys) (0, 0, tr) in
  (success_count, fail_count, tr' ++ [EnvSummary success_count fail_count]).

Definition sync_env (run : runner) (secrets : dict str)
  (keys : option (list str)) (acc : nat * nat * trace) (env : str)
  : nat * nat * trace :=
  let '(total_success, total_fail, tr) := acc in
  let '(success, fail, tr') :=
    sync_to_environment run secrets env keys tr in
  (total_success + success, total_fail + fail, tr').

(** [sync_all_environments] returns [total_fail == 0]. *)
Definition sync_all_environments (run : runner) (secrets : dict str)
  (environments : list str) (keys : option (list str)) (tr : trace)
  : bool * trace :=
  let '(total_success, total_fail, tr') :=
    fold_left (sync_env run secrets keys) environments (0, 0, tr) in
  (total_fail =? 0, tr' ++ [FinalSummary total_success total_fail]).

(** The parsed command line: [--list], [--env], [--all], [--keys]. *)
Record args := {
  arg_list : bool;
  arg_env : option (list str);
  arg_all : bool;
  arg_keys : option (list str)
}.

(** Lines 256-264: the environments named by [--all] or [--env]; [None]
    when neither is given. *)
Definition environments_of (a : args) : option (list str) :=
  if arg_all a then Some [lit "default"; lit "production"]
  else match arg_env a with
       | Some (e :: es) => Some (e :: es)
       | _ => None
       end.

(** [main]: the exit status of the process and its trace. *)
Definition main (a : args) (dev_vars : option str) (run : runner)
  : Z * trace :=
  let '(loaded, secrets) := load_secrets dev_vars in
  if negb loaded then (1%Z, [])
  else if arg_list a then (0%Z, list_secrets secrets [])
  else
    match environments_of a with
    | None => (1%Z, [])
    | Some environments =>
        let '(success, tr) :=
          sync_all_environments run secrets environments (arg_keys a) [] in
        ((if success then 0 else 1)%Z, tr)
    end.

End Secrets.

(* ================================================================== *)
(** * test-cloudflare-token.py *)
(* ================================================================== *)

Module Tester.
Import Py.

Definition ESC : char := 27%N.
Definition GREEN : str := ESC :: lit "[92m".
Definition RED : str := ESC :: lit "[91m".
Definition RESET : str := ESC :: lit "[0m".

(** [token_type]: the script only ever passes ["account"] or ["user"]. *)
Inductive token_kind := Account | User.

Definition capitalize (k : token_kind) : str :=
  match k with
  | Account => lit "Account"
  | User => lit "User"
  end.

(** The fields of a [CloudflareTokenTester] set by [__init__]; the
    [results] list lives in the state below. *)
Record tester := {
  token : str;
  account_id : str;
  token_type : token_kind;
  verify_url : option str
}.

Definition base_url : str := lit "https://api.cloudflare.com/client/v4".

Inductive method := GET | POST.

Record request := {
  req_method : method;
  req_url : str;
  req_bearer : str;
  req_timeout : nat
}.

(** What comes back from the [requests] library: an exception, or a
    response with its status and its body decoded by [response.json()]
    ([None] when the body is not JSON). *)
Inductive http_outcome :=
| Timeout
| RequestException (msg : str)
| Response (status_code : Z) (body : option json).

Inductive event :=
| Request (r : request)
| Sleep (seconds : nat)
| Warn (msg : str).

Definition trace := list event.

(** The network is an oracle: its answer may depend on everything that
    happened before. *)
Definition backend := trace -> request -> http_outcome.

(** A recorded probe result: [(name, success, message)]. *)
Definition probe_result : Type := str * bool * text.

Record state := {
  results : list probe_result;
  log : trace
}.

(** Computations that read and extend the state and may raise. *)
Definition M (A : Type) : Type := state -> result A * state.

Definition ret {A} (a : A) : M A := fun s => (Ok a, s).

Definition bind {A B} (m : M A) (k : A -> M B) : M B :=
  fun s =>
    match m s with
    | (Ok a, s') => k a s'
    | (Raise e, s') => (Raise e, s')
    end.

Definition lift {A} (r : result A) : M A := fun s => (r, s).

Definition raise {A} (e : exn) : M A := fun s => (Raise e, s).

Definition emit (e : event) : M unit :=
  fun s => (Ok tt, {| results := results s; log := log s ++ [e] |}).

Notation "x <- m ;; k" := (bind m (fun x => k))
  (at level 61, m at next level, right associativity).
Notation "' pat <- m ;; k" := (bind m (fun x => match x with pat => k end))
  (at level 61, pat pattern, m at next level, right associativity).
Notation "m ;;; k" := (bind m (fun _ => k))
  (at level 61, right associativity).

(** [print_test]: a result is recorded unless [success is None]. *)
Definition print_test (name : str) (success : option bool) (message : text)
  : M unit :=
  fun s =>
    match success with
    | Some b =>
        (Ok tt, {| results := results s ++ [(name, b, message)];
                   log := log s |})
    | None => (Ok tt, s)
    end.

Definition UNKNOWN_ERROR : json := JStr (lit "Unknown error").

(** [errors[0].get(field, default) if errors else default] *)
Definition first_error (errors : json) (field : str) (default : json)
  : result json :=
  if truthy errors
  then rbind (py_first errors) (fun e0 => py_get e0 field default)
  else Ok default.

(** The body of [make_request] once the library call has returned or
    raised.  The three handlers cover [Timeout], [RequestException] and
    [JSONDecodeError]; anything else raised in the [try] block leaves the
    method. *)
Definition classify (o : http_outcome) : result (bool * text * json) :=
  match o with
  | Timeout =>
      Ok (false, [Lit (RED ++ lit "Request timeout" ++ RESET)], JDict [])
  | RequestException e =>
      Ok (false, [Lit (RED ++ lit "Request failed: " ++ e ++ RESET)],
          JDict [])
  | Response _ None =>
      Ok (false, [Lit (RED ++ lit "Invalid JSON response" ++ RESET)],
          JDict [])
  | Response status_code (Some data) =>
      rbind (if (status_code =? 200)%Z
             then rbind (py_get data (lit "success") JNull)
                        (fun v => Ok (truthy v))
             else Ok false)
        (fun ok =>
           if ok
           then Ok (true, [Lit (GREEN ++ lit "Success" ++ RESET)], data)
           else
             rbind (py_get data (lit "errors") (JList [])) (fun errors =>
             rbind (first_error errors (lit "message") UNKNOWN_ERROR)
               (fun error_msg =>
             rbind (first_error errors (lit "code") (JStr (lit "N/A")))
               (fun error_code =>
             Ok (false,
                 [Lit (RED ++ lit "Error "); Fmt error_code; Lit (lit ": ");
                  Fmt error_msg; Lit RESET],
                 data)))))
  end.

Definition get_request (self : tester) (endpoint : str) : request :=
  {| req_method := GET;
     req_url := base_url ++ endpoint;
     req_bearer := token self;
     req_timeout := 10 |}.

Definition make_request (net : backend) (self : tester) (endpoint : str)
  : M (bool * text * json) :=
  fun s =>
    let r := get_request self endpoint in
    (classify (net (log s) r),
     {| results := results s; log := log s ++ [Request r] |}).

(** Test 1 *)
Definition verify_endpoint (self : tester) : str :=
  match verify_url self with
  | Some (c :: u) => remove_all base_url (c :: u)
  | _ => lit "/user/tokens/verify"
  end.

Definition verification_name (self : tester) : str :=
  capitalize (token_type self) ++ lit " Token Verification".

Definition test_token_verification (net : backend) (self : tester)
  : M bool :=
  '(success, message, data) <- make_request net self (verify_endpoint self) ;;
  (if success : bool
   then
     result <- lift (py_get data (lit "result") (JDict [])) ;;
     token_id <- lift (py_get result (lit "id") (JStr (lit "N/A"))) ;;
     status <- lift (py_get result (lit "status") (JStr (lit "N/A"))) ;;
     expires_on <-
       lift (py_get result (lit "expires_on") (JStr (lit "Never"))) ;;
     print_test (verification_name self) (Some true)
       [Lit (lit "Token ID: "); Fmt token_id; Lit (lit ", Status: ");
        Fmt status; Lit (lit ", Expires: "); Fmt expires_on]
   else print_test (verification_name self) (Some false) message) ;;;
  ret success.

(** Tests 2 to 7 share one shape: list a kind of resource, show the
    [field] of the first [shown] of them.  [when_empty] is what is recorded
    when the list is empty. *)
Definition list_probe (net : backend) (self : tester) (endpoint name : str)
  (field : str) (shown : nat) (noun : str) (when_empty : bool * text)
  : M bool :=
  '(success, message, data) <- make_request net self endpoint ;;
  (if success : bool
   then
     items <- lift (py_get data (lit "result") (JList [])) ;;
     count <- lift (py_len items) ;;
     if 0 <? count
     then
       first_items <- lift (py_take shown items) ;;
       names <- lift (map_result
                        (fun x => py_get x field (JStr (lit "Unnamed")))
                        first_items) ;;
       joined <- lift (py_join (lit ", ") names) ;;
       print_test name (Some true)
         [Lit (lit "Found "); Fmt (JInt (Z.of_nat count)); Lit noun;
          Lit joined]
     else print_test name (Some (fst when_empty)) (snd when_empty)
   else print_test name (Some false) message) ;;;
  ret success.

Definition account_path (self : tester) (suffix : str) : str :=
  lit "/accounts/" ++ account_id self ++ suffix.

Definition test_account_access (net : backend) (self : tester) : M bool :=
  list_probe net self (lit "/accounts") (lit "List Accounts")
    (lit "name") 3 (lit " account(s): ")
    (false, [Lit (lit "No accounts accessible")]).

Definition test_workers_list (net : backend) (self : tester) : M bool :=
  list_probe net self (account_path self (lit "/workers/scripts"))
    (lit "List Workers Scripts") (lit "id") 5 (lit " script(s): ")
    (true, [Lit (lit "No Workers scripts found (but access granted)")]).

Definition test_d1_databases (net : backend) (self : tester) : M bool :=
  list_probe net self (account_path self (lit "/d1/database"))
    (lit "List D1 Databases") (lit "name") 3 (lit " database(s): ")
    (true, [Lit (lit "No D1 databases found (but access granted)")]).

Definition test_kv_namespaces (net : backend) (self : tester) : M bool :=
  list_probe net self (account_path self (lit "/storage/kv/namespaces"))
    (lit "List KV Namespaces") (lit "title") 3 (lit " namespace(s): ")
    (true, [Lit (lit "No KV namespaces found (but access granted)")]).

Definition test_ai_models (net : backend) (self : tester) : M bool :=
  list_probe net self (account_path self (lit "/ai/models/search"))
    (lit "List AI Models") (lit "name") 3 (lit " model(s): ")
    (true, [Lit (lit "No AI models found (but access granted)")]).

Definition tokens_endpoint (self : tester) : str :=
  match token_type self with
  | Account => account_path self (lit "/tokens")
  | User => lit "/user/tokens"
  end.

Definition test_api_tokens_list (net : backend) (self : tester) : M bool :=
  list_probe net self (tokens_endpoint self)
    (lit "List API Tokens") (lit "name") 3 (lit " token(s): ")
    (true, [Lit (lit "No tokens found (but access granted)")]).

Definition count_passed (rs : list probe_result) : nat :=
  length (filter (fun r => snd (fst r)) rs).

(** [print_summary] returns [(passed, failed)]; the success rate divides by
    the number of results. *)
Definition print_summary : M (nat * nat) :=
  fun s =>
    let total := length (results s) in
    let passed := count_passed (results s) in
    let failed := total - passed in
    if total =? 0 then (Raise ZeroDivisionError, s)
    else (Ok (passed, failed), s).

Definition run_all_tests (net : backend) (self : tester) : M (nat * nat) :=
  test_token_verification net self ;;;
  test_account_access net self ;;;
  test_workers_list net self ;;;
  test_d1_databases net self ;;;
  test_kv_namespaces net self ;;;
  test_ai_models net self ;;;
  test_api_tokens_list net self ;;;
  print_summary.

(** A new tester object starts with an empty [results] list. *)
Definition new_tester : M unit :=
  fun s => (Ok tt, {| results := []; log := log s |}).

(** ** Reading [.dev.vars] *)

Definition HASH : str := lit "#".
Definition EQUALS : char := 61%N.
Definition DQUOTE : str := [34%N].
Definition SQUOTE : str := [39%N].

(** The body of the loop of [load_env_vars] on one line of the file. *)
Definition env_line (env_vars : dict str) (line : str) : dict str :=
  let line := strip line in
  if nonempty line && negb (startswith N.eqb HASH line)
  then
    match split_once EQUALS line with
    | Some (key, value) =>
        let value := strip_chars SQUOTE (strip_chars DQUOTE value) in
        dict_set key value env_vars
    | None => env_vars
    end
  else env_vars.

(** [load_env_vars]: [dev_vars] is the content of the file, [None] when it
    does not exist (the script then exits with status 1). *)
Definition load_env_vars (dev_vars : option str) : result (dict str) :=
  match dev_vars with
  | None => Raise (SystemExit 1)
  | Some contents => Ok (fold_left env_line (file_lines contents) [])
  end.

(** ** The heal call *)

(** Display of one entry of [auto_heal_results].  [sliced] tells whether
    the added permissions are shown through a slice (account token) or by
    plain iteration (user token). *)
Definition show_heal_result (sliced : bool) (r : json) : result unit :=
  rbind (py_get r (lit "success") JNull) (fun ok =>
  if truthy ok
  then
    rbind (py_get r (lit "permissions_added") (JList [])) (fun added =>
    rbind (py_len added) (fun perms_added =>
    if (0 <? perms_added) && sliced
    then rbind (py_take 5 added) (fun _ => Ok tt)
    else Ok tt))
  else
    rbind (py_get r (lit "error") JNull) (fun err =>
    if truthy err
    then rbind (py_item r (lit "error")) (fun _ => Ok tt)
    else Ok tt)).

Definition show_heal_entry (sliced : bool) (key : str) (heal_results : json)
  : result unit :=
  rbind (py_contains key heal_results) (fun present =>
  if present : bool
  then rbind (py_item heal_results key) (show_heal_result sliced)
  else Ok tt).

(** Lines 405-437. *)
Definition show_heal_results (data : json) : result unit :=
  rbind (py_get data (lit "data") (JDict [])) (fun d =>
  rbind (py_get d (lit "auto_heal_results") JNull) (fun r =>
  if truthy r
  then
    rbind (py_item data (lit "data")) (fun d' =>
    rbind (py_item d' (lit "auto_heal_results")) (fun heal_results =>
    rbind (show_heal_entry true (lit "account_token") heal_results)
      (fun _ => show_heal_entry false (lit "user_token") heal_results)))
  else Ok tt)).

(** What the [try] block of [trigger_self_heal] computes from a response
    whose body is JSON. *)
Definition heal_answer (status_code : Z) (data : json) : result bool :=
  rbind (if (status_code =? 200)%Z
         then rbind (py_get data (lit "success") JNull)
                    (fun v => Ok (truthy v))
         else Ok false)
    (fun ok =>
       if ok
       then rbind (show_heal_results data) (fun _ => Ok true)
       else rbind (py_get data (lit "message") UNKNOWN_ERROR)
                  (fun _ => Ok false)).

Definition heal_request (worker_url auth_token : str) : request :=
  {| req_method := POST;
     req_url := worker_url ++ lit "/tokens/heal";
     req_bearer := auth_token;
     req_timeout := 30 |}.

(** The two handlers of [trigger_self_heal] ([Timeout] and [Exception])
    catch everything and return [False]. *)
Definition heal_outcome (o : http_outcome) : bool :=
  match o with
  | Timeout => false
  | RequestException _ => false
  | Response _ None => false
  | Response status_code (Some data) =>
      match heal_answer status_code data with
      | Ok b => b
      | Raise _ => false
      end
  end.

Definition trigger_self_heal (net : backend) (worker_url auth_token : str)
  : M bool :=
  fun s =>
    let r := heal_request worker_url auth_token in
    (Ok (heal_outcome (net (log s) r)),
     {| results := results s; log := log s ++ [Request r] |}).

(** ** [main] *)

(** [not v] for the result of [env_vars.get(...)]. *)
Definition missing (v : option str) : bool :=
  match v with
  | Some (_ :: _) => false
  | _ => true
  end.

Definition value_of (v : option str) : str :=
  match v with
  | Some x => x
  | None => []
  end.

(** [a or b] *)
Definition or_else (a b : option str) : option str :=
  if missing a then b else a.

(** The configuration [main] reads from the loaded variables. *)
Record config := {
  cfg_account_id : option str;
  cfg_worker_url : option str;
  cfg_client_auth_token : option str;
  cfg_account_token : option str;
  cfg_account_verify_url : option str;
  cfg_user_token : option str;
  cfg_user_verify_url : option str
}.

Definition read_config (env_vars : dict str) : config :=
  {| cfg_account_id := dict_get (lit "CLOUDFLARE_ACCOUNT_ID") env_vars;
     cfg_worker_url :=
       or_else (dict_get (lit "WORKER_URL") env_vars)
               (dict_get (lit "BASE_URL") env_vars);
     cfg_client_auth_token := dict_get (lit "CLIENT_AUTH_TOKEN") env_vars;
     cfg_account_token := dict_get (lit "CLOUDFLARE_ACCOUNT_TOKEN") env_vars;
     cfg_account_verify_url :=
       dict_get (lit "CLOUDFLARE_ACCOUNT_TOKEN_VERIFY_URL") env_vars;
     cfg_user_token := dict_get (lit "CLOUDFLARE_USER_TOKEN") env_vars;
     cfg_user_verify_url :=
       dict_get (lit "CLOUDFLARE_USER_TOKEN_VERIFY_URL") env_vars |}.

Definition account_tester (c : config) : tester :=
  {| token := value_of (cfg_account_token c);
     account_id := value_of (cfg_account_id c);
     token_type := Account;
     verify_url := cfg_account_verify_url c |}.

Definition user_tester (c : config) : tester :=
  {| token := value_of (cfg_user_token c);
     account_id := value_of (cfg_account_id c);
     token_type := User;
     verify_url := cfg_user_verify_url c |}.

(** One pass over the credentials that are present: the battery for the
    account token, then for the user token, each on a new tester.  Returns
    the summed [(passed, failed)]. *)
Definition run_phase (net : backend) (c : config) : M (nat * nat) :=
  '(p1, f1) <-
    (if missing (cfg_account_token c) then ret (0, 0)
     else new_tester ;;; run_all_tests net (account_tester c)) ;;
  '(p2, f2) <-
    (if missing (cfg_user_token c) then ret (0, 0)
     else new_tester ;;; run_all_tests net (user_tester c)) ;;
  ret (p1 + p2, f1 + f2).

(** The success rate printed in the summaries divides by the number of
    results. *)
Definition success_rate (passed failed : nat) : M unit :=
  if passed + failed =? 0 then raise ZeroDivisionError else ret tt.

Definition NO_WORKER_URL : str :=
  lit "WORKER_URL not found in .dev.vars, cannot trigger self-heal".
Definition NO_AUTH_TOKEN : str :=
  lit "CLIENT_AUTH_TOKEN not found in .dev.vars, cannot trigger self-heal".

(** Lines 480-542: the INITIAL phase.  Returns the totals and
    [needs_healing]. *)
Definition initial_phase (net : backend) (c : config)
  : M (nat * nat * bool) :=
  '(p1, f1) <-
    (if missing (cfg_account_token c) then ret (0, 0)
     else new_tester ;;; run_all_tests net (account_tester c)) ;;
  '(p2, f2) <-
    (if missing (cfg_user_token c) then ret (0, 0)
     else new_tester ;;; run_all_tests net (user_tester c)) ;;
  success_rate (p1 + p2) (f1 + f2) ;;;
  ret (p1 + p2, f1 + f2, (0 <? f1) || (0 <? f2)).

(** Lines 544-635: healing and the RETEST phase.  Every path ends in
    [sys.exit]. *)
Definition heal_phase (net : backend) (c : config)
  (initial_total_passed initial_total_failed : nat) (needs_healing : bool)
  : M unit :=
  if needs_healing && (0 <? initial_total_failed)
  then
    if missing (cfg_worker_url c)
    then emit (Warn NO_WORKER_URL) ;;;
         raise (SystemExit (if 0 <? initial_total_failed then 1 else 0))
    else if missing (cfg_client_auth_token c)
    then emit (Warn NO_AUTH_TOKEN) ;;;
         raise (SystemExit (if 0 <? initial_total_failed then 1 else 0))
    else
      heal_success <-
        trigger_self_heal net (value_of (cfg_worker_url c))
                          (value_of (cfg_client_auth_token c)) ;;
      if heal_success : bool
      then
        emit (Sleep 3) ;;;
        '(retest_total_passed, retest_total_failed) <- run_phase net c ;;
        success_rate initial_total_passed initial_total_failed ;;;
        success_rate retest_total_passed retest_total_failed ;;;
        raise (SystemExit (if retest_total_failed =? 0 then 0 else 1))
      else raise (SystemExit 1)
  else raise (SystemExit 0).

Definition main (net : backend) (dev_vars : option str) : M unit :=
  env_vars <- lift (load_env_vars dev_vars) ;;
  let c := read_config env_vars in
  if missing (cfg_account_id c) then raise (SystemExit 1)
  else if missing (cfg_account_token c) && missing (cfg_user_token c)
  then raise (SystemExit 1)
  else
    '(initial_total_passed, initial_total_failed, needs_healing) <-
      initial_phase net c ;;
    heal_phase net c initial_total_passed initial_total_failed needs_healing.

(** The exit status of the process: the code given to [sys.exit], 1 when
    another exception reaches the top level. *)
Definition exit_status {A} (r : result A) : Z :=
  match r with
  | Ok _ => 0
  | Raise (SystemExit code) => code
  | Raise _ => 1
  end.

Definition initial_state : state := {| results := []; log := [] |}.

(** A whole run of the script. *)
Definition run_main (net : backend) (dev_vars : option str) : Z * trace :=
  let '(r, s) := main net dev_vars initial_state in
  (exit_status r, log s).

End Tester.

(* ================================================================== *)
(** * extract-pr-comments.py *)
(* ================================================================== *)

Module Extractor.
Import Py.

Definition NL : str := [10%N].
Definition DQUOTE : str := [34%N].

(** A finished child process: its exit status and its standard output. *)
Record completed := {
  returncode : Z;
  stdout : str
}.

Inductive event :=
| Shell (command : text)
| Created (filename : text)
| Written (filename : text) (data : text).

Definition trace := list event.

(** The shell and the file system are oracles. *)
Record world := {
  shell : trace -> text -> completed;
  can_open : trace -> text -> bool;
  can_write : trace -> text -> text -> bool
}.

(** [run_gh_command]: [check=True] turns a non-zero exit status into
    [CalledProcessError], answered with [None]. *)
Definition run_gh_command (w : world) (command : text) (tr : trace)
  : option str * trace :=
  let r := shell w tr command in
  (if (returncode r =? 0)%Z then Some (strip (stdout r)) else None,
   tr ++ [Shell command]).

(** [pr_info] *)
Record pr_descriptor := {
  pr_number : json;
  pr_title : json;
  pr_repo : str
}.

(** Lines 56-71: owner and repository name out of the remote URL.  [None]
    stands for [return None] and for the exceptions the enclosing handler
    turns into it. *)
Definition repo_of_remote (remote_url : str) : option (str * str) :=
  if str_in (lit "github.com") remote_url
  then
    let parts :=
      if startswith N.eqb (lit "https://") remote_url
      then split (lit "github.com/") remote_url
      else split (lit "github.com:") remote_url in
    match nth_error parts 1 with
    | None => None
    | Some repo_part =>
        let repo_part :=
          if endswith N.eqb (lit ".git") repo_part
          then firstn (length repo_part - 4) repo_part
          else repo_part in
        match split (lit "/") repo_part with
        | [owner; repo] => Some (owner, repo)
        | _ => None
        end
    end
  else None.

Section WithJsonLoads.

(** [json.loads], [None] when it raises. *)
Variable json_loads : str -> option json.

(** Lines 84-98: the first open pull request of the listing. *)
Definition first_pr (prs_output : str) : option (json * json) :=
  match json_loads prs_output with
  | None => None
  | Some prs =>
      if negb (truthy prs) then None
      else
        match py_first prs with
        | Raise _ => None
        | Ok pr =>
            match py_item pr (lit "number"), py_item pr (lit "title") with
            | Ok number, Ok title => Some (number, title)
            | _, _ => None
            end
        end
  end.

Definition pr_list_command (owner repo : str) : text :=
  [Lit (lit "gh pr list --repo " ++ owner ++ lit "/" ++ repo
        ++ lit " --json number,title,headRefName")].

Definition get_open_pr (w : world) (tr : trace)
  : option pr_descriptor * trace :=
  let '(remote_url, tr1) :=
    run_gh_command w [Lit (lit "git config --get remote.origin.url")] tr in
  match remote_url with
  | Some (c :: u) =>
      match repo_of_remote (c :: u) with
      | None => (None, tr1)
      | Some (owner, repo) =>
          let '(prs_output, tr2) :=
            run_gh_command w (pr_list_command owner repo) tr1 in
          match prs_output with
          | Some (c' :: o) =>
              match first_pr (c' :: o) with
              | Some (number, title) =>
                  (Some {| pr_number := number;
                           pr_title := title;
                           pr_repo := owner ++ lit "/" ++ repo |}, tr2)
              | None => (None, tr2)
              end
          | _ => (None, tr2)
          end
      end
  | _ => (None, tr1)
  end.

Definition comments_command (pr_info : pr_descriptor) : text :=
  [Lit (lit "gh api repos/" ++ pr_repo pr_info ++ lit "/pulls/");
   Fmt (pr_number pr_info);
   Lit (lit "/comments --paginate --jq '.[] | " ++ DQUOTE
        ++ lit "\(.path):\(.line) - \(.body)" ++ DQUOTE ++ lit "'")].

(** [extract_pr_comments]: [None] when the fetch failed. *)
Definition extract_pr_comments (w : world) (pr_info : pr_descriptor)
  (tr : trace) : option (list str) * trace :=
  let '(comments_output, tr') :=
    run_gh_command w (comments_command pr_info) tr in
  match comments_output with
  | None => (None, tr')
  | Some out =>
      (Some (if nonempty (strip out) then split NL (strip out) else []),
       tr')
  end.

Definition report_name (pr_info : pr_descriptor) : text :=
  [Lit (lit "pr_"); Fmt (pr_number pr_info); Lit (lit "_comments.txt")].

(** What [save_comments_to_file] writes, one element per [f.write]. *)
Definition report_chunks (comments : list str) (pr_info : pr_descriptor)
  : list text :=
  [ [Lit (lit "PR #"); Fmt (pr_number pr_info); Lit (lit ": ");
     Fmt (pr_title pr_info); Lit NL];
    [Lit (lit "Repository: " ++ pr_repo pr_info ++ NL)];
    [Lit (repeat 61%N 50 ++ NL ++ NL)] ]
  ++ match comments with
     | [] => [ [Lit (lit "No comments found." ++ NL)] ]
     | _ :: _ => map (fun comment => [Lit (comment ++ NL ++ NL)]) comments
     end.

(** The writes, until one fails. *)
Fixpoint write_all (w : world) (filename : text) (chunks : list text)
  (tr : trace) : bool * trace :=
  match chunks with
  | [] => (true, tr)
  | data :: rest =>
      if can_write w tr filename data
      then write_all w filename rest (tr ++ [Written filename data])
      else (false, tr)
  end.

(** [save_comments_to_file]: the file name, [None] when opening or writing
    raised. *)
Definition save_comments_to_file (w : world) (comments : list str)
  (pr_info : pr_descriptor) (tr : trace) : option text * trace :=
  let filename := report_name pr_info in
  if can_open w tr filename
  then
    let '(ok, tr') :=
      write_all w filename (report_chunks comments pr_info)
                (tr ++ [Created filename]) in
    (if ok : bool then Some filename else None, tr')
  else (None, tr).

(** [main]: the exit status of the process and its trace. *)
Definition main (w : world) : Z * trace :=
  let '(version, tr0) :=
    run_gh_command w [Lit (lit "gh --version")] [] in
  match version with
  | Some (_ :: _) =>
      let '(pr_info, tr1) := get_open_pr w tr0 in
      match pr_info with
      | None => (1%Z, tr1)
      | Some pr_info =>
          let '(comments, tr2) := extract_pr_comments w pr_info tr1 in
          match comments with
          | None => (1%Z, tr2)
          | Some comments =>
              let '(filename, tr3) :=
                save_comments_to_file w comments pr_info tr2 in
              match filename with
              | Some _ => (0%Z, tr3)
              | None => (1%Z, tr3)
              end
          end
      end
  | _ => (1%Z, tr0)
  end.

End WithJsonLoads.

End Extractor.

(* ================================================================== *)
(** * Notions used to state the properties *)
(* ================================================================== *)

Module Spec.
Import Py.

(** No entry of the mapping has an empty key or an empty value. *)
Definition no_empty_entry (d : dict str) : Prop :=
  forall k v, In (k, v) d -> k <> [] /\ v <> [].

(** The entries a secrets file contributes, in file order. *)
Definition parsed_entries (lines : list str) : list (str * str) :=
  flat_map (fun line =>
              match Secrets.parse_line line with
              | Some e => [e]
              | None => []
              end) lines.

(** The value of the last occurrence of [k] in a list of entries. *)
Fixpoint last_value (k : str) (es : list (str * str)) : option str :=
  match es with
  | [] => None
  | (k', v) :: t =>
      match last_value k t with
      | Some v' => Some v'
      | None => if str_eqb k k' then Some v else None
      end
  end.

(** The keys in the order of their first occurrence. *)
Fixpoint first_seen (ks : list str) : list str :=
  match ks with
  | [] => []
  | k :: t => k :: filter (fun x => negb (str_eqb x k)) (first_seen t)
  end.

Definition str_le (a b : str) : Prop := str_leb a b = true.

(** The line terminator. *)
Definition LF : str := [10%N].

(** The invocations recorded in a trace. *)
Definition runs_of (tr : Secrets.trace) : list Secrets.invocation :=
  flat_map (fun e => match e with Secrets.Run i => [i] | _ => [] end) tr.

(** The attempts of a stretch [evs] of trace that follows [pre], counted
    by how the command line answered each of them: (successes, failures). *)
Fixpoint tally (run : Secrets.runner) (pre evs : Secrets.trace)
  : nat * nat :=
  match evs with
  | [] => (0, 0)
  | e :: rest =>
      let '(s, f) := tally run (pre ++ [e]) rest in
      match e with
      | Secrets.Run i =>
          if Secrets.upload_ok (run pre i) then (S s, f) else (s, S f)
      | _ => (s, f)
      end
  end.

(** The keys of a selection that the mapping holds, with their values. *)
Definition present_pairs (secrets : dict str) (keys : list str)
  : list (str * str) :=
  flat_map (fun k => match dict_get k secrets with
                     | Some v => [(k, v)]
                     | None => []
                     end) keys.

Definition upload_invocation (environment : str) (kv : str * str)
  : Secrets.invocation :=
  {| Secrets.inv_cmd := Secrets.upload_command (fst kv) environment;
     Secrets.inv_stdin := snd kv;
     Secrets.inv_timeout := 30 |}.

(** What the synchronizer records when every selected key is unknown: a
    warning per key and the counters of the environment, for each
    environment, then the grand totals. *)
Definition all_skipped (ks envs : list str) : Secrets.trace :=
  flat_map (fun _ : str =>
              map (fun k => Secrets.Warning (Secrets.skip_warning k)) ks
              ++ [Secrets.EnvSummary 0 0]) envs
  ++ [Secrets.FinalSummary 0 0].

(** ** Sample inputs *)

(** A secrets file with two entries. *)
Definition two_secrets : str :=
  lit "API_KEY=abc123" ++ LF ++ lit "# comment" ++ LF ++ LF
  ++ lit "DB_URL='postgres://db'" ++ LF.

(** A command line that accepts [API_KEY] and rejects everything else
    with exit status 1. *)
Definition sample_runner : Secrets.runner :=
  fun _ i =>
    if existsb (str_eqb (lit "API_KEY")) (Secrets.inv_cmd i)
    then Secrets.Completed 0 (blit "Success! Uploaded secret") []
    else Secrets.Completed 1 [] (blit "unauthorized").

Definition sync_unknown_keys : Secrets.args :=
  {| Secrets.arg_list := false;
     Secrets.arg_env := Some [lit "production"];
     Secrets.arg_all := false;
     Secrets.arg_keys := Some [lit "MISSING"; lit "ALSO_MISSING"] |}.

End Spec.

(** ** The probe battery *)

Module Battery.
Import Py Tester.

(** The seven probes, in the order [run_all_tests] calls them. *)
Inductive probe :=
| Verification
| Accounts
| Workers
| Databases
| Namespaces
| Models
| ApiTokens.

Definition battery : list probe :=
  [Verification; Accounts; Workers; Databases; Namespaces; Models;
   ApiTokens].

Definition run_probe (net : backend) (self : tester) (p : probe) : M bool :=
  match p with
  | Verification => test_token_verification net self
  | Accounts => test_account_access net self
  | Workers => test_workers_list net self
  | Databases => test_d1_databases net self
  | Namespaces => test_kv_namespaces net self
  | Models => test_ai_models net self
  | ApiTokens => test_api_tokens_list net self
  end.

Definition probe_endpoint (self : tester) (p : probe) : str :=
  match p with
  | Verification => verify_endpoint self
  | Accounts => lit "/accounts"
  | Workers => account_path self (lit "/workers/scripts")
  | Databases => account_path self (lit "/d1/database")
  | Namespaces => account_path self (lit "/storage/kv/namespaces")
  | Models => account_path self (lit "/ai/models/search")
  | ApiTokens => tokens_endpoint self
  end.

Definition probe_request (self : tester) (p : probe) : request :=
  get_request self (probe_endpoint self p).

Definition probe_name (self : tester) (p : probe) : str :=
  match p with
  | Verification => verification_name self
  | Accounts => lit "List Accounts"
  | Workers => lit "List Workers Scripts"
  | Databases => lit "List D1 Databases"
  | Namespaces => lit "List KV Namespaces"
  | Models => lit "List AI Models"
  | ApiTokens => lit "List API Tokens"
  end.

(** What a list probe records for an empty list: the outcome and the
    message. *)
Definition empty_outcome (p : probe) : bool :=
  match p with
  | Accounts => false
  | _ => true
  end.

Definition empty_message (p : probe) : text :=
  match p with
  | Verification => []
  | Accounts => [Lit (lit "No accounts accessible")]
  | Workers => [Lit (lit "No Workers scripts found (but access granted)")]
  | Databases => [Lit (lit "No D1 databases found (but access granted)")]
  | Namespaces => [Lit (lit "No KV namespaces found (but access granted)")]
  | Models => [Lit (lit "No AI models found (but access granted)")]
  | ApiTokens => [Lit (lit "No tokens found (but access granted)")]
  end.

(** The probes [ps], then [k]. *)
Fixpoint run_probes {A} (net : backend) (self : tester) (ps : list probe)
  (k : M A) : M A :=
  match ps with
  | [] => k
  | p :: rest => bind (run_probe net self p) (fun _ => run_probes net self rest k)
  end.

(** One battery on a new tester. *)
Definition pass (net : backend) (self : tester) : M (nat * nat) :=
  bind new_tester (fun _ => run_all_tests net self).

(** What probe [p] makes of the answer [o] to its request: its result and
    the probe result it records, obtained by running the probe against a
    network that answers [o]. *)
Definition probe_answer (self : tester) (p : probe) (o : http_outcome)
  : result (bool * probe_result) :=
  match run_probe (fun _ _ => o) self p initial_state with
  | (Ok b, s) => Ok (b, hd ([], false, []) (results s))
  | (Raise e, _) => Raise e
  end.

(** A step that sends [r] and records what [f] makes of the answer. *)
Definition recorded_step (net : backend)
  (f : http_outcome -> result (bool * probe_result)) (r : request)
  : M bool :=
  fun s =>
    match f (net (log s) r) with
    | Ok (b, pr) =>
        (Ok b, {| results := results s ++ [pr];
                  log := log s ++ [Request r] |})
    | Raise e =>
        (Raise e, {| results := results s; log := log s ++ [Request r] |})
    end.

(** An answer that reports an error the way the API does: an exception
    of the library, a body that is not JSON, or a JSON object that is not a
    success (another status than 200, or a success flag that is not true)
    and whose [errors], if any, start with an object. *)
Definition error_answer (o : http_outcome) : Prop :=
  match o with
  | Timeout => True
  | RequestException _ => True
  | Response _ None => True
  | Response status_code (Some (JDict d)) =>
      (status_code <> 200%Z
       \/ match dict_get (lit "success") d with
          | Some v => truthy v = false
          | None => True
          end)
      /\ match dict_get (lit "errors") d with
         | Some errors =>
             truthy errors = false
             \/ exists e rest, errors = JList (JDict e :: rest)
         | None => True
         end
  | Response _ (Some _) => False
  end.

(** The network gives the same answer to a request whenever it is sent. *)
Definition unchanged (net : backend) : Prop :=
  forall tr tr' r, net tr r = net tr' r.

(** The pass/fail classifications of a list of probe results. *)
Definition classifications (rs : list probe_result) : list (str * bool) :=
  map fst rs.

(** No request of the trace is a POST. *)
Definition no_post (tr : trace) : Prop :=
  forall r, In (Request r) tr -> req_method r = GET.

(** ** Sample inputs *)

Definition sample_tester : tester :=
  {| token := lit "tok"; account_id := lit "acc1";
     token_type := Account; verify_url := None |}.

Definition envelope (success : bool) (fields : list (str * json)) : json :=
  JDict ((lit "success", JBool success) :: fields).

(** A token that can read everything, on an account that has nothing. *)
Definition empty_account : backend :=
  fun _ r =>
    if endswith N.eqb (lit "/verify") (req_url r)
    then Response 200
           (Some (envelope true
                    [(lit "result", JDict [(lit "id", JStr (lit "t1"))])]))
    else Response 200 (Some (envelope true [(lit "result", JList [])])).

(** Every call is refused with a well-formed error. *)
Definition denied : backend :=
  fun _ _ =>
    Response 403
      (Some (envelope false
               [(lit "errors",
                 JList [JDict [(lit "code", JInt 9109);
                               (lit "message", JStr (lit "Unauthorized"))]])])).

(** Every call is refused, the errors given as plain strings. *)
Definition refused_with_text : backend :=
  fun _ _ =>
    Response 403
      (Some (envelope false [(lit "errors", JList [JStr (lit "Forbidden")])])).

Definition account_only : str :=
  lit "CLOUDFLARE_ACCOUNT_ID=acc1" ++ Spec.LF
  ++ lit "CLOUDFLARE_ACCOUNT_TOKEN=tok" ++ Spec.LF.

Definition with_heal_endpoint : str :=
  account_only
  ++ lit "WORKER_URL=https://worker.example" ++ Spec.LF
  ++ lit "CLIENT_AUTH_TOKEN=secret" ++ Spec.LF.

(** A backend that refuses every call until the heal endpoint has been
    called, and then answers like [empty_account] with one account. *)
Definition healed_by_post : backend :=
  fun tr r =>
    match req_method r with
    | POST => Response 200 (Some (envelope true []))
    | GET =>
        if existsb (fun e => match e with
                             | Request q =>
                                 match req_method q with
                                 | POST => true
                                 | GET => false
                                 end
                             | _ => false
                             end) tr
        then
          if endswith N.eqb (lit "/verify") (req_url r)
          then Response 200 (Some (envelope true [(lit "result", JDict [])]))
          else if endswith N.eqb (lit "/accounts") (req_url r)
          then Response 200
                 (Some (envelope true
                          [(lit "result",
                            JList [JDict [(lit "name", JStr (lit "main"))]])]))
          else Response 200 (Some (envelope true [(lit "result", JList [])]))
        else denied tr r
    end.

(** Both the heal endpoint and its credential are configured. *)
Definition can_heal (c : config) : bool :=
  negb (missing (cfg_worker_url c))
  && negb (missing (cfg_client_auth_token c)).

(** The answer to the heal call sent in state [s]. *)
Definition heal_reply (net : backend) (c : config) (s : state)
  : http_outcome :=
  net (log s) (heal_request (value_of (cfg_worker_url c))
                            (value_of (cfg_client_auth_token c))).

(** The state in which the RETEST phase starts: after the heal call and
    the pause that follows it. *)
Definition after_heal (c : config) (s : state) : state :=
  {| results := results s;
     log := log s
            ++ [Request (heal_request (value_of (cfg_worker_url c))
                           (value_of (cfg_client_auth_token c)));
                Sleep 3] |}.

End Battery.

(** ** The comment report *)

Module Report.
Import Py Extractor.

(** The trace holds shell commands only: no file was created or written. *)
Definition only_shell (tr : trace) : Prop :=
  forall e, In e tr -> exists command, e = Shell command.

(** ** Sample inputs *)

(** A checkout of [owner/repo] with one open pull request, number 7, whose
    comments cannot be fetched. *)
Definition fetch_fails : world :=
  {| shell := fun _ command =>
       match command with
       | [Lit c] =>
           if str_eqb c (lit "gh --version")
           then {| returncode := 0; stdout := lit "gh version 2.40.0" |}
           else if str_eqb c (lit "git config --get remote.origin.url")
           then {| returncode := 0;
                   stdout := lit "https://github.com/owner/repo.git" |}
           else {| returncode := 0; stdout := lit "[{...}]" |}
       | _ => {| returncode := 1; stdout := [] |}
       end;
     can_open := fun _ _ => true;
     can_write := fun _ _ _ => true |}.

Definition one_pull_request (_ : str) : option json :=
  Some (JList [JDict [(lit "number", JInt 7);
                      (lit "title", JStr (lit "Fix the heal flow"))]]).

Definition pull_request_7 : pr_descriptor :=
  {| pr_number := JInt 7;
     pr_title := JStr (lit "Fix the heal flow");
     pr_repo := lit "owner/repo" |}.

End Report.

(** ** Further notions *)

Module More.
Import Py.

(** [s] neither starts nor ends with a code point satisfying [p]. *)
Definition ends_clean (p : char -> bool) (s : str) : Prop :=
  (forall c t, s = c :: t -> p c = false)
  /\ (forall c t, s = t ++ [c] -> p c = false).

Definition is_single_quote (c : char) : bool := existsb (N.eqb c) Secrets.SQUOTE.

(** Sync-mode arguments. *)
Definition sync_to (envs : list str) (keys : option (list str))
  : Secrets.args :=
  {| Secrets.arg_list := false;
     Secrets.arg_env := Some envs;
     Secrets.arg_all := false;
     Secrets.arg_keys := keys |}.

(** Listing-mode arguments. *)
Definition list_mode : Secrets.args :=
  {| Secrets.arg_list := true;
     Secrets.arg_env := None;
     Secrets.arg_all := false;
     Secrets.arg_keys := None |}.

(** The text [list_secrets] puts after [" = "] for a value of more than
    20 characters. *)
Definition elided (value : str) : str :=
  firstn 10 value ++ lit "..." ++ skipn (length value - 10) value.

(** The uploads of a run over [envs], in order: for each environment in
    turn, each selected key that the mapping holds, its value on the
    standard input. *)
Definition uploads_of (secrets : dict str) (keys : option (list str))
  (envs : list str) : list Secrets.invocation :=
  flat_map (fun env =>
              map (Spec.upload_invocation env)
                  (Spec.present_pairs secrets
                     (Secrets.keys_to_sync secrets keys))) envs.

(** ** Sample inputs *)

(** A file with a long value and a short one. *)
Definition long_and_short : str :=
  lit "TOKEN=abcdefghijklmnopqrstuvwxyz0123456789" ++ Spec.LF
  ++ lit "PIN=1234" ++ Spec.LF.

(** Two files with the same keys and values of the same lengths. *)
Definition short_values : str :=
  lit "PASSWORD=hunter" ++ Spec.LF ++ lit "PIN=1234" ++ Spec.LF.

Definition other_short_values : str :=
  lit "PASSWORD=secret" ++ Spec.LF ++ lit "PIN=9876" ++ Spec.LF.

(** A command line that refuses everything. *)
Definition refusing_runner : Secrets.runner :=
  fun _ _ => Secrets.Completed 1 [] (blit "unauthorized").

End More.

Module MoreTester.
Import Py Tester Battery.

Definition is_post (e : event) : bool :=
  match e with
  | Request r =>
      match req_method r with
      | POST => true
      | GET => false
      end
  | _ => false
  end.

(** The number of POST requests in a trace. *)
Definition count_posts (tr : trace) : nat := length (filter is_post tr).

(** The field a list probe shows of each item, how many items it shows,
    and the words it puts after the count. *)
Definition probe_field (p : probe) : str :=
  match p with
  | Workers => lit "id"
  | Namespaces => lit "title"
  | _ => lit "name"
  end.

Definition probe_shown (p : probe) : nat :=
  match p with
  | Workers => 5
  | _ => 3
  end.

Definition probe_noun (p : probe) : str :=
  match p with
  | Verification => []
  | Accounts => lit " account(s): "
  | Workers => lit " script(s): "
  | Databases => lit " database(s): "
  | Namespaces => lit " namespace(s): "
  | Models => lit " model(s): "
  | ApiTokens => lit " token(s): "
  end.

(** The name shown for an item: its [field] when that is a string,
    ["Unnamed"] when the item is an object without the field; nothing
    otherwise. *)
Definition item_name (field : str) (item : json) : option str :=
  match item with
  | JDict e =>
      match dict_get field e with
      | Some (JStr s) => Some s
      | Some _ => None
      | None => Some (lit "Unnamed")
      end
  | _ => None
  end.

(** The number of credentials that are present. *)
Definition credentials (c : config) : nat :=
  (if missing (cfg_account_token c) then 0 else 1)
  + (if missing (cfg_user_token c) then 0 else 1).

(** The requests of the batteries of one phase. *)
Definition phase_requests (c : config) : list request :=
  (if missing (cfg_account_token c) then []
   else map (probe_request (account_tester c)) battery)
  ++ (if missing (cfg_user_token c) then []
      else map (probe_request (user_tester c)) battery).

(** ** Sample inputs *)

(** Three workers, the first without an [id]. *)
Definition three_workers : backend :=
  fun _ _ =>
    Response 200
      (Some (envelope true
               [(lit "result",
                 JList [JDict []; JDict [(lit "id", JStr (lit "api"))];
                        JDict [(lit "id", JStr (lit "cron"))]])])).

(** The heal endpoint answers with a success and nothing else. *)
Definition heal_accepts : backend :=
  fun _ _ => Response 200 (Some (envelope true [])).

Definition with_custom_verify : tester :=
  {| token := lit "tok"; account_id := lit "acc1"; token_type := Account;
     verify_url := Some (base_url ++ lit "/accounts/acc1/tokens/verify") |}.

Definition no_account_id : str :=
  lit "CLOUDFLARE_ACCOUNT_TOKEN=tok" ++ Spec.LF.

Definition account_only_config : config :=
  read_config (fold_left env_line (file_lines account_only) []).

(** The first code point of a key is neither white space nor [#]. *)
Definition starts_like_a_key (k : str) : Prop :=
  forall c t, k = c :: t -> is_space c = false /\ c <> 35%N.

End MoreTester.

Module MoreReport.
Import Py Extractor Report.

Definition SLASH : char := 47%N.

(** The path of a repository in a remote URL. *)
Definition repo_path (owner repo : str) : str :=
  owner ++ lit "/" ++ repo ++ lit ".git".

Definition GIT_REMOTE : text :=
  [Lit (lit "git config --get remote.origin.url")].

Definition GH_VERSION : text := [Lit (lit "gh --version")].

(** ** Sample inputs *)

(** A checkout of [owner/repo] whose pull request has two comments, on a
    file system that accepts everything. *)
Definition two_comments : world :=
  {| shell := fun _ command =>
       match command with
       | [Lit c] =>
           if str_eqb c (lit "gh --version")
           then {| returncode := 0; stdout := lit "gh version 2.40.0" |}
           else if str_eqb c (lit "git config --get remote.origin.url")
           then {| returncode := 0;
                   stdout := lit "git@github.com:owner/repo.git" |}
           else {| returncode := 0; stdout := lit "[{...}]" |}
       | _ =>
           {| returncode := 0;
              stdout := lit "src/a.ts:3 - rename this" ++ NL
                        ++ lit "src/b.ts:9 - add a test" ++ NL |}
       end;
     can_open := fun _ _ => true;
     can_write := fun _ _ _ => true |}.

(** A checkout whose remote is on another host. *)
Definition other_host : world :=
  {| shell := fun _ command =>
       {| returncode := 0; stdout := lit "https://gitlab.com/owner/repo.git" |};
     can_open := fun _ _ => true;
     can_write := fun _ _ _ => true |}.

(** A machine without the gh command. *)
Definition no_gh : world :=
  {| shell := fun _ _ => {| returncode := 127; stdout := [] |};
     can_open := fun _ _ => true;
     can_write := fun _ _ _ => true |}.

End MoreReport.

(* ================================================================== *)
(** * Properties of the built-ins *)
(* ================================================================== *)

Unset Implicit Arguments.

Section PyFacts.
Import Py.

Lemma str_eqb_eq (a b : str) : str_eqb a b = true <-> a = b.
Proof.
  unfold str_eqb.
  revert b; induction a as [|x a IH]; intros [|y b]; simpl; split;
    try congruence; try reflexivity.
  - rewrite andb_true_iff, N.eqb_eq, IH. intros [-> ->]; reflexivity.
  - intros E; injection E as -> ->.
    apply andb_true_iff; split; [apply N.eqb_refl | apply IH; reflexivity].
Qed.

Lemma str_eqb_refl (a : str) : str_eqb a a = true.
Proof. apply str_eqb_eq; reflexivity. Qed.

Lemma str_eqb_neq (a b : str) : str_eqb a b = false <-> a <> b.
Proof.
  split.
  - intros E H. apply str_eqb_eq in H. congruence.
  - intros H. destruct (str_eqb a b) eqn:E; [|reflexivity].
    apply str_eqb_eq in E. contradiction.
Qed.

Lemma str_eqb_sym (a b : str) : str_eqb a b = str_eqb b a.
Proof.
  destruct (str_eqb a b) eqn:E.
  - apply str_eqb_eq in E; subst. symmetry; apply str_eqb_refl.
  - symmetry. apply str_eqb_neq. apply str_eqb_neq in E. congruence.
Qed.

Lemma nonempty_true {A} (l : list A) : nonempty l = true <-> l <> [].
Proof. destruct l; simpl; split; congruence. Qed.

Section Dict.
Variable V : Type.
Implicit Types (d : dict V) (k : str) (v : V).

Lemma dict_get_set k k' v d :
  dict_get k (dict_set k' v d)
  = if str_eqb k k' then Some v else dict_get k d.
Proof.
  induction d as [|[k0 v0] d IH]; simpl.
  - destruct (str_eqb k k'); reflexivity.
  - destruct (str_eqb k' k0) eqn:E0; simpl.
    + apply str_eqb_eq in E0; subst k0.
      destruct (str_eqb k k'); reflexivity.
    + destruct (str_eqb k k0) eqn:E1.
      * apply str_eqb_eq in E1; subst k0.
        rewrite str_eqb_sym, E0. reflexivity.
      * exact IH.
Qed.

Lemma dict_mem_set k k' v d :
  dict_mem k (dict_set k' v d) = dict_mem k d || str_eqb k k'.
Proof.
  unfold dict_mem. rewrite dict_get_set.
  destruct (str_eqb k k'), (dict_get k d); reflexivity.
Qed.

Lemma dict_keys_set k v d :
  dict_keys (dict_set k v d)
  = if dict_mem k d then dict_keys d else dict_keys d ++ [k].
Proof.
  unfold dict_mem, dict_keys.
  induction d as [|[k0 v0] d IH]; simpl; [reflexivity|].
  destruct (str_eqb k k0) eqn:E; simpl; [reflexivity|].
  rewrite IH. destruct (dict_get k d); reflexivity.
Qed.

Lemma dict_set_In k v k0 v0 d :
  In (k, v) (dict_set k0 v0 d) -> (k = k0 /\ v = v0) \/ In (k, v) d.
Proof.
  induction d as [|[k1 v1] d IH]; simpl.
  - intros [E|[]]. injection E as <- <-. left; split; reflexivity.
  - destruct (str_eqb k0 k1) eqn:E; simpl.
    + apply str_eqb_eq in E; subst k1.
      intros [H|H]; [injection H as <- <-; left; split; reflexivity|].
      right; right; exact H.
    + intros [H|H]; [right; left; exact H|].
      destruct (IH H) as [?|?]; [left; assumption | right; right; assumption].
Qed.

Lemma dict_mem_keys k d : In k (dict_keys d) -> dict_mem k d = true.
Proof.
  unfold dict_mem, dict_keys.
  induction d as [|[k0 v0] d IH]; simpl; [intros []|].
  intros [E|H].
  - subst k0. rewrite str_eqb_refl. reflexivity.
  - destruct (str_eqb k k0); [reflexivity | exact (IH H)].
Qed.

End Dict.

(** [sorted] returns its argument rearranged in ascending order. *)

Lemma str_leb_total (a b : str) : str_leb a b = false -> str_leb b a = true.
Proof.
  revert b; induction a as [|x a IH]; intros [|y b]; simpl;
    try congruence; try reflexivity.
  rewrite (N.compare_antisym x y).
  destruct (N.compare x y); simpl; try congruence; try reflexivity.
  apply IH.
Qed.

Lemma insert_sorted_perm (x : str) (l : list str) :
  Permutation (insert_sorted x l) (x :: l).
Proof.
  induction l as [|y l IH]; simpl; [reflexivity|].
  destruct (str_leb x y); [reflexivity|].
  rewrite IH. apply perm_swap.
Qed.

Lemma sorted_perm (l : list str) : Permutation (sorted l) l.
Proof.
  induction l as [|x l IH]; simpl; [reflexivity|].
  rewrite insert_sorted_perm. constructor; exact IH.
Qed.

Lemma insert_sorted_ordered (x : str) (l : list str) :
  Sorted Spec.str_le l -> Sorted Spec.str_le (insert_sorted x l).
Proof.
  induction l as [|y l IH]; simpl; intros H.
  - repeat constructor.
  - destruct (str_leb x y) eqn:E.
    + constructor; [exact H | constructor; exact E].
    + inversion H as [|? ? Hl Hy]; subst.
      constructor; [apply IH; exact Hl|].
      destruct l as [|z l]; simpl.
      * constructor. apply str_leb_total; exact E.
      * destruct (str_leb x z); constructor.
        -- apply str_leb_total; exact E.
        -- inversion Hy; assumption.
Qed.

Lemma sorted_ordered (l : list str) : Sorted Spec.str_le (sorted l).
Proof.
  induction l as [|x l IH]; simpl; [constructor|].
  apply insert_sorted_ordered; exact IH.
Qed.

(** A contiguous occurrence is no longer than the text it occurs in. *)

Lemma startswith_length {A} (eqb : A -> A -> bool) (p s : list A) :
  startswith eqb p s = true -> length p <= length s.
Proof.
  revert s; induction p as [|x p IH]; intros [|y s]; simpl; try lia;
    try congruence.
  rewrite andb_true_iff. intros [_ H]. apply IH in H. lia.
Qed.

Lemma is_infix_length {A} (eqb : A -> A -> bool) (needle hay : list A) :
  is_infix eqb needle hay = true -> length needle <= length hay.
Proof.
  induction hay as [|y hay IH]; simpl; rewrite orb_true_iff.
  - intros [H|H]; [|congruence].
    apply startswith_length in H. exact H.
  - intros [H|H].
    + apply startswith_length in H. exact H.
    + apply IH in H. lia.
Qed.

End PyFacts.

(* ================================================================== *)
(** * The secrets synchronizer *)
(* ================================================================== *)

Section SecretsFacts.
Import Py Spec.

(** ** Loading *)

Lemma parse_line_nonempty (line k v : str) :
  Secrets.parse_line line = Some (k, v) -> k <> [] /\ v <> [].
Proof.
  unfold Secrets.parse_line.
  destruct (negb (nonempty (strip line)) || _); [discriminate|].
  destruct (split_once _ _) as [[key value]|]; [|discriminate].
  destruct (nonempty (strip key) && _) eqn:E; [|discriminate].
  intros H; injection H as <- <-.
  apply andb_true_iff in E. destruct E as [Ek Ev].
  split; apply nonempty_true; assumption.
Qed.

Lemma load_line_no_empty (d : dict str) (line : str) :
  no_empty_entry d -> no_empty_entry (Secrets.load_line d line).
Proof.
  intros Hd. unfold Secrets.load_line.
  destruct (Secrets.parse_line line) as [[key value]|] eqn:E; [|exact Hd].
  intros k v Hin. apply dict_set_In in Hin.
  destruct Hin as [[-> ->]|Hin]; [|exact (Hd k v Hin)].
  exact (parse_line_nonempty line key value E).
Qed.

Lemma fold_load_no_empty (lines : list str) (d : dict str) :
  no_empty_entry d -> no_empty_entry (fold_left Secrets.load_line lines d).
Proof.
  revert d; induction lines as [|l lines IH]; simpl; intros d Hd.
  - exact Hd.
  - apply IH. apply load_line_no_empty. exact Hd.
Qed.

Lemma load_lines_no_empty (lines : list str) :
  no_empty_entry (Secrets.load_lines lines).
Proof.
  apply fold_load_no_empty. intros k v [].
Qed.

Lemma fold_load_get (k : str) (lines : list str) (d : dict str) :
  dict_get k (fold_left Secrets.load_line lines d)
  = match last_value k (parsed_entries lines) with
    | Some v => Some v
    | None => dict_get k d
    end.
Proof.
  revert d; induction lines as [|l lines IH]; simpl; intros d.
  - reflexivity.
  - rewrite IH. unfold Secrets.load_line, parsed_entries. simpl.
    fold (parsed_entries lines).
    destruct (Secrets.parse_line l) as [[k' v']|]; simpl; [|reflexivity].
    destruct (last_value k (parsed_entries lines)); [reflexivity|].
    rewrite dict_get_set. destruct (str_eqb k k'); reflexivity.
Qed.

Lemma filter_filter {A} (p q : A -> bool) (l : list A) :
  filter p (filter q l) = filter (fun x => p x && q x) l.
Proof.
  induction l as [|x l IH]; simpl; [reflexivity|].
  destruct (q x); simpl.
  - rewrite andb_true_r. destruct (p x); rewrite IH; reflexivity.
  - rewrite andb_false_r. exact IH.
Qed.

Lemma fold_load_keys (lines : list str) (d : dict str) :
  dict_keys (fold_left Secrets.load_line lines d)
  = dict_keys d
    ++ filter (fun k => negb (dict_mem k d))
              (first_seen (map fst (parsed_entries lines))).
Proof.
  revert d; induction lines as [|l lines IH]; simpl; intros d.
  - rewrite app_nil_r. reflexivity.
  - rewrite IH. unfold Secrets.load_line, parsed_entries. simpl.
    fold (parsed_entries lines).
    destruct (Secrets.parse_line l) as [[k' v']|]; simpl; [|reflexivity].
    rewrite dict_keys_set, filter_filter.
    destruct (dict_mem k' d) eqn:M; simpl.
    + f_equal. apply filter_ext. intros x. rewrite dict_mem_set.
      destruct (str_eqb x k') eqn:E; simpl.
      * apply str_eqb_eq in E; subst x. rewrite M. reflexivity.
      * rewrite orb_false_r, andb_true_r. reflexivity.
    + rewrite <- app_assoc. simpl. do 2 f_equal.
      apply filter_ext. intros x. rewrite dict_mem_set, negb_orb.
      reflexivity.
Qed.

(** ** Listing *)

Lemma rows_of_present_keys (secrets : dict str) (ks : list str) :
  (forall k, In k ks -> dict_mem k secrets = true) ->
  map fst (flat_map (fun key =>
                       match dict_get key secrets with
                       | Some value => [(key, Secrets.mask value)]
                       | None => []
                       end) ks) = ks.
Proof.
  induction ks as [|k ks IH]; simpl; intros H; [reflexivity|].
  assert (Hk := H k (or_introl eq_refl)). unfold dict_mem in Hk.
  destruct (dict_get k secrets); [|discriminate]. simpl.
  f_equal. apply IH. intros k' Hk'. apply H. right; exact Hk'.
Qed.

Lemma list_rows_keys (secrets : dict str) :
  map fst (Secrets.list_rows secrets) = sorted (dict_keys secrets).
Proof.
  unfold Secrets.list_rows. apply rows_of_present_keys.
  intros k Hk. apply dict_mem_keys.
  apply Permutation_in with (l := sorted (dict_keys secrets));
    [apply sorted_perm | exact Hk].
Qed.

(** ** Masking *)

Lemma mask_short (value : str) :
  length value <= 20 -> Secrets.mask value = repeat Secrets.STAR (length value).
Proof.
  intros H. unfold Secrets.mask.
  destruct (20 <? length value) eqn:E; [|reflexivity].
  apply Nat.ltb_lt in E. lia.
Qed.

Lemma mask_long_length (value : str) :
  20 < length value -> length (Secrets.mask value) = 23.
Proof.
  intros H. unfold Secrets.mask.
  apply Nat.ltb_lt in H as E. rewrite E.
  rewrite !length_app, length_firstn, length_skipn.
  change (length (lit "...")) with 3. lia.
Qed.

Lemma mask_hides_long_values (value : str) :
  23 < length value -> str_in value (Secrets.mask value) = false.
Proof.
  intros H. destruct (str_in value (Secrets.mask value)) eqn:E; [|reflexivity].
  apply is_infix_length in E. rewrite mask_long_length in E by lia.
  unfold str, char in *. exfalso; lia.
Qed.

(** ** Duplicate keys and the order of the listing *)

Lemma filter_all {A} (p : A -> bool) (l : list A) :
  (forall x, p x = true) -> filter p l = l.
Proof.
  intros H. induction l as [|x l IH]; simpl; [reflexivity|].
  rewrite H, IH. reflexivity.
Qed.

(** C3, the claim as stated fails on a file with a duplicate key: for the
    file [B=1], [A=2], [B=3] the key B occurs twice, the keys were first
    seen in the order B, A, the mapping holds them in that order with the
    last value of B, and the listing shows A before B. *)
Lemma listing_order_is_not_first_seen_order :
  let contents := lit "B=1" ++ LF ++ lit "A=2" ++ LF ++ lit "B=3" ++ LF in
  let secrets := snd (Secrets.load_secrets (Some contents)) in
  map fst (parsed_entries (file_lines contents))
  = [lit "B"; lit "A"; lit "B"]
  /\ first_seen (map fst (parsed_entries (file_lines contents)))
     = [lit "B"; lit "A"]
  /\ secrets = [(lit "B", lit "3"); (lit "A", lit "2")]
  /\ map fst (Secrets.list_rows secrets) = [lit "A"; lit "B"]
  /\ Secrets.main {| Secrets.arg_list := true; Secrets.arg_env := None;
                     Secrets.arg_all := false; Secrets.arg_keys := None |}
       (Some contents) (fun _ _ => Secrets.OtherException)
     = (0%Z, [Secrets.Printed (Secrets.render_row (lit "A", lit "*"));
              Secrets.Printed (Secrets.render_row (lit "B", lit "*"))]).
Proof. vm_compute. repeat split. Qed.

(** C3, as amended: for every secrets file the loaded mapping gives each
    key the value of its last occurrence and keeps the keys in the order
    they were first seen; the listing mode displays the keys in ascending
    order ([sorted]), a rearrangement of the keys of the mapping. *)
Theorem load_keeps_last_value_and_listing_is_sorted (contents : str) :
  let es := parsed_entries (file_lines contents) in
  let secrets := snd (Secrets.load_secrets (Some contents)) in
  (forall k, dict_get k secrets = last_value k es)
  /\ dict_keys secrets = first_seen (map fst es)
  /\ map fst (Secrets.list_rows secrets) = sorted (dict_keys secrets)
  /\ Sorted str_le (map fst (Secrets.list_rows secrets))
  /\ Permutation (map fst (Secrets.list_rows secrets)) (dict_keys secrets).
Proof.
  cbv zeta. simpl. unfold Secrets.load_lines.
  split; [|split; [|split; [|split]]].
  - intros k. rewrite fold_load_get.
    destruct (last_value k _); reflexivity.
  - rewrite fold_load_keys. simpl. apply filter_all. reflexivity.
  - apply list_rows_keys.
  - rewrite list_rows_keys. apply sorted_ordered.
  - rewrite list_rows_keys. apply sorted_perm.
Qed.

(** ** Masked values *)

(** C4, the listing at a value of 23 characters whose middle is three
    dots: the masked form is the value itself, and the row printed by the
    listing mode contains it in full. *)
Theorem listing_shows_a_23_character_value_in_full (run : Secrets.runner) :
  let value := lit "0123456789...0123456789" in
  let a := {| Secrets.arg_list := true; Secrets.arg_env := None;
              Secrets.arg_all := false; Secrets.arg_keys := None |} in
  length value = 23
  /\ Secrets.mask value = value
  /\ Secrets.main a (Some (lit "API_KEY=" ++ value)) run
     = (0%Z, [Secrets.Printed (Secrets.render_row (lit "API_KEY", value))])
  /\ str_in value (Secrets.render_row (lit "API_KEY", Secrets.mask value))
     = true.
Proof. vm_compute. repeat split. Qed.

(** ** Uploads *)

Lemma upload_ok_iff (o : Secrets.proc_outcome) :
  Secrets.upload_ok o = true
  <-> exists out err,
        o = Secrets.Completed 0 out err
        /\ bytes_in Secrets.SUCCESS_MARKER out = true.
Proof.
  destruct o as [rc out err| |]; simpl.
  - rewrite andb_true_iff, Z.eqb_eq. split.
    + intros [-> H]. exists out, err. split; [reflexivity | exact H].
    + intros (out' & err' & E & H). injection E as -> -> ->.
      split; [reflexivity | exact H].
  - split; [discriminate | intros (? & ? & E & _); discriminate].
  - split; [discriminate | intros (? & ? & E & _); discriminate].
Qed.

Lemma sync_key_absent (run : Secrets.runner) (secrets : dict str)
  (environment k : str) (s f : nat) (tr : Secrets.trace) :
  dict_get k secrets = None ->
  Secrets.sync_key run secrets environment (s, f, tr) k
  = (s, f, tr ++ [Secrets.Warning (Secrets.skip_warning k)]).
Proof. intros H. unfold Secrets.sync_key. rewrite H. reflexivity. Qed.

Lemma sync_key_present (run : Secrets.runner) (secrets : dict str)
  (environment k value : str) (s f : nat) (tr : Secrets.trace) :
  dict_get k secrets = Some value ->
  let i := upload_invocation environment (k, value) in
  Secrets.sync_key run secrets environment (s, f, tr) k
  = if Secrets.upload_ok (run tr i)
    then (S s, f, tr ++ [Secrets.Run i])
    else (s, S f, tr ++ [Secrets.Run i]).
Proof.
  intros H. unfold Secrets.sync_key, Secrets.upload_secret. rewrite H.
  unfold upload_invocation. simpl fst. simpl snd.
  destruct (Secrets.upload_ok _); reflexivity.
Qed.

Lemma present_pairs_cons (secrets : dict str) (k : str) (ks : list str) :
  present_pairs secrets (k :: ks)
  = match dict_get k secrets with
    | Some v => (k, v) :: present_pairs secrets ks
    | None => present_pairs secrets ks
    end.
Proof.
  unfold present_pairs. simpl. destruct (dict_get k secrets); reflexivity.
Qed.

Lemma fold_sync_key (run : Secrets.runner) (secrets : dict str)
  (environment : str) (ks : list str) :
  forall s0 f0 tr,
  exists s f evs,
    fold_left (Secrets.sync_key run secrets environment) ks (s0, f0, tr)
    = (s0 + s, f0 + f, tr ++ evs)
    /\ tally run tr evs = (s, f)
    /\ runs_of evs
       = map (upload_invocation environment) (present_pairs secrets ks)
    /\ s + f = length (present_pairs secrets ks).
Proof.
  induction ks as [|k ks IH]; intros s0 f0 tr.
  - exists 0, 0, []. simpl. rewrite !Nat.add_0_r, app_nil_r. auto.
  - cbn [fold_left]. rewrite present_pairs_cons.
    destruct (dict_get k secrets) as [value|] eqn:G.
    + rewrite (sync_key_present run secrets environment k value s0 f0 tr G).
      set (i := upload_invocation environment (k, value)).
      destruct (Secrets.upload_ok (run tr i)) eqn:Ok.
      * destruct (IH (S s0) f0 (tr ++ [Secrets.Run i]))
          as (s & f & evs & E & T & R & L).
        exists (S s), f, (Secrets.Run i :: evs).
        rewrite <- app_assoc in E. cbn [app Nat.add] in E.
        cbn [tally runs_of flat_map app map length].
        rewrite T, Ok, Nat.add_succ_r. fold (runs_of evs). rewrite R.
        split; [exact E | repeat split; lia].
      * destruct (IH s0 (S f0) (tr ++ [Secrets.Run i]))
          as (s & f & evs & E & T & R & L).
        exists s, (S f), (Secrets.Run i :: evs).
        rewrite <- app_assoc in E. cbn [app Nat.add] in E.
        cbn [tally runs_of flat_map app map length].
        rewrite T, Ok, !Nat.add_succ_r. fold (runs_of evs). rewrite R.
        split; [exact E | repeat split; lia].
    + rewrite (sync_key_absent run secrets environment k s0 f0 tr G).
      destruct (IH s0 f0 (tr ++ [Secrets.Warning (Secrets.skip_warning k)]))
        as (s & f & evs & E & T & R & L).
      exists s, f, (Secrets.Warning (Secrets.skip_warning k) :: evs).
      rewrite <- app_assoc in E. cbn [app] in E.
      cbn [tally runs_of flat_map app]. rewrite T. fold (runs_of evs).
      split; [exact E | repeat split; assumption].
Qed.

(** C6: an upload attempt is a success exactly when the command line
    exited with status zero and its captured output contains the marker;
    every pair of a selected key held by the mapping and the environment
    is attempted once, in order, whatever the earlier attempts gave, and
    the two counters returned are the numbers of attempts classified as
    success and as failure (a non-zero exit, a missing marker or a timeout
    adds one to the failure counter and nothing to the success counter). *)
Theorem upload_counts_follow_exit_status_and_marker
  (run : Secrets.runner) (secrets : dict str) (environment : str)
  (keys : option (list str)) (tr tr' : Secrets.trace) (s f : nat) :
  Secrets.sync_to_environment run secrets environment keys tr = (s, f, tr') ->
  (forall o, Secrets.upload_ok o = true
             <-> exists out err,
                   o = Secrets.Completed 0 out err
                   /\ bytes_in Secrets.SUCCESS_MARKER out = true)
  /\ Secrets.upload_ok Secrets.TimeoutExpired = false
  /\ exists evs,
       tr' = tr ++ evs ++ [Secrets.EnvSummary s f]
       /\ runs_of evs
          = map (upload_invocation environment)
                (present_pairs secrets (Secrets.keys_to_sync secrets keys))
       /\ tally run tr evs = (s, f)
       /\ s + f
          = length (present_pairs secrets (Secrets.keys_to_sync secrets keys)).
Proof.
  intros H. split; [exact upload_ok_iff|]. split; [reflexivity|].
  unfold Secrets.sync_to_environment in H.
  destruct (fold_sync_key run secrets environment
              (Secrets.keys_to_sync secrets keys) 0 0 tr)
    as (s1 & f1 & evs & E & T & R & L).
  rewrite E in H. simpl in H. injection H as <- <- <-.
  exists evs. rewrite <- app_assoc. auto.
Qed.

(** C6 at the sample file and command line: [API_KEY] is accepted and
    [DB_URL] is refused with exit status 1. *)
Lemma upload_counts_at_sample_run :
  let secrets := snd (Secrets.load_secrets (Some two_secrets)) in
  exists evs,
    Secrets.sync_to_environment sample_runner secrets (lit "production")
      None []
    = (1, 1, [] ++ evs ++ [Secrets.EnvSummary 1 1])
    /\ length (runs_of evs) = 2
    /\ tally sample_runner [] evs = (1, 1).
Proof.
  cbv zeta.
  destruct (upload_counts_follow_exit_status_and_marker
              sample_runner (snd (Secrets.load_secrets (Some two_secrets)))
              (lit "production") None []
              (snd (Secrets.sync_to_environment sample_runner
                      (snd (Secrets.load_secrets (Some two_secrets)))
                      (lit "production") None []))
              1 1 ltac:(vm_compute; reflexivity))
    as (_ & _ & evs & E & R & T & _).
  exists evs. split; [|split].
  - rewrite <- E. vm_compute. reflexivity.
  - rewrite R. vm_compute. reflexivity.
  - exact T.
Defined.

(** ** Selected keys that the mapping does not hold *)

Lemma fold_sync_absent (run : Secrets.runner) (secrets : dict str)
  (environment : str) (ks : list str) :
  (forall k, In k ks -> dict_get k secrets = None) ->
  forall s f tr,
    fold_left (Secrets.sync_key run secrets environment) ks (s, f, tr)
    = (s, f,
       tr ++ map (fun k => Secrets.Warning (Secrets.skip_warning k)) ks).
Proof.
  induction ks as [|k ks IH]; intros H s f tr; cbn [fold_left map].
  - rewrite app_nil_r. reflexivity.
  - rewrite (sync_key_absent run secrets environment k s f tr
               (H k (or_introl eq_refl))).
    rewrite IH by (intros k' Hk'; apply H; right; exact Hk').
    rewrite <- app_assoc. reflexivity.
Qed.

Lemma sync_to_environment_absent (run : Secrets.runner) (secrets : dict str)
  (environment : str) (ks : list str) (tr : Secrets.trace) :
  ks <> [] ->
  (forall k, In k ks -> dict_get k secrets = None) ->
  Secrets.sync_to_environment run secrets environment (Some ks) tr
  = (0, 0,
     tr ++ map (fun k => Secrets.Warning (Secrets.skip_warning k)) ks
        ++ [Secrets.EnvSummary 0 0]).
Proof.
  intros Hne H. unfold Secrets.sync_to_environment.
  replace (Secrets.keys_to_sync secrets (Some ks)) with ks
    by (destruct ks; [contradiction | reflexivity]).
  rewrite (fold_sync_absent run secrets environment ks H).
  rewrite <- app_assoc. reflexivity.
Qed.

Lemma fold_sync_env_absent (run : Secrets.runner) (secrets : dict str)
  (ks : list str) (envs : list str) :
  ks <> [] ->
  (forall k, In k ks -> dict_get k secrets = None) ->
  forall tr,
    fold_left (Secrets.sync_env run secrets (Some ks)) envs (0, 0, tr)
    = (0, 0,
       tr ++ flat_map
               (fun _ : str =>
                  map (fun k => Secrets.Warning (Secrets.skip_warning k)) ks
                  ++ [Secrets.EnvSummary 0 0]) envs).
Proof.
  intros Hne H.
  induction envs as [|e envs IH]; intros tr; cbn [fold_left flat_map].
  - rewrite app_nil_r. reflexivity.
  - unfold Secrets.sync_env at 2.
    rewrite (sync_to_environment_absent run secrets e ks tr Hne H).
    cbn [Nat.add]. rewrite IH. rewrite <- !app_assoc. reflexivity.
Qed.

Lemma runs_of_app (a b : Secrets.trace) :
  runs_of (a ++ b) = runs_of a ++ runs_of b.
Proof. unfold runs_of. apply flat_map_app. Qed.

Lemma runs_of_warnings (ks : list str) :
  runs_of (map (fun k => Secrets.Warning (Secrets.skip_warning k)) ks) = [].
Proof. induction ks as [|k ks IH]; simpl; [reflexivity | exact IH]. Qed.

Lemma runs_of_all_skipped (ks envs : list str) :
  runs_of (all_skipped ks envs) = [].
Proof.
  unfold all_skipped. rewrite runs_of_app. simpl. rewrite app_nil_r.
  induction envs as [|e envs IH]; simpl; [reflexivity|].
  rewrite !runs_of_app, IH, runs_of_warnings. reflexivity.
Qed.

(** C10: in sync mode a selected key that the loaded mapping does not hold
    is skipped with a warning and changes neither counter; a run whose
    selected keys are all unknown uploads nothing, reports a grand failure
    total of zero and exits with status 0. *)
Theorem unknown_keys_are_skipped_and_the_run_succeeds
  (a : Secrets.args) (contents : str) (run : Secrets.runner)
  (secrets : dict str) (ks envs : list str) :
  Secrets.load_secrets (Some contents) = (true, secrets) ->
  Secrets.arg_list a = false ->
  Secrets.environments_of a = Some envs ->
  Secrets.arg_keys a = Some ks ->
  ks <> [] ->
  (forall k, In k ks -> dict_get k secrets = None) ->
  (forall environment s f tr k,
      In k ks ->
      Secrets.sync_key run secrets environment (s, f, tr) k
      = (s, f, tr ++ [Secrets.Warning (Secrets.skip_warning k)]))
  /\ Secrets.main a (Some contents) run = (0%Z, all_skipped ks envs)
  /\ runs_of (all_skipped ks envs) = []
  /\ In (Secrets.FinalSummary 0 0) (all_skipped ks envs).
Proof.
  intros Hload Hlist Henv Hkeys Hne Habs.
  split; [|split; [|split]].
  - intros environment s f tr k Hk. apply sync_key_absent. apply Habs, Hk.
  - unfold Secrets.main. rewrite Hload, Hlist, Henv, Hkeys.
    cbn [negb]. unfold Secrets.sync_all_environments.
    rewrite (fold_sync_env_absent run secrets ks envs Hne Habs).
    reflexivity.
  - apply runs_of_all_skipped.
  - unfold all_skipped. apply in_or_app. right. left. reflexivity.
Qed.

(** C10 at the sample file, with two unknown keys selected for the
    production environment. *)
Lemma unknown_keys_at_sample_run :
  Secrets.main sync_unknown_keys (Some two_secrets) sample_runner
  = (0%Z, all_skipped [lit "MISSING"; lit "ALSO_MISSING"] [lit "production"])
  /\ runs_of (all_skipped [lit "MISSING"; lit "ALSO_MISSING"]
                          [lit "production"]) = [].
Proof.
  destruct (unknown_keys_are_skipped_and_the_run_succeeds
              sync_unknown_keys two_secrets sample_runner
              (snd (Secrets.load_secrets (Some two_secrets)))
              [lit "MISSING"; lit "ALSO_MISSING"]
              [lit "production"]
              ltac:(vm_compute; reflexivity)
              ltac:(reflexivity)
              ltac:(reflexivity)
              ltac:(reflexivity)
              ltac:(discriminate)
              ltac:(intros k [<-|[<-|[]]]; vm_compute; reflexivity))
    as (_ & Hmain & Hruns & _).
  split; [exact Hmain | exact Hruns].
Defined.

End SecretsFacts.

(* ================================================================== *)
(** * The token tester *)
(* ================================================================== *)

Section TesterFacts.
Import Py Tester Battery.

(** ** Every probe is one request and one recorded result *)

Lemma list_probe_step (self : tester) (endpoint name field : str)
  (shown : nat) (noun : str) (when_empty : bool * text)
  (net : backend) (s : state) :
  list_probe net self endpoint name field shown noun when_empty s
  = recorded_step net
      (fun o =>
         match list_probe (fun _ _ => o) self endpoint name field shown noun
                 when_empty initial_state with
         | (Ok b, s') => Ok (b, hd ([], false, []) (results s'))
         | (Raise e, _) => Raise e
         end)
      (get_request self endpoint) s.
Proof.
  unfold list_probe, recorded_step, bind, make_request, lift, print_test, ret.
  simpl.
  destruct (classify (net (log s) (get_request self endpoint)))
    as [[[success message] data]|e]; simpl; [|reflexivity].
  destruct success; simpl; [|reflexivity].
  destruct (py_get data (lit "result") (JList [])) as [items|e]; simpl;
    [|reflexivity].
  destruct (py_len items) as [count|e]; simpl; [|reflexivity].
  destruct (0 <? count); simpl; [|reflexivity].
  destruct (py_take shown items) as [first_items|e]; simpl; [|reflexivity].
  destruct (map_result _ first_items) as [names|e]; simpl; [|reflexivity].
  destruct (py_join _ names) as [joined|e]; simpl; reflexivity.
Qed.

Lemma verification_step (self : tester) (net : backend) (s : state) :
  test_token_verification net self s
  = recorded_step net (probe_answer self Verification)
      (probe_request self Verification) s.
Proof.
  unfold probe_answer, probe_request, run_probe, probe_endpoint.
  unfold test_token_verification, recorded_step, bind, make_request, lift,
    print_test, ret.
  simpl.
  destruct (classify (net (log s) (get_request self (verify_endpoint self))))
    as [[[success message] data]|e]; simpl; [|reflexivity].
  destruct success; simpl; [|reflexivity].
  destruct (py_get data (lit "result") (JDict [])) as [r|e]; simpl;
    [|reflexivity].
  destruct (py_get r (lit "id") _) as [token_id|e]; simpl; [|reflexivity].
  destruct (py_get r (lit "status") _) as [status|e]; simpl; [|reflexivity].
  destruct (py_get r (lit "expires_on") _) as [expires_on|e]; simpl;
    reflexivity.
Qed.

Lemma run_probe_step (net : backend) (self : tester) (p : probe) (s : state) :
  run_probe net self p s
  = recorded_step net (probe_answer self p) (probe_request self p) s.
Proof.
  destruct p; [apply verification_step | | | | | |];
    unfold probe_answer, run_probe, probe_request, probe_endpoint;
    apply list_probe_step.
Qed.

Lemma run_all_tests_battery (net : backend) (self : tester) :
  run_all_tests net self = run_probes net self battery print_summary.
Proof. reflexivity. Qed.

(** ** The requests of a battery *)

Lemma run_probes_log {A} (net : backend) (self : tester) (k : M A)
  (ps : list probe) :
  (forall s, log (snd (k s)) = log s) ->
  forall s,
  exists n,
    log (snd (run_probes net self ps k s))
    = log s ++ map Request (map (probe_request self) (firstn n ps)).
Proof.
  intros Hk. induction ps as [|p ps IH]; intros s; cbn [run_probes].
  - exists 0. rewrite Hk. simpl. rewrite app_nil_r. reflexivity.
  - unfold bind. rewrite run_probe_step. unfold recorded_step.
    destruct (probe_answer self p _) as [[b pr]|e].
    + destruct (IH {| results := results s ++ [pr];
                      log := log s ++ [Request (probe_request self p)] |})
        as [n Hn].
      exists (S n). rewrite Hn. simpl. rewrite <- app_assoc. reflexivity.
    + exists 1. simpl. reflexivity.
Qed.

Lemma list_probe_records (self : tester) (endpoint name field : str)
  (shown : nat) (noun : str) (when_empty : bool * text)
  (net : backend) (s s' : state) (b : bool) :
  list_probe net self endpoint name field shown noun when_empty s
  = (Ok b, s') ->
  exists flag msg, results s' = results s ++ [(name, flag, msg)].
Proof.
  unfold list_probe, bind, make_request, lift, print_test, ret. simpl.
  destruct (classify (net (log s) (get_request self endpoint)))
    as [[[success message] data]|e]; simpl; [|discriminate].
  destruct success; simpl;
    [|intros H; injection H as <- <-; simpl; eauto].
  destruct (py_get data (lit "result") (JList [])) as [items|e]; simpl;
    [|discriminate].
  destruct (py_len items) as [count|e]; simpl; [|discriminate].
  destruct (0 <? count); simpl;
    [|intros H; injection H as <- <-; simpl; eauto].
  destruct (py_take shown items) as [first_items|e]; simpl; [|discriminate].
  destruct (map_result _ first_items) as [names|e]; simpl; [|discriminate].
  destruct (py_join _ names) as [joined|e]; simpl; [|discriminate].
  intros H; injection H as <- <-; simpl; eauto.
Qed.

Lemma run_probe_records (net : backend) (self : tester) (p : probe)
  (s s' : state) (b : bool) :
  run_probe net self p s = (Ok b, s') ->
  exists flag msg, results s' = results s ++ [(probe_name self p, flag, msg)].
Proof.
  destruct p; try apply list_probe_records.
  unfold run_probe, probe_name.
  unfold test_token_verification, bind, make_request, lift, print_test, ret.
  simpl.
  destruct (classify (net (log s) (get_request self (verify_endpoint self))))
    as [[[success message] data]|e]; simpl; [|discriminate].
  destruct success; simpl;
    [|intros H; injection H as <- <-; simpl; eauto].
  destruct (py_get data (lit "result") (JDict [])) as [r|e]; simpl;
    [|discriminate].
  destruct (py_get r (lit "id") _) as [token_id|e]; simpl; [|discriminate].
  destruct (py_get r (lit "status") _) as [status|e]; simpl; [|discriminate].
  destruct (py_get r (lit "expires_on") _) as [expires_on|e]; simpl;
    [|discriminate].
  intros H; injection H as <- <-; simpl; eauto.
Qed.

Lemma run_probes_ok {A} (net : backend) (self : tester) (k : M A)
  (ps : list probe) :
  forall s x s',
  run_probes net self ps k s = (Ok x, s') ->
  exists prs,
    map (fun pr => fst (fst pr)) prs = map (probe_name self) ps
    /\ k {| results := results s ++ prs;
            log := log s ++ map Request (map (probe_request self) ps) |}
       = (Ok x, s').
Proof.
  induction ps as [|p ps IH]; intros s x s'; cbn [run_probes].
  - intros H. exists []. simpl. rewrite !app_nil_r.
    destruct s; simpl. auto.
  - unfold bind.
    destruct (run_probe net self p s) as [[b|e] s1] eqn:E; [|discriminate].
    destruct (run_probe_records net self p s s1 b E) as (flag & msg & R).
    rewrite run_probe_step in E. unfold recorded_step in E.
    destruct (probe_answer self p _) as [[b0 pr]|e]; [|discriminate].
    injection E as <- <-. simpl in R.
    apply app_inv_head in R. injection R as ->.
    intros H. apply IH in H. destruct H as (prs & Names & H).
    exists ((probe_name self p, flag, msg) :: prs).
    simpl in *. rewrite <- !app_assoc in H. simpl in H.
    split; [f_equal; exact Names | exact H].
Qed.

Lemma count_passed_le (rs : list probe_result) :
  count_passed rs <= length rs.
Proof. unfold count_passed. apply filter_length_le. Qed.

(** A battery that returns has recorded one result per probe, under the
    names of the probes in order of the battery, and sent the seven
    requests in order. *)
Lemma run_all_tests_ok (net : backend) (self : tester) (s s' : state)
  (passed failed : nat) :
  run_all_tests net self s = (Ok (passed, failed), s') ->
  exists prs,
    map (fun pr => fst (fst pr)) prs = map (probe_name self) battery
    /\ results s' = results s ++ prs
    /\ log s' = log s ++ map Request (map (probe_request self) battery)
    /\ passed = count_passed (results s')
    /\ passed + failed = length (results s').
Proof.
  rewrite run_all_tests_battery. intros H.
  apply run_probes_ok in H. destruct H as (prs & Names & H).
  exists prs. split; [exact Names|].
  unfold print_summary in H. cbn [results log] in H.
  destruct (length (results s ++ prs) =? 0); [discriminate|].
  injection H as <- <- <-. cbn [results log].
  repeat split.
  pose proof (count_passed_le (results s ++ prs)). lia.
Qed.

Lemma run_all_tests_fresh_total (net : backend) (self : tester)
  (s s' : state) (passed failed : nat) :
  results s = [] ->
  run_all_tests net self s = (Ok (passed, failed), s') ->
  passed + failed = 7.
Proof.
  intros Hs H. apply run_all_tests_ok in H.
  destruct H as (prs & Names & R & _ & _ & T).
  rewrite T, R, Hs. simpl.
  apply (f_equal (@length str)) in Names.
  rewrite !length_map in Names. exact Names.
Qed.

Lemma run_all_tests_log (net : backend) (self : tester) (s : state) :
  exists n,
    log (snd (run_all_tests net self s))
    = log s ++ map Request (map (probe_request self) (firstn n battery)).
Proof.
  rewrite run_all_tests_battery. apply run_probes_log.
  intros s0. unfold print_summary.
  destruct (length (results s0) =? 0); reflexivity.
Qed.

(** ** Successful responses with nothing to list *)

Lemma classify_success (status_code : Z) (d : list (str * json)) (v : json) :
  status_code = 200%Z ->
  dict_get (lit "success") d = Some v ->
  truthy v = true ->
  classify (Response status_code (Some (JDict d)))
  = Ok (true, [Lit (GREEN ++ lit "Success" ++ RESET)], JDict d).
Proof.
  intros -> Hv Ht. unfold classify. cbn [Z.eqb Pos.eqb py_get rbind].
  rewrite Hv. cbn [rbind]. rewrite Ht. reflexivity.
Qed.

Lemma list_probe_empty (self : tester) (endpoint name field : str)
  (shown : nat) (noun : str) (when_empty : bool * text)
  (net : backend) (s : state) (d : list (str * json)) (v : json) :
  net (log s) (get_request self endpoint)
  = Response 200 (Some (JDict d)) ->
  dict_get (lit "success") d = Some v ->
  truthy v = true ->
  dict_get (lit "result") d = Some (JList []) ->
  list_probe net self endpoint name field shown noun when_empty s
  = (Ok true,
     {| results := results s ++ [(name, fst when_empty, snd when_empty)];
        log := log s ++ [Request (get_request self endpoint)] |}).
Proof.
  intros Hnet Hv Ht Hr.
  unfold list_probe, bind, make_request, lift, print_test, ret.
  rewrite Hnet, (classify_success 200 d v eq_refl Hv Ht).
  cbn [py_get]. rewrite Hr. reflexivity.
Qed.

(** C1, the claim as stated fails: the account listing probe, answered
    with status 200, a true success flag and an empty list of accounts,
    records a failure. *)
Lemma account_probe_fails_on_zero_accounts :
  test_account_access empty_account sample_tester initial_state
  = (Ok true,
     {| results := [(lit "List Accounts", false,
                     [Lit (lit "No accounts accessible")])];
        log := [Request (probe_request sample_tester Accounts)] |}).
Proof. vm_compute. reflexivity. Qed.

(** C1, as amended: a response with status 200 and a true success flag
    whose result list is empty is recorded as a pass by the probes 3 to 7
    (workers, databases, namespaces, models, API tokens), each with its
    own message, and as a failure ("No accounts accessible") by the
    account listing probe (probe 2); the verification probe (probe 1)
    records a pass when the result of such a response is an object. *)
Theorem empty_result_is_a_pass_except_for_accounts
  (net : backend) (self : tester) (s : state) (p : probe)
  (d : list (str * json)) (v : json) :
  net (log s) (probe_request self p) = Response 200 (Some (JDict d)) ->
  dict_get (lit "success") d = Some v ->
  truthy v = true ->
  (p <> Verification ->
   dict_get (lit "result") d = Some (JList []) ->
   run_probe net self p s
   = (Ok true,
      {| results := results s
                    ++ [(probe_name self p, empty_outcome p, empty_message p)];
         log := log s ++ [Request (probe_request self p)] |}))
  /\ (p = Verification ->
      forall r, dict_get (lit "result") d = Some (JDict r) ->
      exists message,
        run_probe net self p s
        = (Ok true,
           {| results := results s ++ [(probe_name self p, true, message)];
              log := log s ++ [Request (probe_request self p)] |})).
Proof.
  intros Hnet Hv Ht. split.
  - intros Hp Hr.
    destruct p; [contradiction | | | | | |];
      exact (list_probe_empty self _ _ _ _ _ _ net s d v Hnet Hv Ht Hr).
  - intros -> r Hr. unfold run_probe, probe_name.
    unfold test_token_verification, bind, make_request, lift, print_test, ret.
    unfold probe_request, probe_endpoint in Hnet.
    rewrite Hnet, (classify_success 200 d v eq_refl Hv Ht).
    cbn [py_get]. rewrite Hr. cbn [py_get].
    destruct (dict_get (lit "id") r), (dict_get (lit "status") r),
      (dict_get (lit "expires_on") r); simpl; eexists; reflexivity.
Qed.

(** C1 at an account that has nothing: the workers probe records a pass
    and the account probe a failure. *)
Lemma empty_result_at_empty_account :
  results (snd (run_probe empty_account sample_tester Workers initial_state))
  = [(lit "List Workers Scripts", true,
      [Lit (lit "No Workers scripts found (but access granted)")])]
  /\ results (snd (run_probe empty_account sample_tester Accounts
                     initial_state))
     = [(lit "List Accounts", false, [Lit (lit "No accounts accessible")])].
Proof.
  split.
  - rewrite (proj1 (empty_result_is_a_pass_except_for_accounts
                      empty_account sample_tester initial_state Workers
                      [(lit "success", JBool true); (lit "result", JList [])]
                      (JBool true) eq_refl eq_refl eq_refl)
                   ltac:(discriminate) eq_refl).
    reflexivity.
  - rewrite (proj1 (empty_result_is_a_pass_except_for_accounts
                      empty_account sample_tester initial_state Accounts
                      [(lit "success", JBool true); (lit "result", JList [])]
                      (JBool true) eq_refl eq_refl eq_refl)
                   ltac:(discriminate) eq_refl).
    reflexivity.
Defined.

(** ** Errors that leave the battery *)

(** C7, the battery at a refusal whose errors are plain strings (status
    403, success flag false, [errors: ["Forbidden"]]): the first probe
    raises [AttributeError] out of [make_request], no result is recorded,
    the six other probes are never run, and the script ends with status 1
    on the exception. *)
Theorem battery_stops_on_errors_given_as_text :
  run_all_tests refused_with_text sample_tester initial_state
  = (Raise AttributeError,
     {| results := [];
        log := [Request (probe_request sample_tester Verification)] |})
  /\ run_main refused_with_text (Some account_only)
     = (1%Z, [Request (probe_request sample_tester Verification)]).
Proof. vm_compute. split; reflexivity. Qed.

(** Errors reported the way the API reports them are recorded as
    failures, and the battery goes on. *)

Lemma classify_error_answer (o : http_outcome) :
  error_answer o -> exists msg data, classify o = Ok (false, msg, data).
Proof.
  destruct o as [|m|status_code [data|]]; simpl; intros H;
    try (eexists _, _; reflexivity).
  destruct data as [| | | | | |d]; try contradiction.
  destruct H as [Hfail Herr].
  assert (Hok : (if (status_code =? 200)%Z
                 then rbind (py_get (JDict d) (lit "success") JNull)
                            (fun v => Ok (truthy v))
                 else Ok false) = Ok false).
  { destruct (status_code =? 200)%Z eqn:E; [|reflexivity].
    apply Z.eqb_eq in E. destruct Hfail as [Hs|Hs]; [contradiction|].
    cbn [py_get]. destruct (dict_get (lit "success") d); simpl;
      [rewrite Hs|]; reflexivity. }
  rewrite Hok. cbn [rbind py_get].
  destruct (dict_get (lit "errors") d) as [errors|].
  - destruct Herr as [Hf|(e & rest & ->)].
    + unfold first_error. cbn [rbind]. rewrite Hf. cbn [rbind].
      eexists _, _; reflexivity.
    + unfold first_error. cbn [rbind truthy nonempty py_first py_get].
      destruct (dict_get (lit "message") e), (dict_get (lit "code") e);
        eexists _, _; reflexivity.
  - unfold first_error. cbn [rbind truthy nonempty].
    eexists _, _; reflexivity.
Qed.

Lemma failed_request_is_recorded (net : backend) (self : tester) (p : probe)
  (s : state) (msg : text) (data : json) :
  classify (net (log s) (probe_request self p)) = Ok (false, msg, data) ->
  run_probe net self p s
  = (Ok false,
     {| results := results s ++ [(probe_name self p, false, msg)];
        log := log s ++ [Request (probe_request self p)] |}).
Proof.
  intros H.
  destruct p; unfold run_probe, probe_name, probe_request, probe_endpoint in *;
    unfold test_token_verification, test_account_access, test_workers_list,
      test_d1_databases, test_kv_namespaces, test_ai_models,
      test_api_tokens_list, list_probe, bind, make_request, lift,
      print_test, ret;
    rewrite H; reflexivity.
Qed.

Lemma run_probes_all_failed {A} (net : backend) (self : tester) (k : M A)
  (ps : list probe) :
  (forall tr p, error_answer (net tr (probe_request self p))) ->
  forall s,
  exists prs,
    map (fun pr => fst pr) prs
    = map (fun p => (probe_name self p, false)) ps
    /\ run_probes net self ps k s
       = k {| results := results s ++ prs;
              log := log s ++ map Request (map (probe_request self) ps) |}.
Proof.
  intros Hnet. induction ps as [|p ps IH]; intros s; cbn [run_probes].
  - exists []. simpl. rewrite !app_nil_r. destruct s; auto.
  - destruct (classify_error_answer _ (Hnet (log s) p)) as (msg & data & C).
    unfold bind. rewrite (failed_request_is_recorded net self p s msg data C).
    destruct (IH {| results := results s ++ [(probe_name self p, false, msg)];
                    log := log s ++ [Request (probe_request self p)] |})
      as (prs & Names & R).
    exists ((probe_name self p, false, msg) :: prs). simpl in *.
    rewrite <- !app_assoc in R. simpl in R.
    split; [f_equal; exact Names | exact R].
Qed.

(** When every answer reports an error the way the API does, the battery
    runs its seven probes in order and counts seven failures. *)
Lemma battery_of_error_answers (net : backend) (self : tester) (tr : trace) :
  (forall tr' p, error_answer (net tr' (probe_request self p))) ->
  exists prs,
    classifications prs = map (fun p => (probe_name self p, false)) battery
    /\ run_all_tests net self {| results := []; log := tr |}
       = (Ok (0, 7),
          {| results := prs;
             log := tr ++ map Request (map (probe_request self) battery) |}).
Proof.
  intros Hnet. rewrite run_all_tests_battery.
  destruct (run_probes_all_failed net self print_summary battery Hnet
              {| results := []; log := tr |}) as (prs & Names & R).
  exists prs. split; [exact Names|]. rewrite R.
  unfold print_summary. cbn [results log app].
  assert (L : length prs = 7).
  { apply (f_equal (@length (str * bool))) in Names.
    rewrite !length_map in Names. exact Names. }
  assert (P : count_passed prs = 0).
  { unfold count_passed. clear - Names.
    revert Names. generalize battery. induction prs as [|pr prs IH];
      intros [|p ps] H; try discriminate; [reflexivity|].
    simpl in H. injection H as H1 H2. simpl. rewrite H1. simpl.
    exact (IH ps H2). }
  unfold probe_result in *. rewrite L, P. reflexivity.
Qed.

(** ** Two runs against an unchanged backend *)

Lemma run_probes_unchanged {A} (net : backend) (self : tester) (k : M A)
  (ps : list probe) :
  unchanged net ->
  (forall s s', results s = results s' ->
                fst (k s) = fst (k s')
                /\ results (snd (k s)) = results (snd (k s'))) ->
  forall s s',
    results s = results s' ->
    fst (run_probes net self ps k s) = fst (run_probes net self ps k s')
    /\ results (snd (run_probes net self ps k s))
       = results (snd (run_probes net self ps k s')).
Proof.
  intros Hnet Hk. induction ps as [|p ps IH]; intros s s' Hs;
    cbn [run_probes].
  - apply Hk, Hs.
  - unfold bind. rewrite !run_probe_step. unfold recorded_step.
    rewrite (Hnet (log s) (log s') (probe_request self p)).
    destruct (probe_answer self p _) as [[b pr]|e].
    + apply IH. simpl. rewrite Hs. reflexivity.
    + simpl. split; [reflexivity | exact Hs].
Qed.

Lemma print_summary_results (s s' : state) :
  results s = results s' ->
  fst (print_summary s) = fst (print_summary s')
  /\ results (snd (print_summary s)) = results (snd (print_summary s')).
Proof.
  intros H. unfold print_summary. rewrite H.
  destruct (length (results s') =? 0); simpl; auto.
Qed.

(** C9: against a backend that answers every request the same way
    whenever it is sent, two consecutive runs of the battery for the same
    credential, each on a new tester, end the same way and record the same
    results, so the same pass/fail classification for every probe. *)
Theorem battery_is_deterministic
  (net : backend) (self : tester) (before : trace) :
  unchanged net ->
  let first := run_all_tests net self {| results := []; log := before |} in
  let second :=
    run_all_tests net self {| results := []; log := log (snd first) |} in
  fst first = fst second
  /\ results (snd first) = results (snd second)
  /\ classifications (results (snd first))
     = classifications (results (snd second)).
Proof.
  intros Hnet first second.
  destruct (run_probes_unchanged net self print_summary battery Hnet
              print_summary_results
              {| results := []; log := before |}
              {| results := []; log := log (snd first) |} eq_refl)
    as [Hr Hs].
  subst first second. rewrite !run_all_tests_battery.
  split; [exact Hr|]. split; [exact Hs|]. rewrite Hs. reflexivity.
Qed.

(** C9 at a backend that refuses every call: both runs count 7 failures. *)
Lemma battery_is_deterministic_when_denied :
  fst (run_all_tests denied sample_tester initial_state) = Ok (0, 7)
  /\ fst (run_all_tests denied sample_tester
            {| results := [];
               log := log (snd (run_all_tests denied sample_tester
                                  initial_state)) |})
     = Ok (0, 7).
Proof.
  assert (H : unchanged denied) by (intros tr tr' r; reflexivity).
  destruct (battery_is_deterministic denied sample_tester [] H)
    as (Hfst & _ & _).
  cbv zeta in Hfst. fold initial_state in Hfst.
  split; [vm_compute; reflexivity|].
  rewrite <- Hfst. vm_compute. reflexivity.
Defined.

(** ** The exit status *)

Lemma no_post_requests (self : tester) (ps : list probe) :
  no_post (map Request (map (probe_request self) ps)).
Proof.
  intros r Hr. apply in_map_iff in Hr. destruct Hr as (q & E & Hq).
  injection E as <-. apply in_map_iff in Hq. destruct Hq as (p & <- & _).
  reflexivity.
Qed.

Lemma no_post_app (a b : trace) : no_post a -> no_post b -> no_post (a ++ b).
Proof.
  intros Ha Hb r Hr. apply in_app_or in Hr. destruct Hr; auto.
Qed.

Lemma pass_log (net : backend) (self : tester) (s : state) :
  exists evs, log (snd (pass net self s)) = log s ++ evs /\ no_post evs.
Proof.
  unfold pass, bind, new_tester.
  destruct (run_all_tests_log net self {| results := []; log := log s |})
    as [n Hn].
  eexists. split; [exact Hn | apply no_post_requests].
Qed.

Lemma pass_total (net : backend) (self : tester) (s s' : state)
  (passed failed : nat) :
  pass net self s = (Ok (passed, failed), s') -> passed + failed = 7.
Proof.
  unfold pass, bind, new_tester.
  apply run_all_tests_fresh_total. reflexivity.
Qed.

Lemma run_phase_passes (net : backend) (c : config) (s : state) :
  run_phase net c s
  = bind (if missing (cfg_account_token c) then ret (0, 0)
          else pass net (account_tester c))
      (fun x =>
         bind (if missing (cfg_user_token c) then ret (0, 0)
               else pass net (user_tester c))
           (fun y => ret (fst x + fst y, snd x + snd y))) s.
Proof.
  unfold run_phase, pass, bind, new_tester, ret.
  destruct (missing (cfg_account_token c)), (missing (cfg_user_token c));
    repeat match goal with
           | |- context [run_all_tests ?n ?t ?s0] =>
               destruct (run_all_tests n t s0) as [[[? ?]|?] ?]
           end;
    reflexivity.
Qed.

Lemma run_phase_log (net : backend) (c : config) (s : state) :
  exists evs, log (snd (run_phase net c s)) = log s ++ evs /\ no_post evs.
Proof.
  rewrite run_phase_passes. unfold bind.
  assert (H1 : exists evs,
             log (snd ((if missing (cfg_account_token c) then ret (0, 0)
                        else pass net (account_tester c)) s))
             = log s ++ evs /\ no_post evs).
  { destruct (missing (cfg_account_token c)); [|apply pass_log].
    exists []. simpl. rewrite app_nil_r. split; [reflexivity | intros r []]. }
  destruct H1 as (evs1 & L1 & N1).
  destruct ((if missing (cfg_account_token c) then ret (0, 0)
             else pass net (account_tester c)) s) as [[x|e] s1];
    simpl in L1; [|exists evs1; auto].
  assert (H2 : exists evs,
             log (snd ((if missing (cfg_user_token c) then ret (0, 0)
                        else pass net (user_tester c)) s1))
             = log s1 ++ evs /\ no_post evs).
  { destruct (missing (cfg_user_token c)); [|apply pass_log].
    exists []. simpl. rewrite app_nil_r. split; [reflexivity | intros r []]. }
  destruct H2 as (evs2 & L2 & N2).
  destruct ((if missing (cfg_user_token c) then ret (0, 0)
             else pass net (user_tester c)) s1) as [[y|e] s2];
    simpl in L2 |- *; exists (evs1 ++ evs2);
    rewrite L2, L1, app_assoc; split; auto using no_post_app.
Qed.

Lemma run_phase_total (net : backend) (c : config) (s s' : state)
  (passed failed : nat) :
  missing (cfg_account_token c) && missing (cfg_user_token c) = false ->
  run_phase net c s = (Ok (passed, failed), s') ->
  0 < passed + failed.
Proof.
  intros Htok. rewrite run_phase_passes. unfold bind.
  destruct (missing (cfg_account_token c)) eqn:Ma.
  - destruct (missing (cfg_user_token c)) eqn:Mu; [discriminate|].
    cbn [ret fst snd].
    destruct (pass net (user_tester c) s) as [[[p2 f2]|e] s2] eqn:P;
      [|discriminate].
    apply pass_total in P. cbn [ret fst snd].
    intros H; injection H as <- <- <-. lia.
  - destruct (pass net (account_tester c) s) as [[[p1 f1]|e] s1] eqn:P;
      [|discriminate].
    apply pass_total in P. cbn [fst snd].
    destruct ((if missing (cfg_user_token c) then ret (0, 0)
               else pass net (user_tester c)) s1) as [[[p2 f2]|e] s2];
      [|discriminate].
    cbn [ret fst snd]. intros H; injection H as <- <- <-. lia.
Qed.

Lemma failures_seen (f1 f2 : nat) :
  (0 <? f1) || (0 <? f2) = (0 <? f1 + f2).
Proof. destruct f1, f2; reflexivity. Qed.

Lemma initial_phase_run_phase (net : backend) (c : config) (s : state) :
  initial_phase net c s
  = match run_phase net c s with
    | (Ok (passed, failed), s') =>
        if passed + failed =? 0 then (Raise ZeroDivisionError, s')
        else (Ok (passed, failed, 0 <? failed), s')
    | (Raise e, s') => (Raise e, s')
    end.
Proof.
  unfold initial_phase, run_phase, bind, success_rate, ret, raise, new_tester.
  destruct (missing (cfg_account_token c)), (missing (cfg_user_token c));
    repeat match goal with
           | |- context [run_all_tests ?n ?t ?s0] =>
               destruct (run_all_tests n t s0) as [[[? ?]|?] ?]
           end;
    try reflexivity;
    rewrite failures_seen;
    match goal with
    | |- context [if ?b then _ else _] => destruct b
    end;
    reflexivity.
Qed.

Lemma initial_phase_ok (net : backend) (c : config) (s s1 : state)
  (passed failed : nat) (needs_healing : bool) :
  initial_phase net c s = (Ok (passed, failed, needs_healing), s1) ->
  needs_healing = (0 <? failed)
  /\ (passed + failed =? 0) = false
  /\ exists evs, log s1 = log s ++ evs /\ no_post evs.
Proof.
  rewrite initial_phase_run_phase.
  destruct (run_phase_log net c s) as (evs & L & N).
  destruct (run_phase net c s) as [[[p f]|e] s'] eqn:R; [|discriminate].
  destruct (p + f =? 0) eqn:Z; [discriminate|].
  intros H; injection H as <- <- <- <-.
  split; [reflexivity|]. split; [exact Z|]. exists evs. auto.
Qed.

Lemma main_after_initial (net : backend) (dev_vars : option str)
  (env_vars : dict str) (s1 : state) (passed failed : nat)
  (needs_healing : bool) :
  load_env_vars dev_vars = Ok env_vars ->
  missing (cfg_account_id (read_config env_vars)) = false ->
  missing (cfg_account_token (read_config env_vars))
  && missing (cfg_user_token (read_config env_vars)) = false ->
  initial_phase net (read_config env_vars) initial_state
  = (Ok (passed, failed, needs_healing), s1) ->
  main net dev_vars initial_state
  = heal_phase net (read_config env_vars) passed failed needs_healing s1.
Proof.
  intros Hload Hid Htok Hinit. unfold main.
  unfold bind at 1. unfold lift. rewrite Hload.
  cbv zeta. rewrite Hid, Htok. unfold bind. rewrite Hinit. reflexivity.
Qed.

Lemma heal_phase_no_failure (net : backend) (c : config) (s : state)
  (passed : nat) (needs_healing : bool) :
  heal_phase net c passed 0 needs_healing s = (Raise (SystemExit 0), s).
Proof.
  unfold heal_phase. rewrite andb_false_r. reflexivity.
Qed.

Lemma heal_phase_cannot_heal (net : backend) (c : config) (s : state)
  (passed failed : nat) :
  0 < failed ->
  can_heal c = false ->
  exists w,
    heal_phase net c passed failed (0 <? failed) s
    = (Raise (SystemExit 1),
       {| results := results s; log := log s ++ [Warn w] |}).
Proof.
  intros Hf Hc. apply Nat.ltb_lt in Hf. unfold heal_phase, can_heal in *.
  rewrite Hf. cbn [andb].
  destruct (missing (cfg_worker_url c)).
  - exists NO_WORKER_URL. reflexivity.
  - destruct (missing (cfg_client_auth_token c)); [|discriminate].
    exists NO_AUTH_TOKEN. reflexivity.
Qed.

Lemma heal_phase_healed (net : backend) (c : config) (s s3 : state)
  (passed failed passed' failed' : nat) :
  0 < failed ->
  (passed + failed =? 0) = false ->
  can_heal c = true ->
  heal_outcome (heal_reply net c s) = true ->
  run_phase net c (after_heal c s) = (Ok (passed', failed'), s3) ->
  0 < passed' + failed' ->
  heal_phase net c passed failed (0 <? failed) s
  = (Raise (SystemExit (if failed' =? 0 then 0 else 1)), s3).
Proof.
  intros Hf Hpf Hc Hheal Hrun Htot.
  apply Nat.ltb_lt in Hf. unfold heal_phase, can_heal in *.
  rewrite Hf. cbn [andb].
  apply andb_true_iff in Hc. destruct Hc as [Hu Ha].
  apply negb_true_iff in Hu, Ha. rewrite Hu, Ha.
  unfold bind, trigger_self_heal, emit. unfold heal_reply in Hheal.
  rewrite Hheal. cbn [results log].
  unfold after_heal in Hrun. rewrite <- app_assoc. cbn [app].
  rewrite Hrun. unfold success_rate. rewrite Hpf.
  destruct (passed' + failed' =? 0) eqn:Z;
    [apply Nat.eqb_eq in Z; lia | reflexivity].
Qed.

(** C5: once the INITIAL phase has given its totals, the exit status of
    the token tester is zero iff the INITIAL failure count is zero when
    healing is not attempted (no failure, or the heal endpoint or its
    credential is not configured); with INITIAL failures and a missing
    heal endpoint or credential it is 1 and no POST has been sent; and
    when healing is attempted and succeeds it is zero iff the RETEST
    failure count is zero. *)
Theorem exit_status_follows_the_last_phase
  (net : backend) (dev_vars : option str) (env_vars : dict str)
  (s1 : state) (passed failed : nat) (needs_healing : bool) :
  load_env_vars dev_vars = Ok env_vars ->
  missing (cfg_account_id (read_config env_vars)) = false ->
  missing (cfg_account_token (read_config env_vars))
  && missing (cfg_user_token (read_config env_vars)) = false ->
  initial_phase net (read_config env_vars) initial_state
  = (Ok (passed, failed, needs_healing), s1) ->
  let c := read_config env_vars in
  (failed = 0 \/ can_heal c = false ->
   (fst (run_main net dev_vars) = 0%Z <-> failed = 0)
   /\ no_post (snd (run_main net dev_vars)))
  /\ (0 < failed -> can_heal c = false ->
      fst (run_main net dev_vars) = 1%Z
      /\ no_post (snd (run_main net dev_vars)))
  /\ (0 < failed -> can_heal c = true ->
      heal_outcome (heal_reply net c s1) = true ->
      forall passed' failed' s3,
        run_phase net c (after_heal c s1) = (Ok (passed', failed'), s3) ->
        (fst (run_main net dev_vars) = 0%Z <-> failed' = 0)).
Proof.
  intros Hload Hid Htok Hinit c.
  pose proof (main_after_initial net dev_vars env_vars s1 passed failed
                needs_healing Hload Hid Htok Hinit) as Hmain.
  destruct (initial_phase_ok net (read_config env_vars) initial_state s1
              passed failed needs_healing Hinit)
    as (Hneeds & Hpf & evs & Hlog & Hevs).
  simpl in Hlog. fold c in Hmain, Hevs, Hlog.
  assert (Hquiet : 0 < failed -> can_heal c = false ->
                   fst (run_main net dev_vars) = 1%Z
                   /\ no_post (snd (run_main net dev_vars))).
  { intros Hf Hc. unfold run_main. rewrite Hmain, Hneeds.
    destruct (heal_phase_cannot_heal net c s1 passed failed Hf Hc)
      as [w Hw].
    rewrite Hw. cbn [fst snd exit_status log]. split; [reflexivity|].
    rewrite Hlog. apply no_post_app; [exact Hevs|].
    intros r [E|[]]. discriminate. }
  split; [|split; [exact Hquiet|]].
  - intros [Hf|Hc].
    + subst failed. unfold run_main.
      rewrite Hmain, heal_phase_no_failure.
      cbn [fst snd exit_status]. rewrite Hlog.
      split; [split; reflexivity | exact Hevs].
    + destruct failed as [|n].
      * unfold run_main. rewrite Hmain, heal_phase_no_failure.
        cbn [fst snd exit_status]. rewrite Hlog.
        split; [split; reflexivity | exact Hevs].
      * destruct (Hquiet (Nat.lt_0_succ n) Hc) as [Hone Hno].
        split; [|exact Hno]. rewrite Hone. split; discriminate.
  - intros Hf Hc Hheal passed' failed' s3 Hrun.
    pose proof (run_phase_total net c (after_heal c s1) s3 passed' failed'
                  Htok Hrun) as Htot.
    unfold run_main. rewrite Hmain, Hneeds.
    rewrite (heal_phase_healed net c s1 s3 passed failed passed' failed'
               Hf Hpf Hc Hheal Hrun Htot).
    cbn [fst exit_status].
    destruct failed' as [|n]; simpl; split; try reflexivity; discriminate.
Qed.

(** C5 at two runs: every call refused and no heal endpoint configured,
    the exit status is 1 and nothing is posted; every call refused until
    the heal endpoint has been called, the exit status is 0. *)
Lemma exit_status_at_sample_runs :
  (fst (run_main denied (Some account_only)) = 1%Z
   /\ no_post (snd (run_main denied (Some account_only))))
  /\ (fst (run_main healed_by_post (Some with_heal_endpoint)) = 0%Z
      <-> 0 = 0).
Proof.
  split.
  - refine (proj1 (proj2
      (exit_status_follows_the_last_phase denied (Some account_only)
         (fold_left env_line (file_lines account_only) [])
         (snd (initial_phase denied
                 (read_config (fold_left env_line (file_lines account_only) []))
                 initial_state))
         0 7 true eq_refl eq_refl eq_refl _)) _ eq_refl).
    + vm_compute. reflexivity.
    + lia.
  - refine (proj2 (proj2
      (exit_status_follows_the_last_phase healed_by_post
         (Some with_heal_endpoint)
         (fold_left env_line (file_lines with_heal_endpoint) [])
         (snd (initial_phase healed_by_post
                 (read_config
                    (fold_left env_line (file_lines with_heal_endpoint) []))
                 initial_state))
         0 7 true eq_refl eq_refl eq_refl _)) _ eq_refl eq_refl 7 0
      (snd (run_phase healed_by_post
              (read_config
                 (fold_left env_line (file_lines with_heal_endpoint) []))
              (after_heal
                 (read_config
                    (fold_left env_line (file_lines with_heal_endpoint) []))
                 (snd (initial_phase healed_by_post
                         (read_config
                            (fold_left env_line
                               (file_lines with_heal_endpoint) []))
                         initial_state))))) _).
    + vm_compute. reflexivity.
    + lia.
    + vm_compute. reflexivity.
Defined.

End TesterFacts.

(* ================================================================== *)
(** * Loading [.dev.vars] in the two scripts *)
(* ================================================================== *)

Section LoaderFacts.
Import Py Spec.

Lemma fold_load_origin (lines : list str) :
  forall d k v,
    In (k, v) (fold_left Secrets.load_line lines d) ->
    In (k, v) d
    \/ exists line, In line lines /\ Secrets.parse_line line = Some (k, v).
Proof.
  induction lines as [|l lines IH]; intros d k v; cbn [fold_left].
  - intros H. left; exact H.
  - intros H. apply IH in H. destruct H as [H|(line & Hin & Hp)].
    + unfold Secrets.load_line in H.
      destruct (Secrets.parse_line l) as [[key value]|] eqn:E;
        [|left; exact H].
      apply dict_set_In in H. destruct H as [[-> ->]|H]; [|left; exact H].
      right. exists l. split; [left; reflexivity | exact E].
    + right. exists line. split; [right; exact Hin | exact Hp].
Qed.

Lemma env_line_stores (env_vars : dict str) (line key value : str) :
  nonempty (strip line) = true ->
  startswith N.eqb Tester.HASH (strip line) = false ->
  split_once Tester.EQUALS (strip line) = Some (key, value) ->
  dict_get key (Tester.env_line env_vars line)
  = Some (strip_chars Tester.SQUOTE (strip_chars Tester.DQUOTE value)).
Proof.
  intros Hn Hc Hs. unfold Tester.env_line. rewrite Hn, Hc, Hs. cbn [negb andb].
  rewrite dict_get_set, str_eqb_refl. reflexivity.
Qed.

(** C2, the claim as stated fails for the token tester's loader: the file
    [API_KEY=], [=orphan] loads an entry with an empty value and an entry
    with an empty key. *)
Lemma token_tester_loader_keeps_empty_entries :
  Tester.load_env_vars (Some (lit "API_KEY=" ++ LF ++ lit "=orphan" ++ LF))
  = Ok [(lit "API_KEY", []); ([], lit "orphan")].
Proof. vm_compute. reflexivity. Qed.

(** C2, as amended: for every secrets file, the mapping loaded by the
    secrets synchronizer contains no entry whose key or whose value is
    empty after trimming (white space around both, then quote characters
    around the value), and each of its entries is what some line of the
    file gives after trimming; the token tester's loader makes no such
    selection: every line that is not blank, not a comment and contains
    [=] is stored under the text before the first [=], whatever is left
    of the key and of the value, empty or not. *)
Theorem synchronizer_drops_empty_entries (contents : str) :
  no_empty_entry (snd (Secrets.load_secrets (Some contents)))
  /\ (forall k v,
        In (k, v) (snd (Secrets.load_secrets (Some contents))) ->
        exists line,
          In line (file_lines contents)
          /\ Secrets.parse_line line = Some (k, v))
  /\ (forall env_vars line key value,
        nonempty (strip line) = true ->
        startswith N.eqb Tester.HASH (strip line) = false ->
        split_once Tester.EQUALS (strip line) = Some (key, value) ->
        dict_get key (Tester.env_line env_vars line)
        = Some (strip_chars Tester.SQUOTE
                  (strip_chars Tester.DQUOTE value))).
Proof.
  split; [|split].
  - apply load_lines_no_empty.
  - intros k v H. simpl in H. unfold Secrets.load_lines in H.
    apply fold_load_origin in H. destruct H as [[]|H]. exact H.
  - exact env_line_stores.
Qed.

(** C2 at the sample file: its first entry has a key and a value, and the
    token tester's loader stores a line without a value. *)
Lemma loaders_at_sample_lines :
  (lit "API_KEY" <> [] /\ lit "abc123" <> [])
  /\ dict_get (lit "API_KEY") (Tester.env_line [] (lit "API_KEY="))
     = Some [].
Proof.
  split.
  - apply (proj1 (synchronizer_drops_empty_entries two_secrets)).
    vm_compute. left. reflexivity.
  - exact (proj2 (proj2 (synchronizer_drops_empty_entries []))
             [] (lit "API_KEY=") (lit "API_KEY") []
             eq_refl eq_refl eq_refl).
Defined.

End LoaderFacts.

(* ================================================================== *)
(** * The comment extractor *)
(* ================================================================== *)

Section ExtractorFacts.
Import Py Extractor Report.

Variable json_loads : str -> option json.

Lemma only_shell_nil : only_shell [].
Proof. intros e []. Qed.

Lemma only_shell_snoc (tr : trace) (command : text) :
  only_shell tr -> only_shell (tr ++ [Shell command]).
Proof.
  intros H e He. apply in_app_or in He. destruct He as [He|[<-|[]]].
  - exact (H e He).
  - exists command. reflexivity.
Qed.

Lemma run_gh_command_shell (w : world) (command : text) (tr : trace) :
  only_shell tr -> only_shell (snd (run_gh_command w command tr)).
Proof. intros H. simpl. apply only_shell_snoc, H. Qed.

Lemma get_open_pr_shell (w : world) (tr : trace) :
  only_shell tr -> only_shell (snd (get_open_pr json_loads w tr)).
Proof.
  intros H. unfold get_open_pr.
  pose proof (run_gh_command_shell w
                [Lit (lit "git config --get remote.origin.url")] tr H) as H1.
  destruct (run_gh_command w _ tr) as [remote_url tr1]. simpl in H1.
  destruct remote_url as [[|c u]|]; try exact H1.
  destruct (repo_of_remote (c :: u)) as [[owner repo]|]; [|exact H1].
  pose proof (run_gh_command_shell w (pr_list_command owner repo) tr1 H1)
    as H2.
  destruct (run_gh_command w (pr_list_command owner repo) tr1)
    as [prs_output tr2]. simpl in H2.
  destruct prs_output as [[|c' o]|]; try exact H2.
  destruct (first_pr json_loads (c' :: o)) as [[number title]|]; exact H2.
Qed.

Lemma extract_pr_comments_shell (w : world) (pr_info : pr_descriptor)
  (tr : trace) :
  only_shell tr -> only_shell (snd (extract_pr_comments w pr_info tr)).
Proof.
  intros H. unfold extract_pr_comments.
  pose proof (run_gh_command_shell w (comments_command pr_info) tr H) as H1.
  destruct (run_gh_command w (comments_command pr_info) tr)
    as [[out|] tr']; exact H1.
Qed.

Lemma extract_pr_comments_failed (w : world) (pr_info : pr_descriptor)
  (tr : trace) :
  returncode (shell w tr (comments_command pr_info)) <> 0%Z ->
  fst (extract_pr_comments w pr_info tr) = None.
Proof.
  intros H. unfold extract_pr_comments, run_gh_command.
  apply Z.eqb_neq in H. rewrite H. reflexivity.
Qed.

Lemma write_all_extends (w : world) (filename : text) (chunks : list text) :
  forall tr, exists evs, snd (write_all w filename chunks tr) = tr ++ evs.
Proof.
  induction chunks as [|data rest IH]; intros tr; cbn [write_all].
  - exists []. rewrite app_nil_r. reflexivity.
  - destruct (can_write w tr filename data).
    + destruct (IH (tr ++ [Written filename data])) as [evs E].
      exists (Written filename data :: evs). rewrite E, <- app_assoc.
      reflexivity.
    + exists []. rewrite app_nil_r. reflexivity.
Qed.

Lemma save_comments_extends (w : world) (comments : list str)
  (pr_info : pr_descriptor) (tr : trace) :
  exists evs, snd (save_comments_to_file w comments pr_info tr) = tr ++ evs.
Proof.
  unfold save_comments_to_file.
  destruct (can_open w tr (report_name pr_info)).
  - destruct (write_all_extends w (report_name pr_info)
                (report_chunks comments pr_info)
                (tr ++ [Created (report_name pr_info)])) as [evs E].
    destruct (write_all w _ _ _) as [ok tr']. simpl in E |- *.
    exists (Created (report_name pr_info) :: evs).
    rewrite E, <- app_assoc. reflexivity.
  - exists []. rewrite app_nil_r. reflexivity.
Qed.

Lemma failed_fetch_exits (w : world) (version : str) (tr0 tr1 : trace)
  (pr_info : pr_descriptor) :
  run_gh_command w [Lit (lit "gh --version")] [] = (Some version, tr0) ->
  version <> [] ->
  get_open_pr json_loads w tr0 = (Some pr_info, tr1) ->
  returncode (shell w tr1 (comments_command pr_info)) <> 0%Z ->
  fst (main json_loads w) = 1%Z /\ only_shell (snd (main json_loads w)).
Proof.
  intros Hv Hne Hpr Hrc.
  assert (H0 : only_shell tr0).
  { pose proof (run_gh_command_shell w [Lit (lit "gh --version")] []
                  only_shell_nil) as H.
    rewrite Hv in H. exact H. }
  assert (H1 : only_shell tr1).
  { pose proof (get_open_pr_shell w tr0 H0) as H.
    rewrite Hpr in H. exact H. }
  pose proof (extract_pr_comments_shell w pr_info tr1 H1) as H2.
  pose proof (extract_pr_comments_failed w pr_info tr1 Hrc) as Hnone.
  assert (Hmain : main json_loads w
                  = (1%Z, snd (extract_pr_comments w pr_info tr1))).
  { unfold main. rewrite Hv.
    destruct version as [|c v]; [contradiction|].
    rewrite Hpr.
    destruct (extract_pr_comments w pr_info tr1) as [[comments|] tr2];
      [discriminate | reflexivity]. }
  rewrite Hmain. simpl. auto.
Qed.

(** In every run, what is done to a file comes after a fetch that
    returned the comments. *)
Lemma report_follows_the_fetch (w : world) :
  only_shell (snd (main json_loads w))
  \/ exists pr_info tr1 comments fetched evs,
       extract_pr_comments w pr_info tr1 = (Some comments, fetched)
       /\ only_shell fetched
       /\ snd (main json_loads w) = fetched ++ evs.
Proof.
  unfold main.
  pose proof (run_gh_command_shell w [Lit (lit "gh --version")] []
                only_shell_nil) as H0.
  destruct (run_gh_command w [Lit (lit "gh --version")] [])
    as [version tr0]. simpl in H0.
  destruct version as [[|c v]|]; try (left; exact H0).
  pose proof (get_open_pr_shell w tr0 H0) as H1.
  destruct (get_open_pr json_loads w tr0) as [[pr_info|] tr1];
    simpl in H1; [|left; exact H1].
  pose proof (extract_pr_comments_shell w pr_info tr1 H1) as H2.
  destruct (extract_pr_comments w pr_info tr1) as [[comments|] tr2] eqn:E;
    simpl in H2; [|left; exact H2].
  right. exists pr_info, tr1, comments, tr2.
  destruct (save_comments_extends w comments pr_info tr2) as [evs Hs].
  destruct (save_comments_to_file w comments pr_info tr2)
    as [[filename|] tr3]; simpl in Hs; exists evs; auto.
Qed.

(** C8: when the paginated fetch of the comments fails (the command ends
    with a non-zero status), the extractor exits with status 1 and its
    trace holds shell commands only, so the report file is neither
    created nor written; and in every run, whatever is done to the report
    file comes after a fetch that returned the comments. *)
Theorem failed_fetch_leaves_no_report (w : world) :
  (forall version tr0 tr1 pr_info,
      run_gh_command w [Lit (lit "gh --version")] [] = (Some version, tr0) ->
      version <> [] ->
      get_open_pr json_loads w tr0 = (Some pr_info, tr1) ->
      returncode (shell w tr1 (comments_command pr_info)) <> 0%Z ->
      fst (main json_loads w) = 1%Z
      /\ only_shell (snd (main json_loads w)))
  /\ (only_shell (snd (main json_loads w))
      \/ exists pr_info tr1 comments fetched evs,
           extract_pr_comments w pr_info tr1 = (Some comments, fetched)
           /\ only_shell fetched
           /\ snd (main json_loads w) = fetched ++ evs).
Proof.
  split; [exact (failed_fetch_exits w) | exact (report_follows_the_fetch w)].
Qed.

End ExtractorFacts.

Section ExtractorRuns.
Import Py Extractor Report.

(** C8 at a checkout whose comments cannot be fetched. *)
Lemma failed_fetch_at_sample_checkout :
  fst (main one_pull_request fetch_fails) = 1%Z
  /\ only_shell (snd (main one_pull_request fetch_fails)).
Proof.
  apply (proj1 (failed_fetch_leaves_no_report one_pull_request fetch_fails)
           (lit "gh version 2.40.0")
           (snd (run_gh_command fetch_fails [Lit (lit "gh --version")] []))
           (snd (get_open_pr one_pull_request fetch_fails
                   (snd (run_gh_command fetch_fails
                           [Lit (lit "gh --version")] []))))
           pull_request_7).
  - vm_compute. reflexivity.
  - discriminate.
  - vm_compute. reflexivity.
  - vm_compute. discriminate.
Defined.

End ExtractorRuns.

(* ================================================================== *)
(** * Further properties of the secrets synchronizer *)
(* ================================================================== *)

Section SecretsShape.
Import Py Spec More.

(** ** What trimming leaves *)

Lemma lstrip_by_head (p : char -> bool) (s : str) (c : char) (t : str) :
  lstrip_by p s = c :: t -> p c = false.
Proof.
  induction s as [|x s IH]; simpl; [discriminate|].
  destruct (p x) eqn:E; [exact IH|].
  intros H; injection H as <- <-. exact E.
Qed.

Lemma lstrip_by_suffix (p : char -> bool) (s : str) :
  exists pre, s = pre ++ lstrip_by p s.
Proof.
  induction s as [|x s [pre IH]]; simpl.
  - exists []. reflexivity.
  - destruct (p x).
    + exists (x :: pre). simpl. f_equal. exact IH.
    + exists []. reflexivity.
Qed.

Lemma rstrip_by_prefix (p : char -> bool) (s : str) :
  exists post, s = rstrip_by p s ++ post.
Proof.
  unfold rstrip_by. destruct (lstrip_by_suffix p (rev s)) as [pre E].
  exists (rev pre). rewrite <- rev_app_distr, <- E, rev_involutive.
  reflexivity.
Qed.

Lemma rstrip_by_last (p : char -> bool) (s : str) (c : char) (t : str) :
  rstrip_by p s = t ++ [c] -> p c = false.
Proof.
  unfold rstrip_by. intros H.
  apply (f_equal (@rev char)) in H.
  rewrite rev_involutive, rev_app_distr in H. simpl in H.
  exact (lstrip_by_head p (rev s) c (rev t) H).
Qed.

Lemma strip_by_clean (p : char -> bool) (s : str) :
  ends_clean p (strip_by p s).
Proof.
  unfold strip_by. split.
  - intros c t H.
    destruct (rstrip_by_prefix p (lstrip_by p s)) as [post E].
    rewrite H in E. simpl in E.
    exact (lstrip_by_head p s c (t ++ post) E).
  - intros c t H. exact (rstrip_by_last p (lstrip_by p s) c t H).
Qed.

Lemma strip_by_In (p : char -> bool) (s : str) (c : char) :
  In c (strip_by p s) -> In c s.
Proof.
  unfold strip_by. intros H.
  destruct (rstrip_by_prefix p (lstrip_by p s)) as [post E].
  destruct (lstrip_by_suffix p s) as [pre E'].
  rewrite E'. apply in_or_app. right.
  rewrite E. apply in_or_app. left. exact H.
Qed.

Lemma split_once_before (sep : char) (s a b : str) :
  split_once sep s = Some (a, b) -> ~ In sep a /\ s = a ++ sep :: b.
Proof.
  revert a b. induction s as [|c s IH]; simpl; intros a b; [discriminate|].
  destruct (N.eqb c sep) eqn:E.
  - intros H; injection H as <- <-. apply N.eqb_eq in E. subst c.
    split; [intros [] | reflexivity].
  - destruct (split_once sep s) as [[a' b']|]; [|discriminate].
    intros H; injection H as <- <-.
    destruct (IH a' b' eq_refl) as [Hn ->].
    apply N.eqb_neq in E. split; [|reflexivity].
    intros [H|H]; [congruence | exact (Hn H)].
Qed.

Lemma parse_line_shape (line k v : str) :
  Secrets.parse_line line = Some (k, v) ->
  ~ In Secrets.EQUALS k
  /\ ends_clean is_space k
  /\ ends_clean is_single_quote v.
Proof.
  unfold Secrets.parse_line.
  destruct (negb (nonempty (strip line)) || _); [discriminate|].
  destruct (split_once _ _) as [[key value]|] eqn:S; [|discriminate].
  destruct (nonempty (strip key) && _); [|discriminate].
  intros H; injection H as <- <-.
  apply split_once_before in S. destruct S as [Hn _].
  split; [|split].
  - intros H. apply Hn. exact (strip_by_In is_space key _ H).
  - apply strip_by_clean.
  - apply (strip_by_clean is_single_quote).
Qed.

(** ** The keys of the mapping are distinct *)

Lemma dict_set_nodup {V} (k : str) (v : V) (d : dict V) :
  NoDup (dict_keys d) -> NoDup (dict_keys (dict_set k v d)).
Proof.
  intros H. rewrite dict_keys_set.
  destruct (dict_mem k d) eqn:M; [exact H|].
  apply NoDup_app; [exact H | repeat constructor; intros [] |].
  intros x Hx [<-|[]]. apply dict_mem_keys in Hx. congruence.
Qed.

Lemma fold_load_nodup (lines : list str) (d : dict str) :
  NoDup (dict_keys d) ->
  NoDup (dict_keys (fold_left Secrets.load_line lines d)).
Proof.
  revert d. induction lines as [|l lines IH]; simpl; intros d H; [exact H|].
  apply IH. unfold Secrets.load_line.
  destruct (Secrets.parse_line l) as [[k v]|]; [|exact H].
  apply dict_set_nodup, H.
Qed.

Lemma loaded_keys_nodup (contents : str) :
  NoDup (dict_keys (snd (Secrets.load_secrets (Some contents)))).
Proof. simpl. apply fold_load_nodup. constructor. Qed.

(** X1: every entry of the mapping loaded by the secrets synchronizer has
    a key without [=] and without white space at either end, and a value
    that neither starts nor ends with a single quote; the keys of the
    mapping are pairwise distinct. *)
Theorem loaded_entries_are_trimmed (contents k v : str) :
  In (k, v) (snd (Secrets.load_secrets (Some contents))) ->
  ~ In Secrets.EQUALS k
  /\ ends_clean is_space k
  /\ ends_clean is_single_quote v
  /\ NoDup (dict_keys (snd (Secrets.load_secrets (Some contents)))).
Proof.
  intros H. simpl in H. unfold Secrets.load_lines in H.
  apply fold_load_origin in H. destruct H as [[]|(line & _ & P)].
  destruct (parse_line_shape line k v P) as (A & B & C).
  split; [exact A|]. split; [exact B|]. split; [exact C|].
  apply loaded_keys_nodup.
Qed.

(** X1 at the sample file: the value of [DB_URL] has lost its quotes. *)
Lemma loaded_entries_at_sample_file :
  ends_clean is_single_quote (lit "postgres://db")
  /\ NoDup (dict_keys (snd (Secrets.load_secrets (Some two_secrets)))).
Proof.
  destruct (loaded_entries_are_trimmed two_secrets (lit "DB_URL")
              (lit "postgres://db")
              ltac:(vm_compute; right; left; reflexivity))
    as (_ & _ & C & D).
  split; [exact C | exact D].
Defined.

End SecretsShape.


Section SecretsRuns.
Import Py Spec More.

(** ** What the listing shows *)

Lemma dict_get_key {V} (k : str) (v : V) (d : dict V) :
  dict_get k d = Some v -> In k (dict_keys d).
Proof.
  unfold dict_keys. induction d as [|[k0 v0] d IH]; simpl; [discriminate|].
  destruct (str_eqb k k0) eqn:E.
  - apply str_eqb_eq in E. subst k0. intros _. left; reflexivity.
  - intros H. right. exact (IH H).
Qed.

Lemma in_sorted (k : str) (l : list str) : In k (sorted l) <-> In k l.
Proof.
  split; intros H.
  - exact (Permutation_in k (sorted_perm l) H).
  - exact (Permutation_in k (Permutation_sym (sorted_perm l)) H).
Qed.

(** The rows of the listing are the keys of the mapping, each with the
    masked form of its value in the mapping. *)
Lemma list_rows_in (secrets : dict str) (key text : str) :
  In (key, text) (Secrets.list_rows secrets)
  <-> exists value,
        dict_get key secrets = Some value /\ text = Secrets.mask value.
Proof.
  unfold Secrets.list_rows. rewrite in_flat_map. split.
  - intros (k & _ & H).
    destruct (dict_get k secrets) as [value|] eqn:G; [|destruct H].
    destruct H as [H|[]]. injection H as -> <-.
    exists value. split; [exact G | reflexivity].
  - intros (value & G & ->). exists key. split.
    + apply in_sorted. exact (dict_get_key key value secrets G).
    + rewrite G. left; reflexivity.
Qed.

Lemma loaded_when_some (dev_vars : option str) (key value : str) :
  dict_get key (snd (Secrets.load_secrets dev_vars)) = Some value ->
  fst (Secrets.load_secrets dev_vars) = true.
Proof.
  destruct dev_vars as [contents|]; simpl; [|discriminate].
  destruct (Secrets.load_lines (file_lines contents)); simpl;
    [discriminate | reflexivity].
Qed.

Lemma main_lists (a : Secrets.args) (dev_vars : option str)
  (run : Secrets.runner) :
  Secrets.arg_list a = true ->
  fst (Secrets.load_secrets dev_vars) = true ->
  Secrets.main a dev_vars run
  = (0%Z, map (fun row => Secrets.Printed (Secrets.render_row row))
              (Secrets.list_rows (snd (Secrets.load_secrets dev_vars)))).
Proof.
  intros Hl Hs. unfold Secrets.main.
  destruct (Secrets.load_secrets dev_vars) as [loaded secrets].
  cbn [fst snd] in *. subst loaded. cbn [negb]. rewrite Hl. reflexivity.
Qed.

Lemma mask_long (value : str) :
  20 < length value -> Secrets.mask value = elided value.
Proof.
  intros H. unfold Secrets.mask, elided.
  apply Nat.ltb_lt in H. rewrite H. reflexivity.
Qed.

(** X2: in listing mode the script prints one line per row of the
    listing and nothing else; the row of a key whose value has more than
    23 characters shows, after the key, the first ten characters of the
    value, three dots and its last ten characters, and no other row has
    that key; the text shown has 23 characters and does not contain the
    value. *)
Theorem long_values_are_elided
  (a : Secrets.args) (dev_vars : option str) (run : Secrets.runner)
  (key value : str) :
  Secrets.arg_list a = true ->
  dict_get key (snd (Secrets.load_secrets dev_vars)) = Some value ->
  23 < length value ->
  Secrets.main a dev_vars run
  = (0%Z, map (fun row => Secrets.Printed (Secrets.render_row row))
              (Secrets.list_rows (snd (Secrets.load_secrets dev_vars))))
  /\ In (Secrets.Printed (Secrets.render_row (key, elided value)))
        (snd (Secrets.main a dev_vars run))
  /\ (forall text,
        In (key, text)
           (Secrets.list_rows (snd (Secrets.load_secrets dev_vars)))
        <-> text = elided value)
  /\ length (elided value) = 23
  /\ str_in value (elided value) = false.
Proof.
  intros Hl G H.
  assert (M := main_lists a dev_vars run Hl (loaded_when_some dev_vars key value G)).
  assert (E : Secrets.mask value = elided value) by (apply mask_long; lia).
  assert (R : forall text,
             In (key, text)
                (Secrets.list_rows (snd (Secrets.load_secrets dev_vars)))
             <-> text = elided value).
  { intros text. rewrite list_rows_in. split.
    - intros (value' & G' & ->). rewrite G in G'. injection G' as <-.
      exact E.
    - intros ->. exists value. split; [exact G | symmetry; exact E]. }
  split; [exact M|]. split; [|split; [exact R|split]].
  - rewrite M. cbn [snd].
    apply (in_map (fun row => Secrets.Printed (Secrets.render_row row))).
    apply R. reflexivity.
  - rewrite <- E. apply mask_long_length. lia.
  - rewrite <- E. apply mask_hides_long_values, H.
Qed.

(** X2 at a file with a value of 36 characters: the line printed for it. *)
Lemma long_values_are_elided_at_sample :
  In (Secrets.Printed
        (Secrets.render_row (lit "TOKEN", lit "abcdefghij...0123456789")))
     (snd (Secrets.main list_mode (Some long_and_short) refusing_runner))
  /\ str_in (lit "abcdefghijklmnopqrstuvwxyz0123456789")
       (lit "abcdefghij...0123456789") = false.
Proof.
  destruct (long_values_are_elided list_mode (Some long_and_short)
              refusing_runner (lit "TOKEN")
              (lit "abcdefghijklmnopqrstuvwxyz0123456789")
              eq_refl ltac:(vm_compute; reflexivity)
              ltac:(vm_compute; lia))
    as (_ & P & _ & _ & N).
  split; [exact P | exact N].
Defined.

Lemma rows_agree (secrets secrets' : dict str) (ks : list str) :
  (forall k, In k ks -> In k (dict_keys secrets)) ->
  (forall k, In k ks -> In k (dict_keys secrets')) ->
  (forall key value value',
     dict_get key secrets = Some value ->
     dict_get key secrets' = Some value' ->
     length value <= 20 /\ length value' = length value) ->
  flat_map (fun key =>
              match dict_get key secrets with
              | Some value => [(key, Secrets.mask value)]
              | None => []
              end) ks
  = flat_map (fun key =>
                match dict_get key secrets' with
                | Some value => [(key, Secrets.mask value)]
                | None => []
                end) ks.
Proof.
  intros H1 H2 Hlen. induction ks as [|k ks IH]; [reflexivity|].
  cbn [flat_map]. rewrite IH.
  - f_equal.
    assert (M1 := dict_mem_keys _ k secrets (H1 k (or_introl eq_refl))).
    assert (M2 := dict_mem_keys _ k secrets' (H2 k (or_introl eq_refl))).
    unfold dict_mem in M1, M2.
    destruct (dict_get k secrets) as [v|] eqn:G; [|discriminate].
    destruct (dict_get k secrets') as [v'|] eqn:G'; [|discriminate].
    destruct (Hlen k v v' G G') as [L E].
    rewrite (mask_short v L), (mask_short v') by (rewrite E; exact L).
    rewrite E. reflexivity.
  - intros k' Hk'. apply H1. right; exact Hk'.
  - intros k' Hk'. apply H2. right; exact Hk'.
Qed.

(** X3: the listing reveals the length of a value of at most 20
    characters and nothing else.  Two secrets files that give the same
    keys, with values of the same lengths, all at most 20 characters,
    make the listing mode behave the same way, whatever the values and
    the command line are; and the row of each key shows, after the key,
    as many mask characters as its value has characters. *)
Theorem short_values_show_their_length_only
  (a : Secrets.args) (dev_vars dev_vars' : option str)
  (run run' : Secrets.runner) :
  Secrets.arg_list a = true ->
  dict_keys (snd (Secrets.load_secrets dev_vars))
  = dict_keys (snd (Secrets.load_secrets dev_vars')) ->
  (forall key value value',
     dict_get key (snd (Secrets.load_secrets dev_vars)) = Some value ->
     dict_get key (snd (Secrets.load_secrets dev_vars')) = Some value' ->
     length value <= 20 /\ length value' = length value) ->
  Secrets.main a dev_vars run = Secrets.main a dev_vars' run'
  /\ forall key value,
       dict_get key (snd (Secrets.load_secrets dev_vars)) = Some value ->
       In (Secrets.Printed
             (Secrets.render_row (key, repeat Secrets.STAR (length value))))
          (snd (Secrets.main a dev_vars run))
       /\ forall text,
            In (key, text)
               (Secrets.list_rows (snd (Secrets.load_secrets dev_vars)))
            <-> text = repeat Secrets.STAR (length value).
Proof.
  intros Hl Hk Hlen. split.
  - destruct (fst (Secrets.load_secrets dev_vars)) eqn:L.
    + assert (L' : fst (Secrets.load_secrets dev_vars') = true).
      { destruct dev_vars as [c|]; [|discriminate L].
        destruct dev_vars' as [c'|]; simpl in *.
        - destruct (Secrets.load_lines (file_lines c));
            [discriminate L|].
          destruct (Secrets.load_lines (file_lines c'));
            [discriminate Hk | reflexivity].
        - destruct (Secrets.load_lines (file_lines c));
            [discriminate L | discriminate Hk]. }
      rewrite (main_lists a dev_vars run Hl L),
        (main_lists a dev_vars' run' Hl L').
      do 2 f_equal. unfold Secrets.list_rows. rewrite <- Hk.
      apply rows_agree.
      * intros k. apply in_sorted.
      * intros k Hin. rewrite <- Hk. apply in_sorted. exact Hin.
      * exact Hlen.
    + assert (L' : fst (Secrets.load_secrets dev_vars') = false).
      { destruct dev_vars as [c|]; destruct dev_vars' as [c'|];
          simpl in *; try reflexivity.
        - destruct (Secrets.load_lines (file_lines c));
            [|discriminate L].
          destruct (Secrets.load_lines (file_lines c'));
            [reflexivity | discriminate Hk].
        - destruct (Secrets.load_lines (file_lines c'));
            [reflexivity | discriminate Hk]. }
      unfold Secrets.main.
      destruct (Secrets.load_secrets dev_vars) as [l1 s1].
      destruct (Secrets.load_secrets dev_vars') as [l2 s2].
      cbn [fst] in L, L'. subst l1 l2. reflexivity.
  - intros key value G.
    assert (Hin : In key
                    (dict_keys (snd (Secrets.load_secrets dev_vars'))))
      by (rewrite <- Hk; exact (dict_get_key key value _ G)).
    apply dict_mem_keys in Hin. unfold dict_mem in Hin.
    destruct (dict_get key (snd (Secrets.load_secrets dev_vars')))
      as [value'|] eqn:G'; [|discriminate].
    destruct (Hlen key value value' G G') as [L _].
    assert (E := mask_short value L).
    assert (R : forall text,
               In (key, text)
                  (Secrets.list_rows (snd (Secrets.load_secrets dev_vars)))
               <-> text = repeat Secrets.STAR (length value)).
    { intros text. rewrite list_rows_in. split.
      - intros (v & Gv & ->). rewrite G in Gv. injection Gv as <-.
        exact E.
      - intros ->. exists value. split; [exact G | symmetry; exact E]. }
    split; [|exact R].
    rewrite (main_lists a dev_vars run Hl
               (loaded_when_some dev_vars key value G)).
    cbn [snd].
    apply (in_map (fun row => Secrets.Printed (Secrets.render_row row))).
    apply R. reflexivity.
Qed.

(** X3 at two files that differ in their values only: the same listing,
    with six mask characters for the password. *)
Lemma short_values_at_sample :
  Secrets.main list_mode (Some short_values) sample_runner
  = Secrets.main list_mode (Some other_short_values) refusing_runner
  /\ In (Secrets.Printed (Secrets.render_row (lit "PASSWORD", lit "******")))
        (snd (Secrets.main list_mode (Some short_values) sample_runner)).
Proof.
  assert (H : forall key value value',
             dict_get key (snd (Secrets.load_secrets (Some short_values)))
             = Some value ->
             dict_get key
               (snd (Secrets.load_secrets (Some other_short_values)))
             = Some value' ->
             length value <= 20 /\ length value' = length value).
  { intros key value value'.
    change (snd (Secrets.load_secrets (Some short_values)))
      with [(lit "PASSWORD", lit "hunter"); (lit "PIN", lit "1234")].
    change (snd (Secrets.load_secrets (Some other_short_values)))
      with [(lit "PASSWORD", lit "secret"); (lit "PIN", lit "9876")].
    cbn [dict_get].
    destruct (str_eqb key (lit "PASSWORD")).
    - intros E E'. injection E as <-. injection E' as <-.
      split; [vm_compute; lia | reflexivity].
    - destruct (str_eqb key (lit "PIN")); [|discriminate].
      intros E E'. injection E as <-. injection E' as <-.
      split; [vm_compute; lia | reflexivity]. }
  destruct (short_values_show_their_length_only list_mode
              (Some short_values) (Some other_short_values)
              sample_runner refusing_runner eq_refl eq_refl H)
    as [E R].
  split; [exact E|].
  exact (proj1 (R (lit "PASSWORD") (lit "hunter") eq_refl)).
Defined.

(** ** Synchronizing every loaded secret *)

Lemma dict_get_app_fresh {V} (k : str) (v : V) (pre suf : dict V) :
  ~ In k (dict_keys pre) ->
  dict_get k (pre ++ (k, v) :: suf) = Some v.
Proof.
  induction pre as [|[k0 v0] pre IH]; simpl; intros H.
  - rewrite str_eqb_refl. reflexivity.
  - destruct (str_eqb k k0) eqn:E.
    + apply str_eqb_eq in E. subst k0. exfalso. apply H. left; reflexivity.
    + apply IH. intros Hin. apply H. right; exact Hin.
Qed.

Lemma present_pairs_suffix (pre suf : dict str) :
  NoDup (dict_keys (pre ++ suf)) ->
  present_pairs (pre ++ suf) (dict_keys suf) = suf.
Proof.
  revert pre. induction suf as [|[k v] suf IH]; intros pre H;
    [reflexivity|].
  cbn [dict_keys map fst]. rewrite present_pairs_cons.
  assert (Hk : ~ In k (dict_keys pre)).
  { unfold dict_keys in *. rewrite map_app in H. simpl in H.
    apply NoDup_remove_2 in H. intros Hin. apply H.
    apply in_or_app. left; exact Hin. }
  rewrite (dict_get_app_fresh k v pre suf Hk). f_equal.
  specialize (IH (pre ++ [(k, v)])). rewrite <- app_assoc in IH.
  apply IH. exact H.
Qed.

Lemma present_pairs_all (d : dict str) :
  NoDup (dict_keys d) -> present_pairs d (dict_keys d) = d.
Proof. exact (present_pairs_suffix [] d). Qed.

(** X4: without a selection of keys, synchronizing to an environment
    attempts every secret of the loaded mapping exactly once, in the order
    of the mapping, each with its key in the command and its value on the
    standard input; the two counters add up to the number of secrets. *)
Theorem every_loaded_secret_is_uploaded_once
  (run : Secrets.runner) (contents environment : str)
  (tr tr' : Secrets.trace) (s f : nat) :
  Secrets.sync_to_environment run
    (snd (Secrets.load_secrets (Some contents))) environment None tr
  = (s, f, tr') ->
  exists evs,
    tr' = tr ++ evs ++ [Secrets.EnvSummary s f]
    /\ runs_of evs
       = map (upload_invocation environment)
             (snd (Secrets.load_secrets (Some contents)))
    /\ s + f = length (snd (Secrets.load_secrets (Some contents))).
Proof.
  intros H. unfold Secrets.sync_to_environment in H.
  set (secrets := snd (Secrets.load_secrets (Some contents))) in *.
  destruct (fold_sync_key run secrets environment
              (Secrets.keys_to_sync secrets None) 0 0 tr)
    as (s1 & f1 & evs & E & T & R & L).
  rewrite E in H. simpl in H. injection H as <- <- <-.
  cbn [Secrets.keys_to_sync] in R, L.
  rewrite (present_pairs_all secrets (loaded_keys_nodup contents)) in R, L.
  exists evs. rewrite <- app_assoc. auto.
Qed.

(** X4 at the sample file: two attempts, one per secret. *)
Lemma every_loaded_secret_at_sample :
  exists evs,
    length (runs_of evs) = 2
    /\ map Secrets.inv_stdin (runs_of evs)
       = [lit "abc123"; lit "postgres://db"].
Proof.
  destruct (every_loaded_secret_is_uploaded_once sample_runner two_secrets
              (lit "production") []
              (snd (Secrets.sync_to_environment sample_runner
                      (snd (Secrets.load_secrets (Some two_secrets)))
                      (lit "production") None []))
              1 1 ltac:(vm_compute; reflexivity))
    as (evs & _ & R & _).
  exists evs. rewrite R. split; vm_compute; reflexivity.
Defined.

(** ** Several environments *)

Lemma tally_app (run : Secrets.runner) (a b pre : Secrets.trace) :
  tally run pre (a ++ b)
  = (fst (tally run pre a) + fst (tally run (pre ++ a) b),
     snd (tally run pre a) + snd (tally run (pre ++ a) b)).
Proof.
  revert pre. induction a as [|e a IH]; intros pre.
  - simpl. rewrite app_nil_r. destruct (tally run pre b); reflexivity.
  - cbn [app tally]. rewrite IH, <- app_assoc. cbn [app].
    destruct (tally run (pre ++ [e]) a) as [s1 f1].
    destruct (tally run (pre ++ e :: a) b) as [s2 f2]. cbn [fst snd].
    destruct e as [i| | | |]; try reflexivity.
    destruct (Secrets.upload_ok (run pre i)); reflexivity.
Qed.

Lemma fold_sync_env (run : Secrets.runner) (secrets : dict str)
  (keys : option (list str)) (envs : list str) :
  forall ts tf tr,
  exists s f evs,
    fold_left (Secrets.sync_env run secrets keys) envs (ts, tf, tr)
    = (ts + s, tf + f, tr ++ evs)
    /\ tally run tr evs = (s, f)
    /\ runs_of evs = uploads_of secrets keys envs
    /\ length (runs_of evs)
       = length envs
         * length (present_pairs secrets (Secrets.keys_to_sync secrets keys)).
Proof.
  induction envs as [|e envs IH]; intros ts tf tr; cbn [fold_left].
  - exists 0, 0, []. rewrite !Nat.add_0_r, app_nil_r. auto.
  - unfold Secrets.sync_env at 2. unfold Secrets.sync_to_environment.
    destruct (fold_sync_key run secrets e
                (Secrets.keys_to_sync secrets keys) 0 0 tr)
      as (s1 & f1 & evs1 & E & T & R & L).
    rewrite E. cbn [Nat.add].
    destruct (IH (ts + s1) (tf + f1)
                 ((tr ++ evs1) ++ [Secrets.EnvSummary s1 f1]))
      as (s2 & f2 & evs2 & E2 & T2 & U2 & R2).
    exists (s1 + s2), (f1 + f2),
      ((evs1 ++ [Secrets.EnvSummary s1 f1]) ++ evs2).
    split; [|split; [|split]].
    + etransitivity; [exact E2|].
      rewrite !Nat.add_assoc, <- !app_assoc. reflexivity.
    + rewrite tally_app, (app_assoc tr evs1), T2, tally_app, T.
      cbn [tally fst snd]. f_equal; lia.
    + rewrite !runs_of_app, U2, R. unfold uploads_of. cbn [flat_map].
      cbn [runs_of flat_map app]. rewrite app_nil_r. reflexivity.
    + rewrite !runs_of_app, !length_app, R2, R, length_map. simpl. lia.
Qed.

(** X5: synchronizing to a list of environments runs the upload command
    for each environment in turn, in the order given, and within an
    environment for each selected key that the mapping holds, in the
    order of the selection, with that key and that environment in the
    command and the key's value on the standard input, and runs nothing
    else: every selected secret held by the mapping is attempted once per
    environment.  The totals it reports are the numbers of attempts that
    succeeded and failed over the whole run, and its result is true
    exactly when no attempt failed. *)
Theorem sync_all_reports_the_totals
  (run : Secrets.runner) (secrets : dict str) (envs : list str)
  (keys : option (list str)) (tr : Secrets.trace) :
  exists evs s f,
    Secrets.sync_all_environments run secrets envs keys tr
    = (f =? 0, tr ++ evs ++ [Secrets.FinalSummary s f])
    /\ tally run tr evs = (s, f)
    /\ runs_of evs
       = flat_map (fun env =>
                     map (fun kv =>
                            {| Secrets.inv_cmd :=
                                 Secrets.upload_command (fst kv) env;
                               Secrets.inv_stdin := snd kv;
                               Secrets.inv_timeout := 30 |})
                         (present_pairs secrets
                            (Secrets.keys_to_sync secrets keys))) envs
    /\ length (runs_of evs)
       = length envs
         * length (present_pairs secrets (Secrets.keys_to_sync secrets keys)).
Proof.
  unfold Secrets.sync_all_environments.
  destruct (fold_sync_env run secrets keys envs 0 0 tr)
    as (s & f & evs & E & T & U & R).
  rewrite E. exists evs, s, f. cbn [Nat.add]. rewrite <- app_assoc.
  split; [reflexivity|]. split; [exact T|]. split; [exact U | exact R].
Qed.

(** ** The modes of [main] *)

(** X6: when the secrets file is missing or gives no entry, or when
    neither a listing nor an environment is asked for, the synchronizer
    exits with status 1 and has run no command; in listing mode it exits
    with status 0, has run no command and has printed one row per key of
    the mapping. *)
Theorem main_runs_nothing_outside_sync_mode
  (a : Secrets.args) (dev_vars : option str) (run : Secrets.runner) :
  (fst (Secrets.load_secrets dev_vars) = false
   \/ (Secrets.arg_list a = false /\ Secrets.environments_of a = None) ->
   Secrets.main a dev_vars run = (1%Z, []))
  /\ (fst (Secrets.load_secrets dev_vars) = true ->
      Secrets.arg_list a = true ->
      fst (Secrets.main a dev_vars run) = 0%Z
      /\ runs_of (snd (Secrets.main a dev_vars run)) = []
      /\ length (snd (Secrets.main a dev_vars run))
         = length (snd (Secrets.load_secrets dev_vars))).
Proof.
  unfold Secrets.main.
  destruct (Secrets.load_secrets dev_vars) as [loaded secrets] eqn:L.
  cbn [fst snd]. split.
  - intros [->|[Hl He]]; [reflexivity|].
    destruct loaded; [|reflexivity]. cbn [negb]. rewrite Hl, He.
    reflexivity.
  - intros -> ->. cbn [negb fst snd]. unfold Secrets.list_secrets.
    cbn [app]. split; [reflexivity|]. split.
    + induction (Secrets.list_rows secrets) as [|r rs IH];
        [reflexivity | exact IH].
    + rewrite length_map.
      rewrite <- (length_map fst (Secrets.list_rows secrets)),
        list_rows_keys.
      rewrite (Permutation_length (sorted_perm _)).
      unfold dict_keys. apply length_map.
Qed.

(** X24: in sync mode, with a secrets file that gives at least one entry,
    the synchronizer exits with status 0 exactly when no upload attempt
    of the whole run failed, and with status 1 otherwise; the commands it
    has run are the uploads of every selected secret held by the mapping,
    once per environment named on the command line: environment by
    environment in the order given, key by key in the order of the
    selection, each with its key and its environment in the command and
    its value on the standard input. *)
Theorem sync_exit_status_counts_the_failures
  (a : Secrets.args) (dev_vars : option str) (run : Secrets.runner)
  (envs : list str) :
  fst (Secrets.load_secrets dev_vars) = true ->
  Secrets.arg_list a = false ->
  Secrets.environments_of a = Some envs ->
  exists evs s f,
    Secrets.main a dev_vars run
    = (if (f =? 0)%nat then 0%Z else 1%Z,
       evs ++ [Secrets.FinalSummary s f])
    /\ tally run [] evs = (s, f)
    /\ runs_of (snd (Secrets.main a dev_vars run))
       = flat_map (fun env =>
                     map (fun kv =>
                            {| Secrets.inv_cmd :=
                                 Secrets.upload_command (fst kv) env;
                               Secrets.inv_stdin := snd kv;
                               Secrets.inv_timeout := 30 |})
                         (present_pairs
                            (snd (Secrets.load_secrets dev_vars))
                            (Secrets.keys_to_sync
                               (snd (Secrets.load_secrets dev_vars))
                               (Secrets.arg_keys a)))) envs
    /\ length (runs_of evs)
       = length envs
         * length (present_pairs (snd (Secrets.load_secrets dev_vars))
                     (Secrets.keys_to_sync
                        (snd (Secrets.load_secrets dev_vars))
                        (Secrets.arg_keys a))).
Proof.
  intros Hload Hlist Henv. unfold Secrets.main.
  destruct (Secrets.load_secrets dev_vars) as [loaded secrets].
  cbn [fst snd] in *. subst loaded. cbn [negb]. rewrite Hlist, Henv.
  unfold Secrets.sync_all_environments.
  destruct (fold_sync_env run secrets (Secrets.arg_keys a) envs 0 0 [])
    as (s & f & evs & E & T & U & R).
  rewrite E. exists evs, s, f. cbn [Nat.add app snd].
  split; [reflexivity|]. split; [exact T|]. split; [|exact R].
  rewrite runs_of_app. cbn [runs_of flat_map app]. rewrite app_nil_r.
  exact U.
Qed.

(** X24 at the sample file, synchronized to two environments: the four
    uploads in order, those of [DB_URL] refused, the exit status 1. *)
Lemma sync_exit_status_at_sample :
  fst (Secrets.main (sync_to [lit "default"; lit "production"] None)
         (Some two_secrets) sample_runner) = 1%Z
  /\ map (fun i => (Secrets.inv_cmd i, Secrets.inv_stdin i))
         (runs_of (snd (Secrets.main
                          (sync_to [lit "default"; lit "production"] None)
                          (Some two_secrets) sample_runner)))
     = [([lit "npx"; lit "wrangler"; lit "secret"; lit "put";
          lit "API_KEY"], lit "abc123");
        ([lit "npx"; lit "wrangler"; lit "secret"; lit "put";
          lit "DB_URL"], lit "postgres://db");
        ([lit "npx"; lit "wrangler"; lit "secret"; lit "put";
          lit "API_KEY"; lit "--env=production"], lit "abc123");
        ([lit "npx"; lit "wrangler"; lit "secret"; lit "put";
          lit "DB_URL"; lit "--env=production"], lit "postgres://db")].
Proof.
  destruct (sync_exit_status_counts_the_failures
              (sync_to [lit "default"; lit "production"] None)
              (Some two_secrets) sample_runner
              [lit "default"; lit "production"] eq_refl eq_refl eq_refl)
    as (evs & s & f & E & _ & U & _).
  split.
  - rewrite E. vm_compute in E. injection E as E _.
    destruct f; [discriminate | reflexivity].
  - rewrite U. vm_compute. reflexivity.
Defined.

End SecretsRuns.


(* ================================================================== *)
(** * Further properties of the token tester *)
(* ================================================================== *)

Section TesterRuns.
Import Py Tester Battery MoreTester.

(** ** The shape of a battery *)

(** X7: a battery that returns, run on a new tester, has recorded exactly
    seven results, under the names of the seven probes in their fixed
    order, has sent the seven requests in that order, and returns the
    number of passed results and the number of the others, which add up
    to seven. *)
Theorem battery_records_seven_results
  (net : backend) (self : tester) (before : trace) (s' : state)
  (passed failed : nat) :
  run_all_tests net self {| results := []; log := before |}
  = (Ok (passed, failed), s') ->
  map (fun pr => fst (fst pr)) (results s') = map (probe_name self) battery
  /\ log s' = before ++ map Request (map (probe_request self) battery)
  /\ passed = count_passed (results s')
  /\ passed + failed = 7.
Proof.
  intros H.
  pose proof (run_all_tests_fresh_total net self
                {| results := []; log := before |} s' passed failed
                eq_refl H) as T.
  apply run_all_tests_ok in H.
  destruct H as (prs & Names & R & L & P & _). simpl in R, L.
  repeat split; try assumption. rewrite R. exact Names.
Qed.

(** X7 at an account that has nothing: six probes pass, one fails. *)
Lemma battery_at_empty_account :
  fst (run_all_tests empty_account sample_tester initial_state) = Ok (6, 1)
  /\ 6 + 1 = 7.
Proof.
  split; [vm_compute; reflexivity|].
  exact (proj2 (proj2 (proj2
    (battery_records_seven_results empty_account sample_tester []
       (snd (run_all_tests empty_account sample_tester initial_state))
       6 1 ltac:(vm_compute; reflexivity))))).
Defined.

Lemma startswith_app (p t : str) : startswith N.eqb p (p ++ t) = true.
Proof.
  induction p as [|c p IH]; simpl; [reflexivity|].
  rewrite N.eqb_refl. exact IH.
Qed.

Lemma run_probes_trace {A} (net : backend) (self : tester) (k : M A)
  (ps : list probe) :
  (forall s, log (snd (k s)) = log s) ->
  forall s,
  exists n,
    n <= length ps
    /\ log (snd (run_probes net self ps k s))
       = log s ++ map Request (map (probe_request self) (firstn n ps))
    /\ (n = length ps \/ exists e, fst (run_probes net self ps k s) = Raise e).
Proof.
  intros Hk. induction ps as [|p ps IH]; intros s; cbn [run_probes].
  - exists 0. rewrite Hk. simpl. rewrite app_nil_r. auto.
  - unfold bind. rewrite run_probe_step. unfold recorded_step.
    destruct (probe_answer self p _) as [[b pr]|e].
    + destruct (IH {| results := results s ++ [pr];
                      log := log s ++ [Request (probe_request self p)] |})
        as (n & Hle & Hn & Hend).
      exists (S n). rewrite Hn. simpl. rewrite <- app_assoc.
      split; [lia|]. split; [reflexivity|].
      destruct Hend as [->|He]; [left; reflexivity | right; exact He].
    + exists 1. simpl. split; [lia|]. split; [reflexivity|].
      right. exists e. reflexivity.
Qed.

(** X8: whatever the network answers, a battery only sends GET requests,
    each to a URL under the API base, with the tester's token and a
    time-out of 10; they are the requests of the probes in their fixed
    order, all seven unless a probe raised, and nothing else is added to
    the trace. *)
Theorem battery_only_reads (net : backend) (self : tester) (s : state) :
  (exists n,
      n <= 7
      /\ log (snd (run_all_tests net self s))
         = log s ++ map Request (map (probe_request self) (firstn n battery))
      /\ (n = 7 \/ exists e, fst (run_all_tests net self s) = Raise e))
  /\ forall p,
       req_method (probe_request self p) = GET
       /\ req_bearer (probe_request self p) = token self
       /\ req_timeout (probe_request self p) = 10
       /\ startswith N.eqb base_url (req_url (probe_request self p)) = true.
Proof.
  split.
  - rewrite run_all_tests_battery.
    apply (run_probes_trace net self print_summary battery).
    intros s0. unfold print_summary.
    destruct (length (results s0) =? 0); reflexivity.
  - intros p. split; [reflexivity|]. split; [reflexivity|].
    split; [reflexivity | apply startswith_app].
Qed.

(** X9: when every answer reports an error the way the API does (an
    exception of the HTTP library, a body that is not JSON, or a JSON
    object that is not a success and whose errors, if any, start with an
    object), the battery runs its seven probes in order, records a
    failure for each and returns 0 passed and 7 failed. *)
Theorem refused_calls_give_seven_failures
  (net : backend) (self : tester) (before : trace) :
  (forall tr p, error_answer (net tr (probe_request self p))) ->
  exists prs,
    classifications prs = map (fun p => (probe_name self p, false)) battery
    /\ run_all_tests net self {| results := []; log := before |}
       = (Ok (0, 7),
          {| results := prs;
             log := before
                    ++ map Request (map (probe_request self) battery) |}).
Proof. exact (battery_of_error_answers net self before). Qed.

(** X9 at a backend that refuses every call with a well-formed error. *)
Lemma refused_calls_at_denied :
  fst (run_all_tests denied sample_tester initial_state) = Ok (0, 7).
Proof.
  destruct (refused_calls_give_seven_failures denied sample_tester [])
    as (prs & _ & E).
  - intros tr p. simpl. split; [left; discriminate|].
    right. eexists _, _. reflexivity.
  - unfold initial_state. rewrite E. reflexivity.
Defined.

End TesterRuns.


Section TesterHeal.
Import Py Tester Battery MoreTester.

(** ** The heal call *)

(** X10: the heal call never raises; it sends exactly one request, the
    POST to the heal endpoint, and records no probe result.  It answers
    true only if the response has status 200 and a JSON object with a
    true success flag, and it does answer true for such a response when
    the object has no [data] field. *)
Theorem heal_call_is_one_post
  (net : backend) (worker_url auth_token : str) (s : state) :
  exists b,
    trigger_self_heal net worker_url auth_token s
    = (Ok b,
       {| results := results s;
          log := log s ++ [Request (heal_request worker_url auth_token)] |})
    /\ (b = true ->
        exists d v,
          net (log s) (heal_request worker_url auth_token)
          = Response 200 (Some (JDict d))
          /\ dict_get (lit "success") d = Some v
          /\ truthy v = true)
    /\ (forall d v,
          net (log s) (heal_request worker_url auth_token)
          = Response 200 (Some (JDict d)) ->
          dict_get (lit "success") d = Some v ->
          truthy v = true ->
          dict_get (lit "data") d = None ->
          b = true).
Proof.
  exists (heal_outcome (net (log s) (heal_request worker_url auth_token))).
  split; [reflexivity|]. split.
  - destruct (net (log s) (heal_request worker_url auth_token))
      as [|m|status_code [data|]]; simpl; try discriminate.
    unfold heal_answer.
    destruct (status_code =? 200)%Z eqn:E.
    + apply Z.eqb_eq in E. subst status_code.
      destruct data as [| | | | | |d]; simpl; try discriminate.
      destruct (dict_get (lit "success") d) as [v|] eqn:G; simpl.
      * destruct (truthy v) eqn:T.
        -- intros _. exists d, v. auto.
        -- destruct (dict_get (lit "message") d); discriminate.
      * destruct (dict_get (lit "message") d); discriminate.
    + cbn [rbind].
      destruct (py_get data (lit "message") UNKNOWN_ERROR); discriminate.
  - intros d v -> Hv Ht Hd. simpl. unfold heal_answer.
    cbn [Z.eqb Pos.eqb py_get rbind]. rewrite Hv. cbn [rbind]. rewrite Ht.
    unfold show_heal_results. cbn [py_get rbind]. rewrite Hd. reflexivity.
Qed.

(** ** Runs of the script *)

Lemma count_posts_app (a b : trace) :
  count_posts (a ++ b) = count_posts a + count_posts b.
Proof. unfold count_posts. rewrite filter_app, length_app. reflexivity. Qed.

Lemma count_posts_no_post (tr : trace) : no_post tr -> count_posts tr = 0.
Proof.
  unfold count_posts. induction tr as [|e tr IH]; intros H; [reflexivity|].
  simpl. destruct e as [r| |]; simpl.
  - rewrite (H r (or_introl eq_refl)).
    apply IH. intros q Hq. apply H. right; exact Hq.
  - apply IH. intros q Hq. apply H. right; exact Hq.
  - apply IH. intros q Hq. apply H. right; exact Hq.
Qed.

Lemma heal_phase_posts (net : backend) (c : config) (s : state)
  (passed failed : nat) (needs_healing : bool) :
  exists evs,
    log (snd (heal_phase net c passed failed needs_healing s))
    = log s ++ evs
    /\ count_posts evs <= 1.
Proof.
  unfold heal_phase.
  destruct (needs_healing && (0 <? failed));
    [|exists []; simpl; rewrite app_nil_r; auto].
  destruct (missing (cfg_worker_url c));
    [eexists; split; [reflexivity | unfold count_posts; simpl; lia]|].
  destruct (missing (cfg_client_auth_token c));
    [eexists; split; [reflexivity | unfold count_posts; simpl; lia]|].
  unfold bind at 1. unfold trigger_self_heal.
  destruct (heal_outcome _);
    [|eexists; split; [reflexivity | unfold count_posts; simpl; lia]].
  unfold bind at 1. unfold emit. cbn [results log].
  set (s2 := {| results := results s; log := _ |}).
  destruct (run_phase_log net c s2) as (evs & L & N).
  assert (Hs2 : log s2
                = log s ++ [Request (heal_request
                                       (value_of (cfg_worker_url c))
                                       (value_of (cfg_client_auth_token c)));
                            Sleep 3]).
  { subst s2. simpl. rewrite <- app_assoc. reflexivity. }
  exists ([Request (heal_request (value_of (cfg_worker_url c))
                      (value_of (cfg_client_auth_token c)));
           Sleep 3] ++ evs).
  rewrite count_posts_app, (count_posts_no_post evs N).
  split; [|unfold count_posts; simpl; lia].
  rewrite app_assoc, <- Hs2, <- L.
  unfold bind.
  destruct (run_phase net c s2) as [[[p' f']|e] s3]; [|reflexivity].
  cbn [snd]. unfold success_rate.
  destruct (passed + failed =? 0); [reflexivity|]. cbn [ret].
  destruct (p' + f' =? 0); reflexivity.
Qed.

(** X11: a run of the token tester calls the heal endpoint at most once,
    whatever the network answers and however the run ends. *)
Theorem at_most_one_heal_call (net : backend) (dev_vars : option str) :
  count_posts (snd (run_main net dev_vars)) <= 1.
Proof.
  unfold run_main, main, bind, lift.
  destruct (load_env_vars dev_vars) as [env_vars|e]; [|unfold count_posts; simpl; lia].
  cbv zeta.
  destruct (missing (cfg_account_id (read_config env_vars))); [unfold count_posts; simpl; lia|].
  destruct (missing (cfg_account_token (read_config env_vars))
            && missing (cfg_user_token (read_config env_vars)));
    [unfold count_posts; simpl; lia|].
  rewrite initial_phase_run_phase.
  destruct (run_phase_log net (read_config env_vars) initial_state)
    as (evs & L & N). simpl in L.
  destruct (run_phase net (read_config env_vars) initial_state)
    as [[[p f]|e] s1]; cbn [snd] in L.
  - destruct (p + f =? 0).
    + cbn [snd]. rewrite L, (count_posts_no_post evs N). lia.
    + destruct (heal_phase_posts net (read_config env_vars) s1 p f (0 <? f))
        as (evs2 & L2 & C2).
      destruct (heal_phase net (read_config env_vars) p f (0 <? f) s1)
        as [r s2]. cbn [snd] in L2 |- *.
      rewrite L2, L, count_posts_app, (count_posts_no_post evs N). lia.
  - cbn [snd]. rewrite L, (count_posts_no_post evs N). lia.
Qed.

(** X12: with INITIAL failures and the heal endpoint and its credential
    configured, a heal call that does not succeed ends the run with
    status 1 right after the POST: no RETEST request is sent. *)
Theorem failed_heal_ends_the_run
  (net : backend) (dev_vars : option str) (env_vars : dict str)
  (s1 : state) (passed failed : nat) (needs_healing : bool) :
  load_env_vars dev_vars = Ok env_vars ->
  missing (cfg_account_id (read_config env_vars)) = false ->
  missing (cfg_account_token (read_config env_vars))
  && missing (cfg_user_token (read_config env_vars)) = false ->
  initial_phase net (read_config env_vars) initial_state
  = (Ok (passed, failed, needs_healing), s1) ->
  0 < failed ->
  can_heal (read_config env_vars) = true ->
  heal_outcome (heal_reply net (read_config env_vars) s1) = false ->
  run_main net dev_vars
  = (1%Z,
     log s1
     ++ [Request (heal_request
                    (value_of (cfg_worker_url (read_config env_vars)))
                    (value_of (cfg_client_auth_token
                                 (read_config env_vars))))]).
Proof.
  intros Hload Hid Htok Hinit Hf Hc Hheal.
  unfold run_main.
  rewrite (main_after_initial net dev_vars env_vars s1 passed failed
             needs_healing Hload Hid Htok Hinit).
  destruct (initial_phase_ok net (read_config env_vars) initial_state s1
              passed failed needs_healing Hinit) as (-> & _ & _).
  apply Nat.ltb_lt in Hf. unfold heal_phase, can_heal in *. rewrite Hf.
  cbn [andb].
  apply andb_true_iff in Hc. destruct Hc as [Hu Ha].
  apply negb_true_iff in Hu, Ha. rewrite Hu, Ha.
  unfold bind, trigger_self_heal. unfold heal_reply in Hheal.
  rewrite Hheal. reflexivity.
Qed.

(** X12 at a backend that refuses every call, the heal call included. *)
Lemma failed_heal_at_denied :
  fst (run_main denied (Some with_heal_endpoint)) = 1%Z
  /\ count_posts (snd (run_main denied (Some with_heal_endpoint))) = 1.
Proof.
  rewrite (failed_heal_ends_the_run denied (Some with_heal_endpoint)
             (fold_left env_line (file_lines with_heal_endpoint) [])
             (snd (initial_phase denied
                     (read_config
                        (fold_left env_line (file_lines with_heal_endpoint)
                           []))
                     initial_state))
             0 7 true eq_refl eq_refl eq_refl
             ltac:(vm_compute; reflexivity) ltac:(lia) eq_refl
             ltac:(vm_compute; reflexivity)).
  split; [reflexivity | vm_compute; reflexivity].
Defined.

(** X13: when the variables file is missing, or gives no account
    identifier, or gives neither token, the token tester exits with
    status 1 before any request is sent. *)
Theorem missing_configuration_sends_nothing
  (net : backend) (dev_vars : option str) :
  (dev_vars = None
   \/ exists env_vars,
        load_env_vars dev_vars = Ok env_vars
        /\ (missing (cfg_account_id (read_config env_vars)) = true
            \/ (missing (cfg_account_token (read_config env_vars)) = true
                /\ missing (cfg_user_token (read_config env_vars)) = true))) ->
  run_main net dev_vars = (1%Z, []).
Proof.
  intros [->|(env_vars & Hload & H)]; [reflexivity|].
  unfold run_main, main, bind, lift. rewrite Hload. cbv zeta.
  destruct H as [->|[Ha Hu]]; [reflexivity|].
  rewrite Ha, Hu.
  destruct (missing (cfg_account_id (read_config env_vars))); reflexivity.
Qed.

(** X13 at a file without an account identifier. *)
Lemma missing_configuration_at_sample :
  run_main denied (Some no_account_id) = (1%Z, []).
Proof.
  apply missing_configuration_sends_nothing.
  right. exists (fold_left env_line (file_lines no_account_id) []).
  split; [reflexivity | left; vm_compute; reflexivity].
Defined.

(** ** The credentials of a phase *)

Lemma pass_ok (net : backend) (self : tester) (s s' : state)
  (passed failed : nat) :
  pass net self s = (Ok (passed, failed), s') ->
  passed + failed = 7
  /\ log s' = log s ++ map Request (map (probe_request self) battery).
Proof.
  intros H. split; [exact (pass_total net self s s' passed failed H)|].
  unfold pass, bind, new_tester in H.
  apply run_all_tests_ok in H.
  destruct H as (_ & _ & _ & L & _). exact L.
Qed.

Lemma run_phase_ok (net : backend) (c : config) (s s' : state)
  (passed failed : nat) :
  run_phase net c s = (Ok (passed, failed), s') ->
  passed + failed = 7 * credentials c
  /\ log s' = log s ++ map Request (phase_requests c).
Proof.
  rewrite run_phase_passes. unfold bind, credentials, phase_requests.
  destruct (missing (cfg_account_token c)).
  - cbn [ret fst snd].
    destruct (missing (cfg_user_token c)).
    + cbn [ret]. intros H; injection H as <- <- <-.
      simpl. rewrite app_nil_r. auto.
    + destruct (pass net (user_tester c) s) as [[[p2 f2]|e] s2] eqn:P;
        [|discriminate].
      apply pass_ok in P. destruct P as [T L].
      cbn [ret fst snd]. intros H; injection H as <- <- <-.
      simpl. split; [lia | exact L].
  - destruct (pass net (account_tester c) s) as [[[p1 f1]|e] s1] eqn:P;
      [|discriminate].
    apply pass_ok in P. destruct P as [T L]. cbn [fst snd].
    destruct (missing (cfg_user_token c)).
    + cbn [ret]. intros H; injection H as <- <- <-.
      rewrite app_nil_r. split; [lia | exact L].
    + destruct (pass net (user_tester c) s1) as [[[p2 f2]|e] s2] eqn:P2;
        [|discriminate].
      apply pass_ok in P2. destruct P2 as [T2 L2].
      cbn [ret fst snd]. intros H; injection H as <- <- <-.
      rewrite L2, L, map_app, app_assoc. split; [lia | reflexivity].
Qed.

(** X14: a phase that returns, the INITIAL phase as well as the RETEST
    phase, has run one battery per credential that is present, the
    account token first: its totals add up to seven times the number of
    credentials present, an absent credential adds nothing, and the
    requests sent are those of the batteries, in order.  The INITIAL
    phase returns only when a credential is present, and asks for healing
    exactly when one of its results is a fail. *)
Theorem phase_totals_count_the_credentials
  (net : backend) (c : config) (s : state) :
  (forall s' passed failed needs_healing,
     initial_phase net c s = (Ok (passed, failed, needs_healing), s') ->
     passed + failed = 7 * credentials c
     /\ 0 < credentials c
     /\ needs_healing = (0 <? failed)
     /\ log s' = log s ++ map Request (phase_requests c))
  /\ (forall s' passed failed,
        run_phase net c s = (Ok (passed, failed), s') ->
        passed + failed = 7 * credentials c
        /\ log s' = log s ++ map Request (phase_requests c)).
Proof.
  split; [|intros s' passed failed; apply run_phase_ok].
  intros s' passed failed needs_healing. rewrite initial_phase_run_phase.
  destruct (run_phase net c s) as [[[p f]|e] s1] eqn:R; [|discriminate].
  destruct (p + f =? 0) eqn:Z; [discriminate|].
  intros H. injection H as <- <- <- <-.
  destruct (run_phase_ok net c s s1 p f R) as [T L].
  apply Nat.eqb_neq in Z.
  split; [exact T|]. split; [lia|]. split; [reflexivity | exact L].
Qed.

(** X14 at a file with the account token only, every call refused: the
    INITIAL phase sends the seven requests of the account token's
    battery, records seven fails and asks for healing. *)
Lemma phase_totals_at_account_only :
  credentials account_only_config = 1
  /\ fst (initial_phase denied account_only_config initial_state)
     = Ok (0, 7, true)
  /\ log (snd (initial_phase denied account_only_config initial_state))
     = map Request
         (map (probe_request (account_tester account_only_config)) battery)
  /\ 0 + 7 = 7 * credentials account_only_config.
Proof.
  destruct (proj1 (phase_totals_count_the_credentials denied
                     account_only_config initial_state)
              (snd (initial_phase denied account_only_config initial_state))
              0 7 true ltac:(vm_compute; reflexivity))
    as (T & _ & _ & L).
  split; [reflexivity|]. split; [vm_compute; reflexivity|].
  split; [|exact T].
  rewrite L. vm_compute. reflexivity.
Defined.

End TesterHeal.


Section TesterInputs.
Import Py Tester Battery More MoreTester.

(** ** Splitting at a separator *)

Lemma split_scan_skip (sep u t cur : str) :
  split_scan sep (u ++ t) (length u) cur = split_scan sep t 0 cur.
Proof.
  induction u as [|c u IH]; simpl; [|exact IH].
  destruct t; reflexivity.
Qed.

Lemma split_scan_no_match (sep t : str) :
  forall cur,
    str_in sep t = false -> split_scan sep t 0 cur = [rev cur ++ t].
Proof.
  unfold str_in. induction t as [|c t IH]; intros cur H.
  - simpl. rewrite app_nil_r. reflexivity.
  - cbn [is_infix] in H. apply orb_false_iff in H. destruct H as [H1 H2].
    cbn [split_scan]. rewrite H1, (IH (c :: cur) H2). simpl.
    rewrite <- app_assoc. reflexivity.
Qed.

Lemma split_at_match (sep t : str) (cur : str) :
  sep <> [] ->
  split_scan sep (sep ++ t) 0 cur = rev cur :: split_scan sep t 0 [].
Proof.
  destruct sep as [|c sep]; [contradiction|]. intros _.
  cbn [app split_scan].
  change (c :: sep ++ t) with ((c :: sep) ++ t). rewrite startswith_app.
  cbn [length]. rewrite Nat.sub_succ, Nat.sub_0_r.
  rewrite split_scan_skip. reflexivity.
Qed.

Lemma remove_all_prefix (sep t : str) :
  sep <> [] -> str_in sep t = false -> remove_all sep (sep ++ t) = t.
Proof.
  intros Hs Ht. unfold remove_all, split.
  rewrite (split_at_match sep t [] Hs), (split_scan_no_match sep t [] Ht).
  simpl. rewrite app_nil_r. reflexivity.
Qed.

(** X15: a verification URL made of the API base followed by a path that
    does not contain the base again is requested as it is written; with
    no verification URL, or an empty one, the probe calls
    [/user/tokens/verify] under the API base. *)
Theorem verification_url_is_requested_as_written
  (self : tester) (path : str) :
  (verify_url self = Some (base_url ++ path) ->
   str_in base_url path = false ->
   req_url (probe_request self Verification) = base_url ++ path)
  /\ (verify_url self = None \/ verify_url self = Some [] ->
      req_url (probe_request self Verification)
      = base_url ++ lit "/user/tokens/verify").
Proof.
  unfold probe_request, probe_endpoint. cbn [get_request req_url].
  split.
  - intros Hv H.
    assert (E : verify_endpoint self = remove_all base_url (base_url ++ path))
      by (unfold verify_endpoint; rewrite Hv; reflexivity).
    rewrite E, (remove_all_prefix base_url path ltac:(discriminate) H).
    reflexivity.
  - unfold verify_endpoint. intros [->| ->]; reflexivity.
Qed.

(** X15 at a tester with the account-scoped verification URL. *)
Lemma verification_url_at_sample :
  req_url (probe_request with_custom_verify Verification)
  = base_url ++ lit "/accounts/acc1/tokens/verify".
Proof.
  exact (proj1 (verification_url_is_requested_as_written with_custom_verify
                  (lit "/accounts/acc1/tokens/verify"))
               eq_refl eq_refl).
Defined.

(** ** The variables the token tester loads *)

Lemma env_line_origin (env_vars : dict str) (line k v : str) :
  In (k, v) (env_line env_vars line) ->
  In (k, v) env_vars
  \/ (~ In EQUALS k /\ starts_like_a_key k /\ ends_clean is_single_quote v).
Proof.
  unfold env_line.
  destruct (nonempty (strip line)) eqn:Hn; [|left; assumption].
  destruct (startswith N.eqb HASH (strip line)) eqn:Hc; [left; assumption|].
  cbn [negb andb].
  destruct (split_once EQUALS (strip line)) as [[key value]|] eqn:S;
    [|left; assumption].
  intros H. apply dict_set_In in H. destruct H as [[-> ->]|H];
    [|left; exact H].
  right. apply split_once_before in S. destruct S as [Hne E].
  split; [exact Hne|]. split.
  - intros c t ->. split.
    + exact (proj1 (strip_by_clean is_space line) c _ E).
    + intros ->. rewrite E in Hc. simpl in Hc. discriminate.
  - apply (strip_by_clean is_single_quote).
Qed.

Lemma fold_env_line_origin (lines : list str) :
  forall env_vars k v,
    In (k, v) (fold_left env_line lines env_vars) ->
    In (k, v) env_vars
    \/ (~ In EQUALS k /\ starts_like_a_key k
        /\ ends_clean is_single_quote v).
Proof.
  induction lines as [|l lines IH]; intros env_vars k v; cbn [fold_left].
  - intros H. left; exact H.
  - intros H. apply IH in H. destruct H as [H|H]; [|right; exact H].
    exact (env_line_origin env_vars l k v H).
Qed.

Lemma fold_env_line_nodup (lines : list str) (d : dict str) :
  NoDup (dict_keys d) -> NoDup (dict_keys (fold_left env_line lines d)).
Proof.
  revert d. induction lines as [|l lines IH]; simpl; intros d H; [exact H|].
  apply IH. unfold env_line.
  destruct (nonempty (strip l) && negb (startswith N.eqb HASH (strip l)));
    [|exact H].
  destruct (split_once EQUALS (strip l)) as [[k v]|]; [|exact H].
  apply dict_set_nodup, H.
Qed.

(** X16: every variable the token tester loads has a name that contains
    no [=] and starts with neither white space nor [#] (comment lines
    give no variable), and a value that neither starts nor ends with a
    single quote; the names are pairwise distinct. *)
Theorem loaded_variables_are_well_formed
  (contents : str) (env_vars : dict str) (k v : str) :
  load_env_vars (Some contents) = Ok env_vars ->
  In (k, v) env_vars ->
  ~ In EQUALS k
  /\ starts_like_a_key k
  /\ ends_clean is_single_quote v
  /\ NoDup (dict_keys env_vars).
Proof.
  intros H Hin. simpl in H. injection H as <-.
  apply fold_env_line_origin in Hin. destruct Hin as [[]|(A & B & C)].
  split; [exact A|]. split; [exact B|]. split; [exact C|].
  apply fold_env_line_nodup. constructor.
Qed.

(** X16 at the sample file. *)
Lemma loaded_variables_at_sample :
  starts_like_a_key (lit "CLOUDFLARE_ACCOUNT_ID")
  /\ NoDup (dict_keys (fold_left env_line (file_lines account_only) [])).
Proof.
  destruct (loaded_variables_are_well_formed account_only
              (fold_left env_line (file_lines account_only) [])
              (lit "CLOUDFLARE_ACCOUNT_ID") (lit "acc1") eq_refl
              ltac:(vm_compute; left; reflexivity))
    as (_ & B & _ & D).
  split; [exact B | exact D].
Defined.

(** ** Listings that are not empty *)

Lemma names_of_items (field : str) (items : list json) (names : list str) :
  map (item_name field) items = map Some names ->
  map_result (fun x => py_get x field (JStr (lit "Unnamed"))) items
  = Ok (map JStr names).
Proof.
  revert names. induction items as [|x items IH]; intros [|n names] H;
    try discriminate; [reflexivity|].
  simpl in H. injection H as Hx Hrest.
  cbn [map_result map]. rewrite (IH names Hrest).
  destruct x as [| | | | | |e]; simpl in Hx; try discriminate.
  cbn [py_get].
  destruct (dict_get field e) as [[| | | |s| |]|]; try discriminate;
    injection Hx as <-; reflexivity.
Qed.

Lemma all_strs_names (names : list str) :
  all_strs (map JStr names) = Ok names.
Proof.
  induction names as [|n names IH]; simpl; [reflexivity|].
  rewrite IH. reflexivity.
Qed.

Lemma list_probe_found (self : tester) (endpoint name field : str)
  (shown : nat) (noun : str) (when_empty : bool * text)
  (net : backend) (s : state) (d : list (str * json)) (v : json)
  (items : list json) (names : list str) :
  net (log s) (get_request self endpoint)
  = Response 200 (Some (JDict d)) ->
  dict_get (lit "success") d = Some v ->
  truthy v = true ->
  dict_get (lit "result") d = Some (JList items) ->
  items <> [] ->
  map (item_name field) (firstn shown items) = map Some names ->
  list_probe net self endpoint name field shown noun when_empty s
  = (Ok true,
     {| results :=
          results s
          ++ [(name, true,
               [Lit (lit "Found "); Fmt (JInt (Z.of_nat (length items)));
                Lit noun; Lit (join (lit ", ") names)])];
        log := log s ++ [Request (get_request self endpoint)] |}).
Proof.
  intros Hnet Hv Ht Hr Hne Hnames.
  unfold list_probe, bind, make_request, lift, print_test, ret.
  rewrite Hnet, (classify_success 200 d v eq_refl Hv Ht).
  cbn [py_get]. rewrite Hr. cbn [py_len].
  destruct items as [|x items]; [contradiction|].
  cbn [length Nat.ltb Nat.leb py_take].
  rewrite (names_of_items field _ names Hnames).
  unfold py_join. rewrite all_strs_names. reflexivity.
Qed.

(** X17: a list probe (probes 2 to 7) answered with status 200, a true
    success flag and a non-empty result list records a pass whose message
    gives the number of all items and the names of the first three (five
    for the workers probe), provided each of these first items is an
    object whose name field is a string or is absent (then shown as
    "Unnamed"); the items after them are not looked at. *)
Theorem listing_is_a_pass_showing_the_first_items
  (net : backend) (self : tester) (s : state) (p : probe)
  (d : list (str * json)) (v : json) (items : list json)
  (names : list str) :
  p <> Verification ->
  net (log s) (probe_request self p) = Response 200 (Some (JDict d)) ->
  dict_get (lit "success") d = Some v ->
  truthy v = true ->
  dict_get (lit "result") d = Some (JList items) ->
  items <> [] ->
  map (item_name (probe_field p)) (firstn (probe_shown p) items)
  = map Some names ->
  run_probe net self p s
  = (Ok true,
     {| results :=
          results s
          ++ [(probe_name self p, true,
               [Lit (lit "Found "); Fmt (JInt (Z.of_nat (length items)));
                Lit (probe_noun p); Lit (join (lit ", ") names)])];
        log := log s ++ [Request (probe_request self p)] |}).
Proof.
  intros Hp Hnet Hv Ht Hr Hne Hnames.
  destruct p; [contradiction | | | | | |];
    exact (list_probe_found self _ _ _ _ _ _ net s d v items names
             Hnet Hv Ht Hr Hne Hnames).
Qed.

(** X17 at three workers, the first without an identifier. *)
Lemma listing_at_three_workers :
  results (snd (run_probe three_workers sample_tester Workers initial_state))
  = [(lit "List Workers Scripts", true,
      [Lit (lit "Found "); Fmt (JInt 3); Lit (lit " script(s): ");
       Lit (lit "Unnamed, api, cron")])].
Proof.
  rewrite (listing_is_a_pass_showing_the_first_items three_workers
             sample_tester initial_state Workers
             [(lit "success", JBool true);
              (lit "result",
               JList [JDict []; JDict [(lit "id", JStr (lit "api"))];
                      JDict [(lit "id", JStr (lit "cron"))]])]
             (JBool true)
             [JDict []; JDict [(lit "id", JStr (lit "api"))];
              JDict [(lit "id", JStr (lit "cron"))]]
             [lit "Unnamed"; lit "api"; lit "cron"]
             ltac:(discriminate) eq_refl eq_refl eq_refl eq_refl
             ltac:(discriminate) eq_refl).
  reflexivity.
Defined.

End TesterInputs.


(* ================================================================== *)
(** * Further properties of the comment extractor *)
(* ================================================================== *)

Section ExtractorInputs.
Import Py Extractor Report More MoreReport.

(** ** Splitting at one code point *)

Lemma split_char_before (c : char) (a b : str) :
  ~ In c a ->
  forall cur,
    split_scan [c] (a ++ c :: b) 0 cur
    = (rev cur ++ a) :: split_scan [c] b 0 [].
Proof.
  induction a as [|x a IH]; intros Ha cur.
  - cbn [app split_scan startswith length Nat.sub].
    rewrite N.eqb_refl, app_nil_r. reflexivity.
  - cbn [app split_scan startswith].
    assert (E : N.eqb c x = false).
    { apply N.eqb_neq. intros ->. apply Ha. left; reflexivity. }
    rewrite E. cbn [andb].
    rewrite IH by (intros H; apply Ha; right; exact H).
    simpl. rewrite <- app_assoc. reflexivity.
Qed.

Lemma split_char_none (c : char) (b : str) :
  ~ In c b -> forall cur, split_scan [c] b 0 cur = [rev cur ++ b].
Proof.
  induction b as [|x b IH]; intros Hb cur.
  - simpl. rewrite app_nil_r. reflexivity.
  - cbn [split_scan startswith].
    assert (E : N.eqb c x = false).
    { apply N.eqb_neq. intros ->. apply Hb. left; reflexivity. }
    rewrite E. cbn [andb].
    rewrite IH by (intros H; apply Hb; right; exact H).
    simpl. rewrite <- app_assoc. reflexivity.
Qed.

Lemma split_scan_nonempty (sep s : str) :
  forall skip cur, split_scan sep s skip cur <> [].
Proof.
  induction s as [|x s IH]; intros skip cur; simpl; [discriminate|].
  destruct skip; [|apply IH].
  destruct (startswith N.eqb sep (x :: s)); [discriminate | apply IH].
Qed.

Lemma join_cons (sep p : str) (rest : list str) :
  rest <> [] -> join sep (p :: rest) = p ++ sep ++ join sep rest.
Proof. destruct rest; [contradiction | reflexivity]. Qed.

Lemma join_split_char (c : char) (s : str) :
  forall cur, join [c] (split_scan [c] s 0 cur) = rev cur ++ s.
Proof.
  induction s as [|x s IH]; intros cur.
  - simpl. rewrite app_nil_r. reflexivity.
  - cbn [split_scan startswith length Nat.sub].
    destruct (N.eqb c x) eqn:E; cbn [andb].
    + apply N.eqb_eq in E. subst x.
      rewrite join_cons by apply split_scan_nonempty.
      rewrite IH. reflexivity.
    + rewrite IH. simpl. rewrite <- app_assoc. reflexivity.
Qed.

Lemma split_char_parts (c : char) (s : str) :
  forall cur,
    ~ In c cur -> Forall (fun part => ~ In c part) (split_scan [c] s 0 cur).
Proof.
  induction s as [|x s IH]; intros cur Hcur.
  - simpl. constructor; [|constructor]. intros H. apply Hcur.
    apply in_rev. exact H.
  - cbn [split_scan startswith length Nat.sub].
    destruct (N.eqb c x) eqn:E; cbn [andb].
    + constructor; [|apply IH; intros []].
      intros H. apply Hcur. apply in_rev. exact H.
    + apply IH. apply N.eqb_neq in E.
      intros [H|H]; [congruence | exact (Hcur H)].
Qed.

(** ** The remote URL *)

Lemma is_infix_app (n a b : str) : str_in n (a ++ n ++ b) = true.
Proof.
  unfold str_in. induction a as [|x a IH]; cbn [app].
  - destruct n as [|y n]; [destruct b; reflexivity|].
    cbn [app is_infix].
    change (y :: n ++ b) with ((y :: n) ++ b). rewrite startswith_app.
    reflexivity.
  - cbn [is_infix]. rewrite IH. apply orb_true_r.
Qed.

Lemma endswith_app (p a : str) : endswith N.eqb p (a ++ p) = true.
Proof. unfold endswith. rewrite rev_app_distr. apply startswith_app. Qed.

Lemma firstn_length_app {A} (a b : list A) : firstn (length a) (a ++ b) = a.
Proof. induction a as [|x a IH]; simpl; [destruct b|rewrite IH]; reflexivity. Qed.

Lemma repo_part_parts (owner repo : str) :
  ~ In SLASH owner -> ~ In SLASH repo ->
  let repo_part := repo_path owner repo in
  endswith N.eqb (lit ".git") repo_part = true
  /\ split (lit "/") (firstn (length repo_part - 4) repo_part)
     = [owner; repo].
Proof.
  intros Ho Hr. cbv zeta. unfold repo_path. split.
  - rewrite !app_assoc. apply endswith_app.
  - replace (length (owner ++ lit "/" ++ repo ++ lit ".git") - 4)
      with (length (owner ++ lit "/" ++ repo))
      by (rewrite !length_app; simpl; lia).
    replace (owner ++ lit "/" ++ repo ++ lit ".git")
      with ((owner ++ lit "/" ++ repo) ++ lit ".git")
      by (rewrite <- !app_assoc; reflexivity).
    rewrite firstn_length_app. unfold split.
    change (lit "/" ++ repo) with (SLASH :: repo).
    change (lit "/") with [SLASH].
    rewrite (split_char_before SLASH owner repo Ho),
      (split_char_none SLASH repo Hr).
    reflexivity.
Qed.

(** X18: a remote URL of the form [https://github.com/owner/repo.git] or
    [git@github.com:owner/repo.git] gives back the owner and the
    repository name, when neither contains a slash and the path does not
    contain the host marker again. *)
Theorem remote_url_gives_owner_and_repository (owner repo : str) :
  ~ In SLASH owner ->
  ~ In SLASH repo ->
  str_in (lit "github.com/") (repo_path owner repo) = false ->
  str_in (lit "github.com:") (repo_path owner repo) = false ->
  repo_of_remote (lit "https://github.com/" ++ repo_path owner repo)
  = Some (owner, repo)
  /\ repo_of_remote (lit "git@github.com:" ++ repo_path owner repo)
     = Some (owner, repo).
Proof.
  intros Ho Hr Hs Hc.
  destruct (repo_part_parts owner repo Ho Hr) as [He Hp].
  cbv zeta in He, Hp. split.
  - unfold repo_of_remote.
    assert (E1 : str_in (lit "github.com")
                   (lit "https://github.com/" ++ repo_path owner repo)
                 = true).
    { exact (is_infix_app (lit "github.com") (lit "https://")
               (SLASH :: repo_path owner repo)). }
    rewrite E1.
    assert (E2 : startswith N.eqb (lit "https://")
                   (lit "https://github.com/" ++ repo_path owner repo)
                 = true) by reflexivity.
    rewrite E2.
    assert (E3 : split (lit "github.com/")
                   (lit "https://github.com/" ++ repo_path owner repo)
                 = [lit "https://"; repo_path owner repo]).
    { unfold split.
      transitivity (split_scan (lit "github.com/")
                      (lit "github.com/" ++ repo_path owner repo) 0
                      (rev (lit "https://"))); [reflexivity|].
      rewrite split_at_match by discriminate.
      rewrite (split_scan_no_match _ _ [] Hs). reflexivity. }
    rewrite E3. cbn [nth_error]. rewrite He, Hp. reflexivity.
  - unfold repo_of_remote.
    assert (E1 : str_in (lit "github.com")
                   (lit "git@github.com:" ++ repo_path owner repo)
                 = true).
    { exact (is_infix_app (lit "github.com") (lit "git@")
               (58%N :: repo_path owner repo)). }
    rewrite E1.
    assert (E2 : startswith N.eqb (lit "https://")
                   (lit "git@github.com:" ++ repo_path owner repo)
                 = false) by reflexivity.
    rewrite E2.
    assert (E3 : split (lit "github.com:")
                   (lit "git@github.com:" ++ repo_path owner repo)
                 = [lit "git@"; repo_path owner repo]).
    { unfold split.
      transitivity (split_scan (lit "github.com:")
                      (lit "github.com:" ++ repo_path owner repo) 0
                      (rev (lit "git@"))); [reflexivity|].
      rewrite split_at_match by discriminate.
      rewrite (split_scan_no_match _ _ [] Hc). reflexivity. }
    rewrite E3. cbn [nth_error]. rewrite He, Hp. reflexivity.
Qed.

(** X18 at this repository's own remote. *)
Lemma remote_url_at_sample :
  repo_of_remote
    (lit "https://github.com/jmbish04/core-cloudflare-management-api.git")
  = Some (lit "jmbish04", lit "core-cloudflare-management-api").
Proof.
  exact (proj1 (remote_url_gives_owner_and_repository
                  (lit "jmbish04") (lit "core-cloudflare-management-api")
                  ltac:(vm_compute; intuition discriminate)
                  ltac:(vm_compute; intuition discriminate)
                  eq_refl eq_refl)).
Defined.

End ExtractorInputs.


Section ExtractorStages.
Import Py Extractor Report More MoreReport.

Variable json_loads : str -> option json.

(** ** Stages that stop the run *)

(** X19: when the git command fails, prints nothing, or prints a remote
    URL that does not contain [github.com], the pull request lookup gives
    nothing and the gh command is not called for it: the git command is
    the only one it has run. *)
Theorem no_lookup_without_a_github_remote (w : world) (tr : trace) :
  returncode (shell w tr GIT_REMOTE) <> 0%Z
  \/ str_in (lit "github.com") (strip (stdout (shell w tr GIT_REMOTE)))
     = false ->
  get_open_pr json_loads w tr = (None, tr ++ [Shell GIT_REMOTE]).
Proof.
  intros H. unfold get_open_pr, run_gh_command. fold GIT_REMOTE.
  destruct (returncode (shell w tr GIT_REMOTE) =? 0)%Z eqn:E.
  - destruct H as [H|H]; [apply Z.eqb_eq in E; contradiction|].
    destruct (strip (stdout (shell w tr GIT_REMOTE))) as [|c u] eqn:S;
      [reflexivity|].
    unfold repo_of_remote. rewrite H. reflexivity.
  - reflexivity.
Qed.

(** X20: when the version check of the gh command fails or prints
    nothing, the extractor exits with status 1 and that check is the only
    command it has run. *)
Theorem no_gh_stops_the_run (w : world) :
  returncode (shell w [] GH_VERSION) <> 0%Z
  \/ strip (stdout (shell w [] GH_VERSION)) = [] ->
  main json_loads w = (1%Z, [Shell GH_VERSION]).
Proof.
  intros H. unfold main, run_gh_command. fold GH_VERSION.
  destruct (returncode (shell w [] GH_VERSION) =? 0)%Z eqn:E.
  - destruct H as [H|H]; [apply Z.eqb_eq in E; contradiction|].
    rewrite H. reflexivity.
  - reflexivity.
Qed.

(** ** The comments *)

Lemma lstrip_by_clean (p : char -> bool) (s : str) :
  (forall c t, s = c :: t -> p c = false) -> lstrip_by p s = s.
Proof.
  destruct s as [|c t]; intros H; [reflexivity|].
  simpl. rewrite (H c t eq_refl). reflexivity.
Qed.

Lemma strip_by_idempotent (p : char -> bool) (s : str) :
  strip_by p (strip_by p s) = strip_by p s.
Proof.
  destruct (strip_by_clean p s) as [Hhead Hlast].
  set (u := strip_by p s) in *. unfold strip_by at 1.
  rewrite (lstrip_by_clean p u Hhead). unfold rstrip_by.
  rewrite lstrip_by_clean; [apply rev_involutive|].
  intros c t H. apply (Hlast c (rev t)).
  rewrite <- (rev_involutive u), H. reflexivity.
Qed.

(** X21: when the fetch succeeds, the comments are the lines of its
    trimmed output: joined with line ends they give the trimmed output
    back, none of them contains a line end, and there is no comment
    exactly when the output is blank. *)
Theorem comments_are_the_lines_of_the_output
  (w : world) (pr_info : pr_descriptor) (tr : trace) :
  returncode (shell w tr (comments_command pr_info)) = 0%Z ->
  exists comments,
    extract_pr_comments w pr_info tr
    = (Some comments, tr ++ [Shell (comments_command pr_info)])
    /\ join NL comments
       = strip (stdout (shell w tr (comments_command pr_info)))
    /\ Forall (fun comment => ~ In 10%N comment) comments
    /\ (comments = []
        <-> strip (stdout (shell w tr (comments_command pr_info))) = []).
Proof.
  intros H. unfold extract_pr_comments, run_gh_command.
  apply Z.eqb_eq in H. rewrite H.
  set (out := strip (stdout (shell w tr (comments_command pr_info)))).
  assert (E : strip out = out) by apply strip_by_idempotent.
  rewrite E. destruct out as [|c u] eqn:O.
  - exists []. simpl. repeat split; constructor.
  - exists (split NL (c :: u)). cbn [nonempty].
    split; [reflexivity|]. split; [|split].
    + exact (join_split_char 10%N (c :: u) []).
    + apply (split_char_parts 10%N (c :: u) []). intros [].
    + split; [|discriminate].
      intros Hs. exfalso.
      exact (split_scan_nonempty NL (c :: u) 0 [] Hs).
Qed.

(** X21 at the pull request with two comments. *)
Lemma comments_at_sample :
  fst (extract_pr_comments two_comments pull_request_7 [])
  = Some [lit "src/a.ts:3 - rename this"; lit "src/b.ts:9 - add a test"].
Proof.
  destruct (comments_are_the_lines_of_the_output two_comments
              pull_request_7 [] eq_refl) as (comments & E & _).
  rewrite E. vm_compute in E. injection E as <-. reflexivity.
Defined.

(** ** The report *)

Lemma write_all_done (w : world) (filename : text) (chunks : list text) :
  forall tr tr',
    write_all w filename chunks tr = (true, tr') ->
    tr' = tr ++ map (Written filename) chunks.
Proof.
  induction chunks as [|data rest IH]; intros tr tr'; cbn [write_all map].
  - intros H; injection H as <-. rewrite app_nil_r. reflexivity.
  - destruct (can_write w tr filename data); [|discriminate].
    intros H. apply IH in H. rewrite H, <- app_assoc. reflexivity.
Qed.

Lemma report_chunks_length (comments : list str) (pr_info : pr_descriptor) :
  length (report_chunks comments pr_info) = 3 + Nat.max 1 (length comments).
Proof.
  unfold report_chunks. rewrite length_app.
  destruct comments as [|c cs]; [reflexivity|].
  rewrite length_map. reflexivity.
Qed.

(** X22: the extractor exits with status 0 only when the whole report
    has been written: after the shell commands, the last of which
    returned the comments, the report file named after the pull request
    was created and received, in order, its three header pieces and then
    one piece per comment, or the single line saying that there is none. *)
Theorem success_means_the_whole_report_was_written (w : world) :
  fst (main json_loads w) = 0%Z ->
  exists pr_info tr1 comments fetched,
    extract_pr_comments w pr_info tr1 = (Some comments, fetched)
    /\ only_shell fetched
    /\ snd (main json_loads w)
       = fetched
         ++ Created (report_name pr_info)
            :: map (Written (report_name pr_info))
                   (report_chunks comments pr_info)
    /\ length (report_chunks comments pr_info)
       = 3 + Nat.max 1 (length comments).
Proof.
  unfold main.
  pose proof (run_gh_command_shell w [Lit (lit "gh --version")] []
                only_shell_nil) as H0.
  destruct (run_gh_command w [Lit (lit "gh --version")] [])
    as [version tr0]. simpl in H0.
  destruct version as [[|c v]|]; try discriminate.
  pose proof (get_open_pr_shell json_loads w tr0 H0) as H1.
  destruct (get_open_pr json_loads w tr0) as [[pr_info|] tr1];
    simpl in H1; [|discriminate].
  pose proof (extract_pr_comments_shell w pr_info tr1 H1) as H2.
  destruct (extract_pr_comments w pr_info tr1) as [[comments|] tr2] eqn:E;
    simpl in H2; [|discriminate].
  unfold save_comments_to_file.
  destruct (can_open w tr2 (report_name pr_info)); [|discriminate].
  destruct (write_all w (report_name pr_info)
              (report_chunks comments pr_info)
              (tr2 ++ [Created (report_name pr_info)]))
    as [ok tr3] eqn:W.
  destruct ok; [|discriminate].
  intros _. apply write_all_done in W.
  exists pr_info, tr1, comments, tr2. cbn [snd].
  rewrite W, <- app_assoc.
  split; [exact E|]. split; [exact H2|]. split; [reflexivity|].
  apply report_chunks_length.
Qed.

(** ** The pull request *)

(** X23: when the remote URL names a repository and the listing of its
    open pull requests is a JSON list whose first element is an object
    with a number and a title, that first pull request is the one
    selected, whatever follows it in the list; the lookup has run the git
    command and then the listing command for that repository, and
    nothing else. *)
Theorem first_listed_pull_request_is_selected
  (w : world) (tr : trace) (remote owner repo listing : str)
  (pr : list (str * json)) (others : list json) (number title : json) :
  returncode (shell w tr GIT_REMOTE) = 0%Z ->
  strip (stdout (shell w tr GIT_REMOTE)) = remote ->
  remote <> [] ->
  repo_of_remote remote = Some (owner, repo) ->
  returncode (shell w (tr ++ [Shell GIT_REMOTE]) (pr_list_command owner repo))
  = 0%Z ->
  strip (stdout (shell w (tr ++ [Shell GIT_REMOTE])
                   (pr_list_command owner repo))) = listing ->
  listing <> [] ->
  json_loads listing = Some (JList (JDict pr :: others)) ->
  dict_get (lit "number") pr = Some number ->
  dict_get (lit "title") pr = Some title ->
  get_open_pr json_loads w tr
  = (Some {| pr_number := number;
             pr_title := title;
             pr_repo := owner ++ lit "/" ++ repo |},
     (tr ++ [Shell GIT_REMOTE]) ++ [Shell (pr_list_command owner repo)]).
Proof.
  intros Hrc Hout Hne Hrepo Hrc2 Hout2 Hne2 Hjson Hn Ht.
  unfold get_open_pr, run_gh_command. fold GIT_REMOTE.
  apply Z.eqb_eq in Hrc, Hrc2. rewrite Hrc, Hout.
  destruct remote as [|c u]; [contradiction|]. rewrite Hrepo.
  rewrite Hrc2, Hout2.
  destruct listing as [|c' o]; [contradiction|].
  unfold first_pr. rewrite Hjson. cbn [truthy nonempty negb py_first py_item].
  rewrite Hn, Ht. reflexivity.
Qed.

End ExtractorStages.

Section ExtractorSamples.
Import Py Extractor Report More MoreReport.

(** X19 at a checkout whose remote is on another host. *)
Lemma no_lookup_at_other_host :
  get_open_pr one_pull_request other_host [] = (None, [Shell GIT_REMOTE]).
Proof.
  apply (no_lookup_without_a_github_remote one_pull_request other_host []).
  right. vm_compute. reflexivity.
Defined.

(** X20 on a machine without the gh command. *)
Lemma no_gh_at_sample :
  main one_pull_request no_gh = (1%Z, [Shell GH_VERSION]).
Proof.
  apply (no_gh_stops_the_run one_pull_request no_gh).
  left. vm_compute. discriminate.
Defined.

(** X22 at the pull request with two comments. *)
Lemma whole_report_at_sample :
  exists pr_info tr1 comments fetched,
    extract_pr_comments two_comments pr_info tr1 = (Some comments, fetched)
    /\ only_shell fetched
    /\ snd (main one_pull_request two_comments)
       = fetched
         ++ Created (report_name pr_info)
            :: map (Written (report_name pr_info))
                   (report_chunks comments pr_info)
    /\ length (report_chunks comments pr_info)
       = 3 + Nat.max 1 (length comments).
Proof.
  exact (success_means_the_whole_report_was_written one_pull_request
           two_comments ltac:(vm_compute; reflexivity)).
Defined.

(** X23 at the checkout of [owner/repo]. *)
Lemma first_pull_request_at_sample :
  fst (get_open_pr one_pull_request two_comments []) = Some pull_request_7.
Proof.
  rewrite (first_listed_pull_request_is_selected one_pull_request
             two_comments [] (lit "git@github.com:owner/repo.git")
             (lit "owner") (lit "repo") (lit "[{...}]")
             [(lit "number", JInt 7);
              (lit "title", JStr (lit "Fix the heal flow"))]
             [] (JInt 7) (JStr (lit "Fix the heal flow"))
             eq_refl eq_refl ltac:(discriminate) eq_refl eq_refl eq_refl
             ltac:(discriminate) eq_refl eq_refl eq_refl).
  reflexivity.
Defined.

End ExtractorSamples.
